(** * Credential resolution and call boundaries of the Databricks example app

    A shallow embedding of [src/example-app/src/utils.py].  The process
    state the Python code reads and mutates ([os.environ], the Flask
    request, the module global [databricks_client], the logger) is an
    explicit [World]; Python exceptions are the left summand of a small
    state-and-error monad.  The Databricks SDK, [json], [pydantic]'s
    message rendering, the Azure endpoint and the clock are outside the
    repository: they appear as the fields of the class [Platform].  The
    two [pandas] calls are written out.  Strings are the UTF-8 encodings
    of Python's [str] values.  The field [api_calls] of the world is a
    trace added to observe which client object makes each statement
    execution, job run and serving query; the identity lookup
    [current_user.me()] and the posts to Azure are not part of it. *)

From Stdlib Require Import ZArith List Ascii String.
From stdpp Require Import gmap strings list fin_maps pretty.

Local Open Scope string_scope.
Local Open Scope Z_scope.

(** ** Python values *)

(** What [json.loads] can return and what the result dictionaries hold.
    A float is kept as its IEEE-754 binary64 bit pattern, which is all
    the code needs (truthiness). *)
#[warnings="-register-all"]
Inductive PyVal :=
| VNone
| VBool (b : bool)
| VInt (z : Z)
| VFloat (bits : Z)
| VStr (s : string)
| VList (items : list PyVal)
| VDict (items : list (PyVal * PyVal)).

(** [bool(v)] *)
Definition truthy (v : PyVal) : bool :=
  match v with
  | VNone => false
  | VBool b => b
  | VInt z => negb (z =? 0)
  | VFloat bits => negb (Z.land bits (2 ^ 63 - 1) =? 0)
  | VStr s => negb (String.eqb s "")
  | VList l => match l with [] => false | _ => true end
  | VDict l => match l with [] => false | _ => true end
  end.

(** [bool(s)] for [s : Optional[str]] *)
Definition truthy_str (o : option string) : bool :=
  match o with
  | Some s => negb (String.eqb s "")
  | None => false
  end.

Definition type_name (v : PyVal) : string :=
  match v with
  | VNone => "NoneType"
  | VBool _ => "bool"
  | VInt _ => "int"
  | VFloat _ => "float"
  | VStr _ => "str"
  | VList _ => "list"
  | VDict _ => "dict"
  end.

Definition key_is (k : string) (v : PyVal) : bool :=
  match v with
  | VStr s => String.eqb s k
  | _ => false
  end.

(** [d.get(k)] on the items of a dict, first binding wins. *)
Fixpoint items_get (k : string) (items : list (PyVal * PyVal)) : option PyVal :=
  match items with
  | [] => None
  | (k', v) :: rest => if key_is k k' then Some v else items_get k rest
  end.

(** [d[k]] for a result dictionary. *)
Definition dict_get (k : string) (d : PyVal) : option PyVal :=
  match d with
  | VDict items => items_get k items
  | _ => None
  end.

Definition py_or (a b : PyVal) : PyVal := if truthy a then a else b.

Definition of_opt_str (o : option string) : PyVal :=
  match o with
  | Some s => VStr s
  | None => VNone
  end.

Definition str_dict (kvs : list (string * string)) : PyVal :=
  VDict (map (fun kv => (VStr (fst kv), VStr (snd kv))) kvs).

(** *** Strings *)

(** [str.isspace] on the ASCII range: tab, LF, VT, FF, CR, FS, GS, RS, US, space. *)
Definition is_space (a : ascii) : bool :=
  let n := nat_of_ascii a in
  ((9 <=? n) && (n <=? 13) || (28 <=? n) && (n <=? 32))%nat.

(** The white space of [str.strip] beyond ASCII, by UTF-8 encoding:
    U+0085 and U+00A0 take two bytes (C2 85, C2 A0); U+1680 (E1 9A 80),
    U+2000 to U+200A, U+2028, U+2029, U+202F (E2 80 80..8A, A8, A9, AF),
    U+205F (E2 81 9F) and U+3000 (E3 80 80) take three. *)
Definition is_space2 (a b : ascii) : bool :=
  let a := nat_of_ascii a in
  let b := nat_of_ascii b in
  ((a =? 194) && ((b =? 133) || (b =? 160)))%nat.

Definition is_space3 (a b c : ascii) : bool :=
  let a := nat_of_ascii a in
  let b := nat_of_ascii b in
  let c := nat_of_ascii c in
  ((a =? 225) && (b =? 154) && (c =? 128)
   || (a =? 226) && (b =? 128)
      && ((128 <=? c) && (c <=? 138) || (c =? 168) || (c =? 169) || (c =? 175))
   || (a =? 226) && (b =? 129) && (c =? 159)
   || (a =? 227) && (b =? 128) && (c =? 128))%nat.

(** [s.lstrip()] on the bytes of [s] *)
Fixpoint lstrip_chars (l : list ascii) : list ascii :=
  match l with
  | a :: rest =>
      if is_space a then lstrip_chars rest
      else
        match rest with
        | b :: rest1 =>
            if is_space2 a b then lstrip_chars rest1
            else
              match rest1 with
              | c :: rest2 => if is_space3 a b c then lstrip_chars rest2 else l
              | [] => l
              end
        | [] => l
        end
  | [] => []
  end.

(** [s.rstrip()] on the bytes of [s] in reverse order: the last byte of
    the last character comes first. *)
Fixpoint rstrip_chars_rev (l : list ascii) : list ascii :=
  match l with
  | c :: rest =>
      if is_space c then rstrip_chars_rev rest
      else
        match rest with
        | b :: rest1 =>
            if is_space2 b c then rstrip_chars_rev rest1
            else
              match rest1 with
              | a :: rest2 => if is_space3 a b c then rstrip_chars_rev rest2 else l
              | [] => l
              end
        | [] => l
        end
  | [] => []
  end.

(** [s.strip()] *)
Definition strip (s : string) : string :=
  string_of_list_ascii
    (rev (rstrip_chars_rev (rev (lstrip_chars (list_ascii_of_string s))))).

(** [needle in s] *)
Fixpoint contains (needle s : string) : bool :=
  String.prefix needle s ||
  match s with
  | EmptyString => false
  | String _ rest => contains needle rest
  end.

(** ** Exceptions *)

Record Exception := { exc_type : string; exc_msg : string }.

Definition ValueError (msg : string) : Exception :=
  {| exc_type := "ValueError"; exc_msg := msg |}.
Definition AttributeError (v : PyVal) (attr : string) : Exception :=
  {| exc_type := "AttributeError";
     exc_msg := "'" +:+ type_name v +:+ "' object has no attribute '" +:+ attr +:+ "'" |}.
Definition TypeError (msg : string) : Exception :=
  {| exc_type := "TypeError"; exc_msg := msg |}.
Definition NameError (name : string) : Exception :=
  {| exc_type := "NameError"; exc_msg := "name '" +:+ name +:+ "' is not defined" |}.

(** ** SDK objects *)

(** A [WorkspaceClient] object: its identity and the configuration its
    constructor was given (explicit arguments and the environment it read). *)
Record WorkspaceClient := {
  client_obj : nat;
  cfg_host : option string;
  cfg_token : option string;
  cfg_env : gmap string string
}.

Record ResultData := { data_array : option (list (list (option string))) }.
Record StatementResponse := {
  statement_id : option string;
  result : option ResultData
}.

Inductive ChatMessageRole := USER | SYSTEM.
Record ChatMessage := { role : ChatMessageRole; content : PyVal }.

(** ** The process state *)

Inductive LogLevel := INFO | WARNING | ERROR.

(** A module global that is only annotated is unbound until assigned. *)
Inductive Global (A : Type) :=
| Unbound
| Bound (a : A).
Arguments Unbound {A}.
Arguments Bound {A} a.

(** One traced workspace operation (a statement execution, a job run or a
    serving query): the client object that made it and the operation. *)
Record ApiCall := { call_client : nat; call_op : string }.

Record World := {
  environ : gmap string string;
  (* headers of the current Flask request, lower-cased names; [None]
     outside a request context *)
  request_headers : option (gmap string string);
  databricks_client : Global (option WorkspaceClient);
  azure_log_workspace_id : option string;
  azure_log_shared_key : option string;
  log : list (LogLevel * string);
  next_obj : nat;
  clock : nat;
  api_calls : list ApiCall
}.

Definition with_environ (f : gmap string string → gmap string string) (w : World) : World :=
  {| environ := f (environ w); request_headers := request_headers w;
     databricks_client := databricks_client w;
     azure_log_workspace_id := azure_log_workspace_id w;
     azure_log_shared_key := azure_log_shared_key w;
     log := log w; next_obj := next_obj w; clock := clock w;
     api_calls := api_calls w |}.

Definition with_request (r : option (gmap string string)) (w : World) : World :=
  {| environ := environ w; request_headers := r;
     databricks_client := databricks_client w;
     azure_log_workspace_id := azure_log_workspace_id w;
     azure_log_shared_key := azure_log_shared_key w;
     log := log w; next_obj := next_obj w; clock := clock w;
     api_calls := api_calls w |}.

Definition with_client (g : Global (option WorkspaceClient)) (w : World) : World :=
  {| environ := environ w; request_headers := request_headers w;
     databricks_client := g;
     azure_log_workspace_id := azure_log_workspace_id w;
     azure_log_shared_key := azure_log_shared_key w;
     log := log w; next_obj := next_obj w; clock := clock w;
     api_calls := api_calls w |}.

Definition with_log (l : list (LogLevel * string)) (w : World) : World :=
  {| environ := environ w; request_headers := request_headers w;
     databricks_client := databricks_client w;
     azure_log_workspace_id := azure_log_workspace_id w;
     azure_log_shared_key := azure_log_shared_key w;
     log := l; next_obj := next_obj w; clock := clock w;
     api_calls := api_calls w |}.

Definition with_next_obj (n : nat) (w : World) : World :=
  {| environ := environ w; request_headers := request_headers w;
     databricks_client := databricks_client w;
     azure_log_workspace_id := azure_log_workspace_id w;
     azure_log_shared_key := azure_log_shared_key w;
     log := log w; next_obj := n; clock := clock w;
     api_calls := api_calls w |}.

Definition with_clock (n : nat) (w : World) : World :=
  {| environ := environ w; request_headers := request_headers w;
     databricks_client := databricks_client w;
     azure_log_workspace_id := azure_log_workspace_id w;
     azure_log_shared_key := azure_log_shared_key w;
     log := log w; next_obj := next_obj w; clock := n;
     api_calls := api_calls w |}.

Definition with_api_calls (l : list ApiCall) (w : World) : World :=
  {| environ := environ w; request_headers := request_headers w;
     databricks_client := databricks_client w;
     azure_log_workspace_id := azure_log_workspace_id w;
     azure_log_shared_key := azure_log_shared_key w;
     log := log w; next_obj := next_obj w; clock := clock w;
     api_calls := l |}.

(** ** A state-and-exception monad *)

Definition M (A : Type) : Type := World → (Exception + A) * World.

Definition ret {A} (a : A) : M A := fun w => (inr a, w).
Definition raise {A} (e : Exception) : M A := fun w => (inl e, w).
Definition bind {A B} (m : M A) (k : A → M B) : M B :=
  fun w =>
    match m w with
    | (inr a, w') => k a w'
    | (inl e, w') => (inl e, w')
    end.

Declare Scope py_scope.
Delimit Scope py_scope with py.
Notation "x <- m ;; k" := (bind m (fun x => k))
  (at level 100, m at next level, right associativity) : py_scope.
Notation "m ;; k" := (bind m (fun _ => k))
  (at level 100, right associativity) : py_scope.
Local Open Scope py_scope.

(** [try: body except Exception as e: handler(e)] *)
Definition try_except {A} (body : M A) (handler : Exception → M A) : M A :=
  fun w =>
    match body w with
    | (inr a, w') => (inr a, w')
    | (inl e, w') => handler e w'
    end.

(** [try: body finally: cleanup]: the cleanup runs on both exits, and an
    exception of its own replaces the outcome of the body. *)
Definition try_finally {A} (body : M A) (cleanup : M unit) : M A :=
  fun w =>
    match body w with
    | (r, w') =>
        match cleanup w' with
        | (inr _, w'') => (r, w'')
        | (inl e, w'') => (inl e, w'')
        end
    end.

Definition when (b : bool) (m : M unit) : M unit := if b then m else ret tt.

Definition lift {A} (r : Exception + A) : M A := fun w => (r, w).

(** ** Logger and environment primitives *)

Definition logger (lvl : LogLevel) (msg : string) : M unit :=
  fun w => (inr tt, with_log (log w ++ [(lvl, msg)]) w).

(** [os.getenv(k)] / [os.environ.get(k)] *)
Definition os_getenv (k : string) : M (option string) :=
  fun w => (inr (environ w !! k), w).

(** [k in os.environ] *)
Definition environ_contains (k : string) : M bool :=
  fun w => (inr (bool_decide (is_Some (environ w !! k))), w).

(** [del os.environ[k]] *)
Definition environ_del (k : string) : M unit :=
  fun w =>
    match environ w !! k with
    | Some _ => (inr tt, with_environ (delete k) w)
    | None => (inl {| exc_type := "KeyError"; exc_msg := "'" +:+ k +:+ "'" |}, w)
    end.

(** [os.environ[k] = v] *)
Definition environ_set (k v : string) : M unit :=
  fun w => (inr tt, with_environ (insert k v) w).

(** ** Collaborators outside the repository *)

Class Platform := {
  (* databricks.sdk: [WorkspaceClient(host=, token=)] resolves credentials
     from its arguments and the environment, and raises when it cannot *)
  sdk_config_error : option string → option string → gmap string string → option Exception;
  (* [client.current_user.me().user_name] *)
  current_user_me : WorkspaceClient → Exception + string;
  (* [client.statement_execution.execute_statement(warehouse_id=, statement=, parameters=)] *)
  execute_statement :
    WorkspaceClient → string → string → list (string * string) → Exception + StatementResponse;
  (* [client.jobs.run_now(job_id=, job_parameters=).run_id] *)
  run_now : WorkspaceClient → Z → list (string * string) → Exception + Z;
  (* [client.serving_endpoints.query(name=, messages=).as_dict()] *)
  serving_query : WorkspaceClient → string → list ChatMessage → Exception + PyVal;
  (* [json.loads] *)
  json_loads : string → Exception + PyVal;
  (* [str(v)] *)
  py_str : PyVal → string;
  (* [datetime.now(timezone.utc).isoformat()] at a given instant *)
  utc_now : nat → string;
  (* how pydantic renders a [ValidationError] of a model from the
     (field, message) pairs collected *)
  validation_error_str : string → list (string * string) → string;
  (* the module constant [AZURE_LOGGING_AVAILABLE]: whether the import
     block of utils.py 31-39, which binds [hashlib], [hmac] and [base64]
     after the two Azure packages, went through *)
  AZURE_LOGGING_AVAILABLE : bool;
  (* signing with [base64], [hmac] and [hashlib], then [requests.post] to
     Azure Log Analytics and [raise_for_status]: the exception, if any *)
  azure_post : string → string → string → PyVal → option Exception;
  (* the cell [pandas] shows for a missing value, given the entries of
     its column: [None] in a column of dtype [object], NaN in a column
     that pandas 3 infers as [str] *)
  pandas_missing : list (option string) → PyVal;
  (* [traceback.format_exc()] while the exception is being handled *)
  format_exc : Exception → string
}.

Section Utils.
Context `{Platform}.

Definition now_iso : M string :=
  fun w => (inr (utc_now (clock w)), with_clock (S (clock w)) w).

(** [WorkspaceClient(host=host, token=token)] *)
Definition new_WorkspaceClient (host token : option string) : M WorkspaceClient :=
  fun w =>
    match sdk_config_error host token (environ w) with
    | Some e => (inl e, w)
    | None =>
        (inr {| client_obj := next_obj w; cfg_host := host; cfg_token := token;
                cfg_env := environ w |},
         with_next_obj (S (next_obj w)) w)
    end.

(** [get_user_access_token] (utils.py 213-239).  Outside a request
    context [hasattr(request, 'headers')] raises the [RuntimeError] whose
    handler returns [None] without logging. *)
Definition get_user_access_token : M (option string) :=
  fun w =>
    match request_headers w with
    | None => (inr None, w)
    | Some headers =>
        let user_token := headers !! "x-forwarded-access-token" in
        if negb (truthy_str user_token) then (inr None, w)
        else
          (logger INFO "Successfully retrieved user access token from request headers";;
           ret user_token) w
    end.

(** [get_user_authorized_client] (utils.py 242-326) *)
Definition get_user_authorized_client : M (option WorkspaceClient) :=
  try_except
    (user_token <- get_user_access_token;;
     app_name <- os_getenv "DATABRICKS_APP_NAME";;
     let is_databricks_app := bool_decide (is_Some app_name) in
     if truthy_str user_token && is_databricks_app then
       logger INFO "Using user authorization token from x-forwarded-access-token header";;
       host <- os_getenv "DATABRICKS_HOST";;
       if negb (truthy_str host) then
         logger ERROR "DATABRICKS_HOST environment variable not found";;
         ret None
       else
         original_client_id <- os_getenv "DATABRICKS_CLIENT_ID";;
         original_client_secret <- os_getenv "DATABRICKS_CLIENT_SECRET";;
         try_finally
           (b1 <- environ_contains "DATABRICKS_CLIENT_ID";;
            when b1 (environ_del "DATABRICKS_CLIENT_ID");;
            b2 <- environ_contains "DATABRICKS_CLIENT_SECRET";;
            when b2 (environ_del "DATABRICKS_CLIENT_SECRET");;
            user_client <- new_WorkspaceClient host user_token;;
            logger INFO "Successfully created user-authorized Databricks client";;
            ret (Some user_client))
           (when (truthy_str original_client_id)
              (environ_set "DATABRICKS_CLIENT_ID" (default "" original_client_id));;
            when (truthy_str original_client_secret)
              (environ_set "DATABRICKS_CLIENT_SECRET" (default "" original_client_secret)))
     else if negb is_databricks_app then
       logger INFO "Local development detected, falling back to CLI authentication";;
       original_host <- os_getenv "DATABRICKS_HOST";;
       original_client_id <- os_getenv "DATABRICKS_CLIENT_ID";;
       original_client_secret <- os_getenv "DATABRICKS_CLIENT_SECRET";;
       try_finally
         (b0 <- environ_contains "DATABRICKS_HOST";;
          when b0 (environ_del "DATABRICKS_HOST");;
          b1 <- environ_contains "DATABRICKS_CLIENT_ID";;
          when b1 (environ_del "DATABRICKS_CLIENT_ID");;
          b2 <- environ_contains "DATABRICKS_CLIENT_SECRET";;
          when b2 (environ_del "DATABRICKS_CLIENT_SECRET");;
          cli_client <- new_WorkspaceClient None None;;
          logger INFO "Successfully created CLI-authenticated Databricks client";;
          ret (Some cli_client))
         (when (truthy_str original_host)
            (environ_set "DATABRICKS_HOST" (default "" original_host));;
          when (truthy_str original_client_id)
            (environ_set "DATABRICKS_CLIENT_ID" (default "" original_client_id));;
          when (truthy_str original_client_secret)
            (environ_set "DATABRICKS_CLIENT_SECRET" (default "" original_client_secret)))
     else
       logger ERROR "Running in Databricks Apps environment but no user access token found";;
       logger ERROR "Ensure user authorization is enabled for this app and the user has granted consent";;
       ret None)
    (fun e =>
       logger ERROR ("Failed to create Databricks client: " +:+ exc_msg e);;
       ret None).

(** [send_to_azure_logs] (utils.py 108-143): nothing unless both
    credentials are configured.  Otherwise the date is read and, when the
    import block failed, line 125 finds [base64] unbound before anything
    is posted; else the signed post is made.  Every exception is logged
    and swallowed. *)
Definition send_to_azure_logs (log_type : string) (data : PyVal) : M unit :=
  fun w =>
    if negb (truthy_str (azure_log_workspace_id w)) || negb (truthy_str (azure_log_shared_key w))
    then (inr tt, w)
    else
      try_except
        (_ <- now_iso;;
         if negb AZURE_LOGGING_AVAILABLE then raise (NameError "base64")
         else
           match azure_post (default "" (azure_log_workspace_id w))
                   (default "" (azure_log_shared_key w)) log_type data with
           | Some e => raise e
           | None =>
               logger INFO ("Successfully sent logs to Azure Log Analytics: " +:+ log_type)
           end)
        (fun e => logger ERROR ("Failed to send logs to Azure Log Analytics: " +:+ exc_msg e))
        w.

(** [setup_azure_logging] (utils.py 95-105) *)
Definition setup_azure_logging : M unit :=
  fun w =>
    let ws := environ w !! "AZURE_LOG_ANALYTICS_WORKSPACE_ID" in
    let key := environ w !! "AZURE_LOG_ANALYTICS_SHARED_KEY" in
    (if truthy_str ws && truthy_str key && AZURE_LOGGING_AVAILABLE
     then logger INFO "Azure Log Analytics configured for REST API logging"
     else logger WARNING "Azure Log Analytics not configured - missing credentials")
      {| environ := environ w; request_headers := request_headers w;
         databricks_client := databricks_client w;
         azure_log_workspace_id := ws; azure_log_shared_key := key;
         log := log w; next_obj := next_obj w; clock := clock w;
         api_calls := api_calls w |}.

(** [handle_error] (utils.py 147-165) *)
Definition handle_error (error : Exception) (context : string) : M string :=
  error_id <- now_iso;;
  timestamp <- now_iso;;
  let error_details :=
    VDict [(VStr "error_id", VStr error_id);
           (VStr "timestamp", VStr timestamp);
           (VStr "context", VStr context);
           (VStr "error_type", VStr (exc_type error));
           (VStr "error_message", VStr (exc_msg error));
           (VStr "traceback", VStr (format_exc error))] in
  logger ERROR ("Error in " +:+ context +:+ ": " +:+ exc_msg error);;
  send_to_azure_logs "DatabricksApp_Error" error_details;;
  ret ("Error (" +:+ error_id +:+ "): " +:+ exc_msg error).

Definition set_databricks_client (c : option WorkspaceClient) : M unit :=
  fun w => (inr tt, with_client (Bound c) w).

(** [setup_databricks_client] (utils.py 169-205) *)
Definition setup_databricks_client : M unit :=
  try_except
    (client <- new_WorkspaceClient None None;;
     set_databricks_client (Some client);;
     user_name <- lift (current_user_me client);;
     logger INFO ("App service principal connected to Databricks as: " +:+ user_name);;
     timestamp <- now_iso;;
     host <- os_getenv "DATABRICKS_HOST";;
     workspace_id <- os_getenv "DATABRICKS_WORKSPACE_ID";;
     app_name <- os_getenv "DATABRICKS_APP_NAME";;
     send_to_azure_logs "DatabricksApp_Connection"
       (VDict [(VStr "timestamp", VStr timestamp);
               (VStr "event", VStr "app_service_principal_connected");
               (VStr "user", VStr user_name);
               (VStr "workspace_url", VStr (default "cli-configured" host));
               (VStr "workspace_id", VStr (default "unknown" workspace_id));
               (VStr "app_name", VStr (default "local-dev" app_name))]))
    (fun e =>
       logger WARNING ("Could not establish app service principal connection: " +:+ exc_msg e);;
       logger INFO "App will use per-request user authorization instead";;
       logger INFO "For local development: run 'databricks auth login' if you need CLI authentication";;
       set_databricks_client None;;
       timestamp <- now_iso;;
       send_to_azure_logs "DatabricksApp_Warning"
         (VDict [(VStr "timestamp", VStr timestamp);
                 (VStr "event", VStr "app_service_principal_unavailable");
                 (VStr "error", VStr (exc_msg e));
                 (VStr "mode", VStr "user_authorization_only")])).

(** [get_databricks_client] (utils.py 208-210) *)
Definition get_databricks_client : M (option WorkspaceClient) :=
  fun w =>
    match databricks_client w with
    | Bound c => (inr c, w)
    | Unbound => (inl (NameError "databricks_client"), w)
    end.

(** *** Request models (utils.py 51-91) *)

Record SQLQueryRequest := {
  sql_query_template : string;
  sql_parameters : list (string * PyVal);
  sql_warehouse_id : option string
}.

Record JobSubmissionRequest := {
  job_job_id : Z;
  job_parameters : list (string * string)
}.

Definition ValidationError (model : string) (errors : list (string * string)) : Exception :=
  {| exc_type := "ValidationError"; exc_msg := validation_error_str model errors |}.

(** [Dict[str, Any]]: a dict all of whose keys are strings. *)
Fixpoint str_keyed (items : list (PyVal * PyVal)) : option (list (string * PyVal)) :=
  match items with
  | [] => Some []
  | (VStr k, v) :: rest => option_map (cons (k, v)) (str_keyed rest)
  | _ => None
  end.

(** [Dict[str, str]]: keys and values are strings. *)
Fixpoint str_valued (items : list (PyVal * PyVal)) : option (list (string * string)) :=
  match items with
  | [] => Some []
  | (VStr k, VStr v) :: rest => option_map (cons (k, v)) (str_valued rest)
  | _ => None
  end.

Definition as_dict_any (v : PyVal) : option (list (string * PyVal)) :=
  match v with
  | VDict items => str_keyed items
  | _ => None
  end.

Definition as_dict_str (v : PyVal) : option (list (string * string)) :=
  match v with
  | VDict items => str_valued items
  | _ => None
  end.

(** [SQLQueryRequest.validate_query_template] *)
Definition validate_query_template (v : string) : M string :=
  if negb (truthy (VStr v)) || negb (truthy (VStr (strip v))) then
    raise (ValueError "Query template cannot be empty")
  else
    when (negb (contains "${" v) && negb (contains "{{" v) && negb (contains ":" v))
      (logger WARNING "Query template should use parameters to prevent SQL injection");;
    ret (strip v).

(** [JobSubmissionRequest.validate_job_id] *)
Definition validate_job_id (v : Z) : Exception + Z :=
  if v <=? 0 then inl (ValueError "Job ID must be positive") else inr v.

(** [SQLQueryRequest(query_template=, parameters=, warehouse_id=)]: every
    field is validated, the failures are collected into one
    [ValidationError]. *)
Definition new_SQLQueryRequest (query_template : string) (parameters : PyVal)
    (warehouse_id : option string) : M SQLQueryRequest :=
  fun w =>
    let '(r1, w1) := validate_query_template query_template w in
    let e1 := match r1 with
              | inl e => [("query_template", "Value error, " +:+ exc_msg e)]
              | inr _ => []
              end in
    let r2 := as_dict_any parameters in
    let e2 := match r2 with
              | None => [("parameters", "Input should be a valid dictionary")]
              | Some _ => []
              end in
    match r1, r2 with
    | inr q, Some ps =>
        (inr {| sql_query_template := q; sql_parameters := ps;
                sql_warehouse_id := warehouse_id |}, w1)
    | _, _ => (inl (ValidationError "SQLQueryRequest" (e1 ++ e2)), w1)
    end.

(** [JobSubmissionRequest(job_id=, parameters=)] *)
Definition new_JobSubmissionRequest (job_id : Z) (parameters : PyVal)
    : Exception + JobSubmissionRequest :=
  let r1 := validate_job_id job_id in
  let e1 := match r1 with
            | inl e => [("job_id", "Value error, " +:+ exc_msg e)]
            | inr _ => []
            end in
  let r2 := as_dict_str parameters in
  let e2 := match r2 with
            | None => [("parameters", "Input should be a valid dictionary of strings")]
            | Some _ => []
            end in
  match r1, r2 with
  | inr j, Some ps => inr {| job_job_id := j; job_parameters := ps |}
  | _, _ => inl (ValidationError "JobSubmissionRequest" (e1 ++ e2))
  end.

(** [json.loads(s) if s else {}] *)
Definition loads_or_empty (s : string) : M PyVal :=
  if truthy (VStr s) then lift (json_loads s) else ret (VDict []).

(** *** pandas *)

(** [pd.DataFrame(rows)] on a list of rows: one row per element, integer
    column labels up to the longest row, short rows padded with missing
    values.  A missing value, padded or a SQL [NULL], is [None] here and
    shown by [to_dict] as [pandas_missing] has it. *)
Record DataFrame := {
  df_columns : list nat;
  df_values : list (list (option string))
}.

Definition pad_row (k : nat) (row : list (option string)) : list (option string) :=
  row ++ replicate (k - length row)%nat None.

Definition pd_DataFrame (rows : list (list (option string))) : DataFrame :=
  let k := foldr (fun row acc => Nat.max (length row) acc) 0%nat rows in
  {| df_columns := seq 0 k; df_values := map (pad_row k) rows |}.

(** The entries of column [j]. *)
Definition df_column (df : DataFrame) (j : nat) : list (option string) :=
  map (fun row => default None (row !! j)) (df_values df).

Definition df_cell (df : DataFrame) (j : nat) (o : option string) : PyVal :=
  match o with
  | Some s => VStr s
  | None => pandas_missing (df_column df j)
  end.

(** [df.to_dict('records')] *)
Definition to_dict_records (df : DataFrame) : list PyVal :=
  map (fun row =>
         VDict (zip (map (fun i => VInt (Z.of_nat i)) (df_columns df))
                    (zip_with (df_cell df) (df_columns df) row)))
      (df_values df).

(** [[{"name": str(i), "id": str(i)} for i in df.columns]] *)
Definition column_specs (df : DataFrame) : list PyVal :=
  map (fun i : nat => VDict [(VStr "name", VStr (pretty i)); (VStr "id", VStr (pretty i))])
      (df_columns df).

(** *** The trace of workspace operations

    A call is recorded, with the client object that makes it, just before
    [execute_statement], [run_now] and the serving [query]. *)

Definition record_call (c : WorkspaceClient) (op : string) : M unit :=
  fun w =>
    (inr tt, with_api_calls (api_calls w ++ [{| call_client := client_obj c; call_op := op |}]) w).

(** The error raised by a caller of [get_user_authorized_client] that got
    [None] (utils.py 368-372, 499-503). *)
Definition unable_to_authenticate : M WorkspaceClient :=
  app_name <- os_getenv "DATABRICKS_APP_NAME";;
  if truthy_str app_name then
    raise (ValueError "Unable to authenticate with Databricks. Ensure user authorization is enabled for this app and the user has granted consent.")
  else
    raise (ValueError "Unable to authenticate with Databricks. Please run 'databricks auth login' for local development.").

Definition failure_result (context : string) (e : Exception) : M PyVal :=
  error_msg <- handle_error e context;;
  ret (VDict [(VStr "success", VBool false); (VStr "error", VStr error_msg)]).

(** The rows of a response, when it has any: the test
    [result.result and result.result.data_array]. *)
Definition response_rows (r : StatementResponse) : option (list (list (option string))) :=
  match result r with
  | Some rd =>
      match data_array rd with
      | Some (row :: rows) => Some (row :: rows)
      | _ => None
      end
  | None => None
  end.

(** [execute_sql_query] (utils.py 348-425) *)
Definition execute_sql_query (query_template : string) (parameters_json : string)
    (warehouse_id : option string) : M PyVal :=
  try_except
    (parameters <- loads_or_empty parameters_json;;
     query_request <- new_SQLQueryRequest query_template parameters
                        (if truthy_str warehouse_id then warehouse_id else None);;
     env_warehouse <- os_getenv "SQL_WAREHOUSE_ID";;
     let warehouse_id :=
       if truthy_str (sql_warehouse_id query_request)
       then sql_warehouse_id query_request else env_warehouse in
     (if negb (truthy_str warehouse_id)
      then raise (ValueError "SQL warehouse ID is required") else ret tt);;
     resolved <- get_user_authorized_client;;
     user_client <- match resolved with
                   | Some c => ret c
                   | None => unable_to_authenticate
                   end;;
     let query_parameters :=
       map (fun kv => (fst kv, py_str (snd kv))) (sql_parameters query_request) in
     logger INFO ("Executing SQL query with user authorization and "
                  +:+ pretty (length query_parameters) +:+ " parameters");;
     record_call user_client "statement_execution.execute_statement";;
     response <- lift (execute_statement user_client (default "" warehouse_id)
                         (sql_query_template query_request) query_parameters);;
     timestamp <- now_iso;;
     send_to_azure_logs "DatabricksApp_SQLQuery"
       (VDict [(VStr "timestamp", VStr timestamp);
               (VStr "event", VStr "sql_query_executed");
               (VStr "warehouse_id", of_opt_str warehouse_id);
               (VStr "statement_id", of_opt_str (statement_id response));
               (VStr "parameter_count", VInt (Z.of_nat (length query_parameters)));
               (VStr "row_count",
                VInt (match response_rows response with
                      | Some rows => Z.of_nat (length rows)
                      | None => 0
                      end))]);;
     match response_rows response with
     | Some rows =>
         let df := pd_DataFrame rows in
         ret (VDict [(VStr "success", VBool true);
                     (VStr "statement_id", of_opt_str (statement_id response));
                     (VStr "data", VList (to_dict_records df));
                     (VStr "columns", VList (column_specs df));
                     (VStr "row_count", VInt (Z.of_nat (length rows)))])
     | None =>
         ret (VDict [(VStr "success", VBool true);
                     (VStr "statement_id", of_opt_str (statement_id response));
                     (VStr "data", VList []);
                     (VStr "columns", VList []);
                     (VStr "row_count", VInt 0)])
     end)
    (failure_result "execute_sql_query").

(** The privileged client of job submission (utils.py 441-452): the
    module-level service-principal client when there is one, a CLI client
    only when [DATABRICKS_APP_NAME] is empty or unset. *)
Definition resolve_job_client : M WorkspaceClient :=
  client <- get_databricks_client;;
  match client with
  | Some c => ret c
  | None =>
      app_name <- os_getenv "DATABRICKS_APP_NAME";;
      if negb (truthy_str app_name) then
        logger INFO "Using CLI authentication for job submission (local development)";;
        try_except (new_WorkspaceClient None None)
          (fun cli_error =>
             raise (ValueError "Unable to authenticate with Databricks. Please run 'databricks auth login' for local development."))
      else
        raise (ValueError "App service principal not available for job submission. Check app configuration.")
  end.

(** [submit_databricks_job] (utils.py 429-487) *)
Definition submit_databricks_job (job_id : Z) (parameters_json : string) : M PyVal :=
  try_except
    (parameters <- loads_or_empty parameters_json;;
     job_request <- lift (new_JobSubmissionRequest job_id parameters);;
     client <- resolve_job_client;;
     app_name <- os_getenv "DATABRICKS_APP_NAME";;
     let auth_method :=
       if truthy_str app_name then "app_service_principal" else "cli_authentication" in
     logger INFO ("Submitting job " +:+ pretty (job_job_id job_request) +:+ " with "
                  +:+ auth_method +:+ " and parameters: "
                  +:+ py_str (str_dict (job_parameters job_request)));;
     record_call client "jobs.run_now";;
     run_id <- lift (run_now client (job_job_id job_request) (job_parameters job_request));;
     timestamp <- now_iso;;
     send_to_azure_logs "DatabricksApp_JobSubmission"
       (VDict [(VStr "timestamp", VStr timestamp);
               (VStr "event", VStr "job_submitted");
               (VStr "job_id", VInt (job_job_id job_request));
               (VStr "run_id", VInt run_id);
               (VStr "parameter_count", VInt (Z.of_nat (length (job_parameters job_request))));
               (VStr "auth_method", VStr auth_method)]);;
     timestamp <- now_iso;;
     ret (VDict [(VStr "success", VBool true);
                 (VStr "job_id", VInt (job_job_id job_request));
                 (VStr "run_id", VInt run_id);
                 (VStr "parameters", str_dict (job_parameters job_request));
                 (VStr "timestamp", VStr timestamp);
                 (VStr "auth_method", VStr auth_method)]))
    (failure_result "submit_job").

(** [d.get(k)] / [d.get(k, dflt)] on an arbitrary value *)
Definition py_get (v : PyVal) (k : string) (dflt : PyVal) : Exception + PyVal :=
  match v with
  | VDict items => inr (default dflt (items_get k items))
  | _ => inl (AttributeError v "get")
  end.

(** [iter(v)] *)
Definition py_iter (v : PyVal) : Exception + list PyVal :=
  match v with
  | VList l => inr l
  | VDict items => inr (map fst items)
  | VStr s => inr (map (fun a => VStr (String a EmptyString)) (list_ascii_of_string s))
  | _ => inl (TypeError ("'" +:+ type_name v +:+ "' object is not iterable"))
  end.

(** The loop of utils.py 512-516 *)
Fixpoint chat_messages (msgs : list PyVal) : Exception + list ChatMessage :=
  match msgs with
  | [] => inr []
  | msg :: rest =>
      match py_get msg "role" (VStr "user"), py_get msg "content" (VStr "") with
      | inr r, inr c =>
          let m := {| role := if key_is "user" r then USER else SYSTEM; content := c |} in
          match chat_messages rest with
          | inr ms => inr (m :: ms)
          | inl e => inl e
          end
      | inl e, _ => inl e
      | _, inl e => inl e
      end
  end.

(** [call_model_serving_endpoint] (utils.py 491-565) *)
Definition call_model_serving_endpoint (endpoint_name : string) (inputs_json : string)
    : M PyVal :=
  try_except
    (inputs <- loads_or_empty inputs_json;;
     resolved <- get_user_authorized_client;;
     user_client <- match resolved with
                   | Some c => ret c
                   | None => unable_to_authenticate
                   end;;
     logger INFO ("Calling model serving endpoint with user authorization: " +:+ endpoint_name);;
     given <- lift (py_get inputs "messages" VNone);;
     messages <-
       (if truthy given then
          items <- lift (py_iter given);;
          lift (chat_messages items)
        else
          prompt <- lift (py_get inputs "prompt" VNone);;
          content <- lift (py_get inputs "content" VNone);;
          if truthy (py_or prompt content) then
            content' <- lift (py_get inputs "content" (VStr ""));;
            ret [{| role := USER; content := py_or prompt content' |}]
          else
            ret [{| role := USER; content := VStr "Hello, can you help me?" |}]);;
     record_call user_client "serving_endpoints.query";;
     response <- lift (serving_query user_client endpoint_name messages);;
     timestamp <- now_iso;;
     keys <- lift (match inputs with
                   | VDict items => inr (map fst items)
                   | _ => inl (AttributeError inputs "keys")
                   end);;
     send_to_azure_logs "DatabricksApp_ModelServing"
       (VDict [(VStr "timestamp", VStr timestamp);
               (VStr "event", VStr "model_serving_called");
               (VStr "endpoint_name", VStr endpoint_name);
               (VStr "input_keys", VList keys);
               (VStr "response_received", VBool true)]);;
     timestamp <- now_iso;;
     ret (VDict [(VStr "success", VBool true);
                 (VStr "endpoint_name", VStr endpoint_name);
                 (VStr "timestamp", VStr timestamp);
                 (VStr "result", response)]))
    (failure_result "call_model_serving").

(** *** The request model of model serving (utils.py 81-91) *)

Record ModelServingRequest := {
  serving_endpoint_name : string;
  serving_inputs : list (string * PyVal)
}.

(** [ModelServingRequest.validate_endpoint_name] *)
Definition validate_endpoint_name (v : string) : Exception + string :=
  if negb (truthy (VStr v)) || negb (truthy (VStr (strip v)))
  then inl (ValueError "Endpoint name cannot be empty")
  else inr (strip v).

(** [ModelServingRequest(endpoint_name=, inputs=)] *)
Definition new_ModelServingRequest (endpoint_name : string) (inputs : PyVal)
    : Exception + ModelServingRequest :=
  let r1 := validate_endpoint_name endpoint_name in
  let e1 := match r1 with
            | inl e => [("endpoint_name", "Value error, " +:+ exc_msg e)]
            | inr _ => []
            end in
  let r2 := as_dict_any inputs in
  let e2 := match r2 with
            | None => [("inputs", "Input should be a valid dictionary")]
            | Some _ => []
            end in
  match r1, r2 with
  | inr n, Some i => inr {| serving_endpoint_name := n; serving_inputs := i |}
  | _, _ => inl (ValidationError "ModelServingRequest" (e1 ++ e2))
  end.

(** Reading the module global [databricks_client] by name. *)
Definition global_databricks_client : M (option WorkspaceClient) :=
  fun w =>
    match databricks_client w with
    | Bound c => (inr c, w)
    | Unbound => (inl (NameError "databricks_client"), w)
    end.

(** [get_app_status] (utils.py 569-619).  The status dictionary is
    built, then extended in place by the inner [try] or its handler. *)
Definition get_app_status : M PyVal :=
  try_except
    (client <- global_databricks_client;;
     let service_principal_available := bool_decide (is_Some client) in
     timestamp <- now_iso;;
     azure_id <- (fun w => (inr (azure_log_workspace_id w), w));;
     app_name <- os_getenv "DATABRICKS_APP_NAME";;
     workspace_id <- os_getenv "DATABRICKS_WORKSPACE_ID";;
     let health_status :=
       [(VStr "status", VStr "healthy");
        (VStr "timestamp", VStr timestamp);
        (VStr "app_service_principal",
         VStr (if service_principal_available then "available" else "not available"));
        (VStr "azure_logging_configured", VBool (bool_decide (is_Some azure_id)));
        (VStr "app_name", VStr (default "local-dev" app_name));
        (VStr "workspace_id", VStr (default "unknown" workspace_id));
        (VStr "user_authorization", VStr "enabled")] in
     health_status <-
       try_except
         (user_client <- get_user_authorized_client;;
          match user_client with
          | Some c =>
              user_name <- lift (current_user_me c);;
              user_token <- get_user_access_token;;
              if truthy_str user_token then
                ret (app health_status
                     [(VStr "auth_mode", VStr "user_authorization");
                      (VStr "current_user", VStr user_name);
                      (VStr "user_authorized", VBool true)])
              else
                ret (app health_status
                     [(VStr "auth_mode", VStr "cli_fallback");
                      (VStr "current_user", VStr user_name);
                      (VStr "user_authorized", VBool true);
                      (VStr "note", VStr "Using CLI authentication for local development")])
          | None =>
              ret (app health_status
                   [(VStr "auth_mode", VStr "none");
                    (VStr "current_user", VStr "authentication failed");
                    (VStr "user_authorized", VBool false)])
          end)
         (fun user_error =>
            ret (app health_status
                 [(VStr "auth_mode", VStr "error");
                  (VStr "current_user", VStr ("error: " +:+ exc_msg user_error));
                  (VStr "user_authorized", VBool false)]));;
     send_to_azure_logs "DatabricksApp_Health" (VDict health_status);;
     ret (VDict health_status))
    (fun e =>
       error_msg <- handle_error e "status_check";;
       timestamp <- now_iso;;
       ret (VDict [(VStr "status", VStr "unhealthy");
                   (VStr "error", VStr error_msg);
                   (VStr "timestamp", VStr timestamp)])).

(** [send_test_log] (utils.py 623-658); an argument left empty in the
    form arrives as [None]. *)
Definition send_test_log (message level : option string) : M PyVal :=
  try_except
    (let message := if truthy_str message then default "" message else "Test log message" in
     let level := if truthy_str level then default "" level else "info" in
     (if String.eqb level "error" then logger ERROR ("Test error log: " +:+ message)
      else if String.eqb level "warning" then logger WARNING ("Test warning log: " +:+ message)
      else logger INFO ("Test info log: " +:+ message));;
     timestamp <- now_iso;;
     send_to_azure_logs "DatabricksApp_TestLog"
       (VDict [(VStr "timestamp", VStr timestamp);
               (VStr "event", VStr "test_log_generated");
               (VStr "level", VStr level);
               (VStr "message", VStr message);
               (VStr "endpoint", VStr "dash_ui")]);;
     timestamp <- now_iso;;
     ret (VDict [(VStr "success", VBool true);
                 (VStr "level", VStr level);
                 (VStr "message", VStr message);
                 (VStr "timestamp", VStr timestamp)]))
    (failure_result "test_logging").

End Utils.

(** ** Reading the decision table of the resolver *)

(** The token [get_user_access_token] extracts from a world. *)
Definition forwarded_token (w : World) : option string :=
  match request_headers w with
  | Some headers =>
      if truthy_str (headers !! "x-forwarded-access-token")
      then headers !! "x-forwarded-access-token" else None
  | None => None
  end.

(** The environment while the hosted branch constructs its client. *)
Definition scrub_principal (env : gmap string string) : gmap string string :=
  delete "DATABRICKS_CLIENT_SECRET" (delete "DATABRICKS_CLIENT_ID" env).

(** The environment while the local branch constructs its client. *)
Definition scrub_all (env : gmap string string) : gmap string string :=
  scrub_principal (delete "DATABRICKS_HOST" env).

(** What a [finally] block puts back for one key: the saved value, when
    it is truthy. *)
Definition restore_key (k : string) (orig env : gmap string string) : gmap string string :=
  if truthy_str (orig !! k) then <[k := default "" (orig !! k)]> env else env.

Definition restore_principal (orig env : gmap string string) : gmap string string :=
  restore_key "DATABRICKS_CLIENT_SECRET" orig (restore_key "DATABRICKS_CLIENT_ID" orig env).

Definition restore_all (orig env : gmap string string) : gmap string string :=
  restore_principal orig (restore_key "DATABRICKS_HOST" orig env).

(** The keys the resolver deletes and re-inserts. *)
Definition mutated_keys : list string :=
  ["DATABRICKS_HOST"; "DATABRICKS_CLIENT_ID"; "DATABRICKS_CLIENT_SECRET"].

(** A result dictionary of the call boundary: a boolean [success], and an
    [error] string when it is false. *)
Definition structured_result (d : PyVal) : Prop :=
  ∃ b : bool, dict_get "success" d = Some (VBool b) ∧
              (b = false → ∃ s, dict_get "error" d = Some (VStr s)).

(** The cause a failed resolution writes to the log. *)
Inductive FailureCause :=
| MissingHost
| MissingConsent
| ConstructorRaised (e : Exception).

Definition cause_message (c : FailureCause) : string :=
  match c with
  | MissingHost => "DATABRICKS_HOST environment variable not found"
  | MissingConsent =>
      "Ensure user authorization is enabled for this app and the user has granted consent"
  | ConstructorRaised e => "Failed to create Databricks client: " +:+ exc_msg e
  end.

Definition consent_message : string :=
  "Unable to authenticate with Databricks. Ensure user authorization is enabled for this app and the user has granted consent.".
Definition cli_login_message : string :=
  "Unable to authenticate with Databricks. Please run 'databricks auth login' for local development.".

(** The message a caller raises when the resolver gave it [None]: it
    depends on the app-name marker only. *)
Definition marker_message (w : World) : string :=
  if truthy_str (environ w !! "DATABRICKS_APP_NAME")
  then consent_message else cli_login_message.

(** [returns P m]: every value [m] returns satisfies [P]. *)
Definition returns {A} (P : A → Prop) (m : M A) : Prop :=
  ∀ w a w', m w = (inr a, w') → P a.

(** The rows a statement response carries. *)
Definition returned_rows (r : StatementResponse) : list (list (option string)) :=
  match result r with
  | Some rd => default [] (data_array rd)
  | None => []
  end.

(** What a resolution leaves alone. *)
Definition frame (w w' : World) : Prop :=
  request_headers w' = request_headers w ∧
  databricks_client w' = databricks_client w ∧
  azure_log_workspace_id w' = azure_log_workspace_id w ∧
  azure_log_shared_key w' = azure_log_shared_key w ∧
  clock w' = clock w ∧
  api_calls w' = api_calls w.

(** ** A concrete platform and worlds to run the code on *)

Module Demo.

(** An SDK that authenticates with a forwarded token, with a
    service-principal id and secret, or with a CLI profile named in the
    environment, and refuses anything else; a JSON
    reader that knows the empty object; a warehouse with two rows, and
    none for statements over [empty_table]. *)
Definition platform : Platform := {|
  sdk_config_error := fun host token env =>
    if truthy_str token then None
    else if truthy_str (env !! "DATABRICKS_CLIENT_ID")
            && truthy_str (env !! "DATABRICKS_CLIENT_SECRET") then None
    else if bool_decide (is_Some (env !! "DATABRICKS_CONFIG_PROFILE")) then None
    else Some (ValueError "default auth: cannot configure default credentials");
  current_user_me := fun c => inr "app-principal";
  execute_statement := fun c warehouse statement params =>
    inr {| statement_id := Some "01f0-aa";
           result := Some {| data_array :=
             if contains "empty_table" statement then Some []
             else Some [[Some "1"; Some "a"]; [Some "2"; Some "b"]] |} |};
  run_now := fun c job params => inr 9001;
  serving_query := fun c name messages => inr (VDict [(VStr "choices", VList [])]);
  json_loads := fun s =>
    if String.eqb s "{}" then inr (VDict [])
    else inl {| exc_type := "JSONDecodeError";
                exc_msg := "Expecting value: line 1 column 1 (char 0)" |};
  py_str := fun v => match v with VStr s => s | _ => "{}" end;
  utc_now := fun n => "2025-01-01T00:00:0" +:+ pretty n +:+ "+00:00";
  validation_error_str := fun model errors =>
    pretty (length errors) +:+ " validation error for " +:+ model;
  AZURE_LOGGING_AVAILABLE := true;
  azure_post := fun _ _ _ _ => None;
  pandas_missing := fun _ => VNone;
  format_exc := fun e => exc_type e +:+ ": " +:+ exc_msg e
|}.

Definition world (env : gmap string string) (headers : option (gmap string string))
    (sp : option WorkspaceClient) : World :=
  {| environ := env; request_headers := headers; databricks_client := Bound sp;
     azure_log_workspace_id := None; azure_log_shared_key := None;
     log := []; next_obj := 1; clock := 0; api_calls := [] |}.

Definition request (token : string) : option (gmap string string) :=
  Some {[ "x-forwarded-access-token" := token ]}.

Definition hosted_env : gmap string string :=
  {[ "DATABRICKS_APP_NAME" := "example-app";
     "DATABRICKS_HOST" := "https://adb-1.azuredatabricks.net";
     "DATABRICKS_CLIENT_ID" := "sp-id";
     "DATABRICKS_CLIENT_SECRET" := "sp-secret";
     "SQL_WAREHOUSE_ID" := "wh-1" ]}.

Definition local_env : gmap string string :=
  {[ "DATABRICKS_CONFIG_PROFILE" := "DEFAULT";
     "DATABRICKS_HOST" := "https://adb-1.azuredatabricks.net";
     "DATABRICKS_CLIENT_ID" := "sp-id";
     "SQL_WAREHOUSE_ID" := "wh-1" ]}.

(** The service-principal client that [setup_databricks_client] leaves
    in the module global. *)
Definition sp_client : WorkspaceClient :=
  {| client_obj := 0; cfg_host := None; cfg_token := None; cfg_env := hosted_env |}.

(** The process as [main] finds it, before [initialize_utils]. *)
Definition boot : World :=
  {| environ := hosted_env; request_headers := None; databricks_client := Unbound;
     azure_log_workspace_id := None; azure_log_shared_key := None;
     log := []; next_obj := 0; clock := 0; api_calls := [] |}.

(** Hosted, token forwarded, host configured. *)
Definition hosted_world : World :=
  world hosted_env (request "user-token") (Some sp_client).

(** Local development, no service-principal client. *)
Definition local_world : World :=
  world local_env (request "user-token") None.

(** Hosted, no service-principal client. *)
Definition hosted_no_principal_world : World :=
  world hosted_env None None.

(** Local development with an empty [DATABRICKS_CLIENT_ID]. *)
Definition empty_id_world : World :=
  world {[ "DATABRICKS_CONFIG_PROFILE" := "DEFAULT"; "DATABRICKS_CLIENT_ID" := "" ]}
        None None.

(** Hosted, a token forwarded, no workspace host configured. *)
Definition no_host_world : World :=
  world (delete "DATABRICKS_HOST" hosted_env) (request "user-token") (Some sp_client).

(** Hosted, host configured, no token forwarded. *)
Definition no_consent_world : World :=
  world hosted_env (Some ∅) (Some sp_client).

(** [DATABRICKS_APP_NAME] set to the empty string, a CLI profile
    configured, no service-principal client, no token forwarded. *)
Definition empty_marker_world : World :=
  world {[ "DATABRICKS_APP_NAME" := ""; "DATABRICKS_CONFIG_PROFILE" := "DEFAULT" ]}
        (Some ∅) None.

End Demo.

(** ** Further vocabulary *)

(** The warehouse a query runs on: the one given with the request when
    it is not empty, else [SQL_WAREHOUSE_ID]. *)
Definition chosen_warehouse (warehouse_id : option string) (w : World) : option string :=
  if truthy_str warehouse_id then warehouse_id else environ w !! "SQL_WAREHOUSE_ID".

(** The messages [call_model_serving_endpoint] builds from the items of
    its inputs (utils.py 508-533), as one expression. *)
Definition select_messages (items : list (PyVal * PyVal)) : Exception + list ChatMessage :=
  let given := default VNone (items_get "messages" items) in
  if truthy given then
    match py_iter given with
    | inr msgs => chat_messages msgs
    | inl e => inl e
    end
  else
    let prompt := default VNone (items_get "prompt" items) in
    if truthy (py_or prompt (default VNone (items_get "content" items))) then
      inr [{| role := USER;
              content := py_or prompt (default (VStr "") (items_get "content" items)) |}]
    else
      inr [{| role := USER; content := VStr "Hello, can you help me?" |}].

Definition is_dict (v : PyVal) : bool :=
  match v with VDict _ => true | _ => false end.

(** [emits ops m]: whatever its outcome, [m] removes nothing from the
    trace of workspace operations and appends to it no more calls than
    [ops] has entries, each of an operation in [ops]; and it leaves the
    module global as it is. *)
Definition emits {A} (ops : list string) (m : M A) : Prop :=
  ∀ w, databricks_client (snd (m w)) = databricks_client w ∧
       ∃ l, api_calls (snd (m w)) = (api_calls w ++ l)%list ∧
            (length l ≤ length ops)%nat ∧
            Forall (fun c => call_op c ∈ ops) l.

(** ** A second platform, with more JSON and a jobs API that can refuse *)

Module Lab.

Definition dq : string := String (ascii_of_nat 34) EmptyString.

(** U+00A0, the no-break space: bytes C2 A0. *)
Definition nbsp : string :=
  String (ascii_of_nat 194) (String (ascii_of_nat 160) EmptyString).

(** U+0085, the next-line control: bytes C2 85. *)
Definition nel : string :=
  String (ascii_of_nat 194) (String (ascii_of_nat 133) EmptyString).

(** U+2003, the em space: bytes E2 80 83. *)
Definition em_space : string :=
  String (ascii_of_nat 226) (String (ascii_of_nat 128)
    (String (ascii_of_nat 131) EmptyString)).

(** U+00E9, a letter whose first byte is not C2: bytes C3 A9. *)
Definition e_acute : string :=
  String (ascii_of_nat 195) (String (ascii_of_nat 169) EmptyString).

(** [{"prompt": "Summarise", "content": "ignored"}] *)
Definition prompt_json : string :=
  "{" +:+ dq +:+ "prompt" +:+ dq +:+ ": " +:+ dq +:+ "Summarise" +:+ dq +:+ ", "
      +:+ dq +:+ "content" +:+ dq +:+ ": " +:+ dq +:+ "ignored" +:+ dq +:+ "}".

(** [{"messages": [{"role": "assistant", "content": "Hi"}, {"content": "Go on"}],
      "prompt": "ignored"}] *)
Definition messages_json : string :=
  "{" +:+ dq +:+ "messages" +:+ dq +:+ ": [{" +:+ dq +:+ "role" +:+ dq +:+ ": "
      +:+ dq +:+ "assistant" +:+ dq +:+ ", " +:+ dq +:+ "content" +:+ dq +:+ ": "
      +:+ dq +:+ "Hi" +:+ dq +:+ "}, {" +:+ dq +:+ "content" +:+ dq +:+ ": "
      +:+ dq +:+ "Go on" +:+ dq +:+ "}], " +:+ dq +:+ "prompt" +:+ dq +:+ ": "
      +:+ dq +:+ "ignored" +:+ dq +:+ "}".

(** [{"retries": 3}] *)
Definition retries_json : string :=
  "{" +:+ dq +:+ "retries" +:+ dq +:+ ": 3}".

(** A reader of the texts above, the empty object and the list [[1]]. *)
Definition parse (s : string) : Exception + PyVal :=
  if String.eqb s "{}" then inr (VDict [])
  else if String.eqb s prompt_json then
    inr (VDict [(VStr "prompt", VStr "Summarise"); (VStr "content", VStr "ignored")])
  else if String.eqb s messages_json then
    inr (VDict [(VStr "messages",
                 VList [VDict [(VStr "role", VStr "assistant"); (VStr "content", VStr "Hi")];
                        VDict [(VStr "content", VStr "Go on")]]);
                (VStr "prompt", VStr "ignored")])
  else if String.eqb s retries_json then inr (VDict [(VStr "retries", VInt 3)])
  else if String.eqb s "[1]" then inr (VList [VInt 1])
  else inl {| exc_type := "JSONDecodeError";
              exc_msg := "Expecting value: line 1 column 1 (char 0)" |}.

(** As [Demo.platform], but job 13 does not exist, the warehouse is down
    for statements over [offline_table], and the endpoint answers with
    the number of messages it was sent. *)
Definition platform : Platform := {|
  sdk_config_error := @sdk_config_error Demo.platform;
  current_user_me := @current_user_me Demo.platform;
  execute_statement := fun c warehouse statement params =>
    if contains "offline_table" statement
    then inl {| exc_type := "DatabricksError"; exc_msg := "warehouse is stopped" |}
    else @execute_statement Demo.platform c warehouse statement params;
  run_now := fun c job params =>
    if job =? 13
    then inl {| exc_type := "ResourceDoesNotExist"; exc_msg := "Job 13 does not exist." |}
    else inr 9001;
  serving_query := fun c name messages =>
    inr (VDict [(VStr "received", VInt (Z.of_nat (length messages)))]);
  json_loads := parse;
  py_str := @py_str Demo.platform;
  utc_now := @utc_now Demo.platform;
  validation_error_str := @validation_error_str Demo.platform;
  AZURE_LOGGING_AVAILABLE := @AZURE_LOGGING_AVAILABLE Demo.platform;
  azure_post := @azure_post Demo.platform;
  pandas_missing := @pandas_missing Demo.platform;
  format_exc := @format_exc Demo.platform
|}.

(** Hosted, token forwarded, but no warehouse configured. *)
Definition no_warehouse_world : World :=
  Demo.world (delete "SQL_WAREHOUSE_ID" Demo.hosted_env) (Demo.request "user-token")
             (Some Demo.sp_client).

End Lab.

(** * Properties *)

Section Resolver.
Context `{Platform}.

Lemma get_user_access_token_eq w :
  get_user_access_token w =
  (inr (forwarded_token w),
   match forwarded_token w with
   | Some _ =>
       with_log (log w ++ [(INFO, "Successfully retrieved user access token from request headers")]) w
   | None => w
   end).
Proof.
  unfold get_user_access_token, forwarded_token.
  destruct (request_headers w) as [headers|]; [|done].
  destruct (headers !! "x-forwarded-access-token") as [tok|] eqn:Htok; simpl; [|done].
  destruct (negb (String.eqb tok "")) eqn:E; simpl; done.
Qed.

Lemma forwarded_token_truthy w t : forwarded_token w = Some t → truthy_str (Some t) = true.
Proof.
  unfold forwarded_token. destruct (request_headers w) as [headers|]; [|done].
  destruct (truthy_str (headers !! "x-forwarded-access-token")) eqn:E; [|done].
  by intros <-.
Qed.

(** [if k in os.environ: del os.environ[k]] followed by the rest. *)
Lemma remove_if_present {A} k (rest : M A) w :
  (b <- environ_contains k;; when b (environ_del k);; rest) w
  = rest (with_environ (delete k) w).
Proof.
  unfold bind, environ_contains, when, environ_del, ret.
  destruct (environ w !! k) as [v|] eqn:E; simpl.
  - by rewrite E.
  - f_equal. destruct w; unfold with_environ; simpl in *. by rewrite delete_id.
Qed.

(** [if saved: os.environ[k] = saved] *)
Lemma restore_if_truthy k (orig : gmap string string) w :
  when (truthy_str (orig !! k)) (environ_set k (default "" (orig !! k))) w
  = (inr tt, with_environ (restore_key k orig) w).
Proof.
  unfold when, restore_key, environ_set, ret.
  destruct (truthy_str (orig !! k)); [done|].
  by destruct w.
Qed.

Lemma environ_with_log l w : environ (with_log l w) = environ w.
Proof. reflexivity. Qed.

Lemma bind_run {A B} (m : M A) (k : A → M B) w a w' :
  m w = (inr a, w') → bind m k w = k a w'.
Proof. unfold bind. by intros ->. Qed.

Lemma cleanup_all (orig : gmap string string) w :
  (when (truthy_str (orig !! "DATABRICKS_HOST"))
     (environ_set "DATABRICKS_HOST" (default "" (orig !! "DATABRICKS_HOST")));;
   when (truthy_str (orig !! "DATABRICKS_CLIENT_ID"))
     (environ_set "DATABRICKS_CLIENT_ID" (default "" (orig !! "DATABRICKS_CLIENT_ID")));;
   when (truthy_str (orig !! "DATABRICKS_CLIENT_SECRET"))
     (environ_set "DATABRICKS_CLIENT_SECRET" (default "" (orig !! "DATABRICKS_CLIENT_SECRET")))) w
  = (inr tt, with_environ (restore_all orig) w).
Proof.
  erewrite bind_run by apply restore_if_truthy.
  erewrite bind_run by apply restore_if_truthy.
  rewrite restore_if_truthy. reflexivity.
Qed.

Lemma cleanup_principal (orig : gmap string string) w :
  (when (truthy_str (orig !! "DATABRICKS_CLIENT_ID"))
     (environ_set "DATABRICKS_CLIENT_ID" (default "" (orig !! "DATABRICKS_CLIENT_ID")));;
   when (truthy_str (orig !! "DATABRICKS_CLIENT_SECRET"))
     (environ_set "DATABRICKS_CLIENT_SECRET" (default "" (orig !! "DATABRICKS_CLIENT_SECRET")))) w
  = (inr tt, with_environ (restore_principal orig) w).
Proof.
  erewrite bind_run by apply restore_if_truthy.
  rewrite restore_if_truthy. reflexivity.
Qed.

(** The world after the token has been read differs at most in the log. *)
Lemma token_world w :
  let w1 := snd (get_user_access_token w) in
  environ w1 = environ w ∧ next_obj w1 = next_obj w ∧ frame w w1.
Proof.
  rewrite get_user_access_token_eq. simpl.
  by destruct (forwarded_token w).
Qed.

Ltac enter_resolver w w1 Henv Hobj Hfr :=
  unfold get_user_authorized_client, try_except, try_finally;
  rewrite (bind_run _ _ _ _ _ (get_user_access_token_eq w));
  pose proof (token_world w) as (Henv & Hobj & Hfr);
  rewrite get_user_access_token_eq in Henv, Hobj, Hfr; simpl snd in Henv, Hobj, Hfr;
  set (w1 := match forwarded_token w with Some _ => _ | None => w end) in *;
  clearbody w1;
  erewrite bind_run by reflexivity.

Ltac close_frame Hfr :=
  destruct Hfr as (?&?&?&?&?&?); repeat split; done.

(** Local development: the CLI branch (utils.py 288-317). *)
Lemma resolver_local w :
  environ w !! "DATABRICKS_APP_NAME" = None →
  ∃ w',
    get_user_authorized_client w =
      (match sdk_config_error None None (scrub_all (environ w)) with
       | None => inr (Some {| client_obj := next_obj w; cfg_host := None;
                              cfg_token := None; cfg_env := scrub_all (environ w) |})
       | Some e => inr None
       end, w') ∧
    environ w' = restore_all (environ w) (scrub_all (environ w)) ∧
    next_obj w' = match sdk_config_error None None (scrub_all (environ w)) with
                  | None => S (next_obj w)
                  | Some _ => next_obj w
                  end ∧
    (∀ e, sdk_config_error None None (scrub_all (environ w)) = Some e →
          last (log w') = Some (ERROR, cause_message (ConstructorRaised e))) ∧
    frame w w'.
Proof.
  intros Happ. enter_resolver w w1 Henv Hobj Hfr.
  rewrite Henv, Happ, andb_false_r.
  change (negb (bool_decide (is_Some (@None string)))) with true. cbv iota.
  do 4 (erewrite bind_run by reflexivity). cbv beta.
  rewrite !remove_if_present.
  unfold with_log at 1 2 3. simpl environ.
  unfold new_WorkspaceClient, bind at 1. simpl environ. simpl next_obj.
  rewrite Henv, Hobj.
  change (delete "DATABRICKS_CLIENT_SECRET" (delete "DATABRICKS_CLIENT_ID"
            (delete "DATABRICKS_HOST" (environ w)))) with (scrub_all (environ w)).
  destruct (sdk_config_error None None (scrub_all (environ w))) as [e|] eqn:Hsdk.
  - rewrite cleanup_all. eexists. split; [reflexivity|]. simpl.
    split; [done|]. split; [done|]. split.
    + intros e' [= <-]. by rewrite last_snoc.
    + close_frame Hfr.
  - erewrite bind_run by reflexivity. unfold ret. rewrite cleanup_all.
    eexists. split; [reflexivity|]. simpl.
    split; [done|]. split; [done|]. split; [done|]. close_frame Hfr.
Qed.

(** Hosted, token forwarded, host configured (utils.py 250-286). *)
Lemma resolver_hosted_token w t a h :
  forwarded_token w = Some t →
  environ w !! "DATABRICKS_APP_NAME" = Some a →
  environ w !! "DATABRICKS_HOST" = Some h →
  h ≠ "" →
  ∃ w',
    get_user_authorized_client w =
      (match sdk_config_error (Some h) (Some t) (scrub_principal (environ w)) with
       | None => inr (Some {| client_obj := next_obj w; cfg_host := Some h;
                              cfg_token := Some t;
                              cfg_env := scrub_principal (environ w) |})
       | Some e => inr None
       end, w') ∧
    environ w' = restore_principal (environ w) (scrub_principal (environ w)) ∧
    next_obj w' = match sdk_config_error (Some h) (Some t) (scrub_principal (environ w)) with
                  | None => S (next_obj w)
                  | Some _ => next_obj w
                  end ∧
    (∀ e, sdk_config_error (Some h) (Some t) (scrub_principal (environ w)) = Some e →
          last (log w') = Some (ERROR, cause_message (ConstructorRaised e))) ∧
    frame w w'.
Proof.
  intros Htok Happ Hhost Hne. enter_resolver w w1 Henv Hobj Hfr.
  rewrite Henv, Happ, Htok, (forwarded_token_truthy _ _ Htok).
  change (true && bool_decide (is_Some (Some a))) with true. cbv iota.
  do 2 (erewrite bind_run by reflexivity).
  rewrite !environ_with_log, Henv, Hhost.
  assert (Hth : truthy_str (Some h) = true).
  { simpl. destruct (String.eqb_spec h ""); [congruence|done]. }
  rewrite Hth. cbn [negb]. cbv iota.
  do 2 (erewrite bind_run by reflexivity). cbv beta.
  rewrite !remove_if_present.
  unfold with_log at 1 2 3. simpl environ.
  unfold new_WorkspaceClient, bind at 1. simpl environ. simpl next_obj.
  rewrite Henv, Hobj.
  change (delete "DATABRICKS_CLIENT_SECRET" (delete "DATABRICKS_CLIENT_ID" (environ w)))
    with (scrub_principal (environ w)).
  destruct (sdk_config_error (Some h) (Some t) (scrub_principal (environ w))) as [e|] eqn:Hsdk.
  - rewrite cleanup_principal. eexists. split; [reflexivity|]. simpl.
    split; [done|]. split; [done|]. split.
    + intros e' [= <-]. by rewrite last_snoc.
    + close_frame Hfr.
  - erewrite bind_run by reflexivity. unfold ret. rewrite cleanup_principal.
    eexists. split; [reflexivity|]. simpl.
    split; [done|]. split; [done|]. split; [done|]. close_frame Hfr.
Qed.

(** Hosted, token forwarded, no host (utils.py 255-258). *)
Lemma resolver_hosted_no_host w t a :
  forwarded_token w = Some t →
  environ w !! "DATABRICKS_APP_NAME" = Some a →
  truthy_str (environ w !! "DATABRICKS_HOST") = false →
  ∃ w',
    get_user_authorized_client w = (inr None, w') ∧
    environ w' = environ w ∧ next_obj w' = next_obj w ∧
    last (log w') = Some (ERROR, cause_message MissingHost) ∧
    frame w w'.
Proof.
  intros Htok Happ Hhost. enter_resolver w w1 Henv Hobj Hfr.
  rewrite Henv, Happ, Htok, (forwarded_token_truthy _ _ Htok).
  change (true && bool_decide (is_Some (Some a))) with true. cbv iota.
  do 2 (erewrite bind_run by reflexivity).
  rewrite !environ_with_log, Henv, Hhost. cbn [negb]. cbv iota.
  erewrite bind_run by reflexivity. unfold ret.
  eexists. split; [reflexivity|]. simpl.
  split; [done|]. split; [done|]. split; [by rewrite last_snoc|]. close_frame Hfr.
Qed.

(** Hosted, no token (utils.py 318-322). *)
Lemma resolver_hosted_no_token w a :
  forwarded_token w = None →
  environ w !! "DATABRICKS_APP_NAME" = Some a →
  ∃ w',
    get_user_authorized_client w = (inr None, w') ∧
    environ w' = environ w ∧ next_obj w' = next_obj w ∧
    last (log w') = Some (ERROR, cause_message MissingConsent) ∧
    frame w w'.
Proof.
  intros Htok Happ. enter_resolver w w1 Henv Hobj Hfr.
  rewrite Henv, Happ, Htok.
  change (truthy_str None && bool_decide (is_Some (Some a))) with false.
  change (negb (bool_decide (is_Some (Some a)))) with false. cbv iota.
  do 2 (erewrite bind_run by reflexivity). unfold ret.
  eexists. split; [reflexivity|]. simpl.
  split; [done|]. split; [done|]. split; [by rewrite last_snoc|]. close_frame Hfr.
Qed.

(** C1. In the hosted context with a forwarded token: when
    [DATABRICKS_HOST] is configured, the resolver calls
    [WorkspaceClient(host=h, token=t)] with exactly that host and token
    (the service-principal variables removed from the environment
    meanwhile) and returns the client it builds, [None] only if that
    constructor raises; when the host is absent or empty it returns
    [None] without constructing anything. *)
Theorem C1_hosted_token_client w t a :
  fst (get_user_access_token w) = inr (Some t) →
  environ w !! "DATABRICKS_APP_NAME" = Some a →
  (∀ h, environ w !! "DATABRICKS_HOST" = Some h → h ≠ "" →
     fst (get_user_authorized_client w) =
       match sdk_config_error (Some h) (Some t) (scrub_principal (environ w)) with
       | None => inr (Some {| client_obj := next_obj w; cfg_host := Some h;
                              cfg_token := Some t;
                              cfg_env := scrub_principal (environ w) |})
       | Some _ => inr None
       end) ∧
  (truthy_str (environ w !! "DATABRICKS_HOST") = false →
     fst (get_user_authorized_client w) = inr None ∧
     next_obj (snd (get_user_authorized_client w)) = next_obj w).
Proof.
  rewrite get_user_access_token_eq. simpl. intros [= Htok] Happ. split.
  - intros h Hh Hne.
    destruct (resolver_hosted_token w t a h Htok Happ Hh Hne) as (w' & -> & _). done.
  - intros Hh.
    destruct (resolver_hosted_no_host w t a Htok Happ Hh) as (w' & -> & _ & Hobj & _). done.
Qed.

(** C2. In the hosted context without a forwarded token the resolver
    returns [None]: no client is constructed, the service-principal
    client in the module global is not handed out, and the environment
    is untouched. *)
Theorem C2_hosted_without_token_fails w :
  is_Some (environ w !! "DATABRICKS_APP_NAME") →
  fst (get_user_access_token w) = inr None →
  fst (get_user_authorized_client w) = inr None ∧
  next_obj (snd (get_user_authorized_client w)) = next_obj w ∧
  environ (snd (get_user_authorized_client w)) = environ w ∧
  last (log (snd (get_user_authorized_client w)))
    = Some (ERROR, cause_message MissingConsent).
Proof.
  intros [a Happ]. rewrite get_user_access_token_eq. simpl. intros [= Htok].
  destruct (resolver_hosted_no_token w a Htok Happ) as (w' & -> & Henv & Hobj & Hlog & _).
  done.
Qed.

(** C3. Without the app-name marker the resolver takes the CLI branch
    whatever the request carries: it calls [WorkspaceClient()] with no
    arguments in an environment from which [DATABRICKS_HOST],
    [DATABRICKS_CLIENT_ID] and [DATABRICKS_CLIENT_SECRET] have been
    removed, and returns the client it builds ([None] if it raises). *)
Theorem C3_local_uses_cli w :
  environ w !! "DATABRICKS_APP_NAME" = None →
  (∀ r, fst (get_user_authorized_client (with_request r w)) =
          match sdk_config_error None None (scrub_all (environ w)) with
          | None => inr (Some {| client_obj := next_obj w; cfg_host := None;
                                 cfg_token := None; cfg_env := scrub_all (environ w) |})
          | Some _ => inr None
          end) ∧
  fst (get_user_authorized_client w) =
    match sdk_config_error None None (scrub_all (environ w)) with
    | None => inr (Some {| client_obj := next_obj w; cfg_host := None;
                           cfg_token := None; cfg_env := scrub_all (environ w) |})
    | Some _ => inr None
    end ∧
  Forall (fun k => scrub_all (environ w) !! k = None) mutated_keys.
Proof.
  intros Happ. split; [|split].
  - intros r.
    destruct (resolver_local (with_request r w) Happ) as (w' & -> & _). done.
  - destruct (resolver_local w Happ) as (w' & -> & _). done.
  - unfold scrub_all, scrub_principal, mutated_keys.
    repeat constructor; by simplify_map_eq.
Qed.

(** *** The environment across a resolution *)

Lemma truthy_str_cases (o : option string) :
  (o = None ∧ truthy_str o = false) ∨ (o = Some "" ∧ truthy_str o = false) ∨
  (∃ v, o = Some v ∧ v ≠ "" ∧ truthy_str o = true).
Proof.
  destruct o as [v|]; [|by left]. right.
  simpl. destruct (String.eqb_spec v "") as [->|Hne]; [by left|].
  right. by exists v.
Qed.

Lemma lookup_restore_key k orig env i :
  restore_key k orig env !! i =
  if decide (k = i) then (if truthy_str (orig !! k) then orig !! k else env !! i)
  else env !! i.
Proof.
  unfold restore_key.
  destruct (truthy_str_cases (orig !! k)) as [[-> ->]|[[-> ->]|(v & -> & Hne & ->)]];
    case_decide; simplify_map_eq; done.
Qed.

Lemma elem_of_mutated_keys i :
  i ∈ mutated_keys ↔
  i = "DATABRICKS_HOST" ∨ i = "DATABRICKS_CLIENT_ID" ∨ i = "DATABRICKS_CLIENT_SECRET".
Proof. unfold mutated_keys. rewrite !elem_of_cons, elem_of_nil. tauto. Qed.

Lemma elem_of_principal_keys i :
  i ∈ ["DATABRICKS_CLIENT_ID"; "DATABRICKS_CLIENT_SECRET"] ↔
  i = "DATABRICKS_CLIENT_ID" ∨ i = "DATABRICKS_CLIENT_SECRET".
Proof. rewrite !elem_of_cons, elem_of_nil. tauto. Qed.

Lemma lookup_restore_scrub_all env i :
  restore_all env (scrub_all env) !! i =
  if bool_decide (i ∈ mutated_keys)
  then (if truthy_str (env !! i) then env !! i else None)
  else env !! i.
Proof.
  unfold restore_all, restore_principal, scrub_all, scrub_principal.
  rewrite !lookup_restore_key.
  destruct (decide (i = "DATABRICKS_CLIENT_SECRET")) as [->|H1];
    [by simplify_map_eq|].
  destruct (decide (i = "DATABRICKS_CLIENT_ID")) as [->|H2];
    [by simplify_map_eq|].
  destruct (decide (i = "DATABRICKS_HOST")) as [->|H3];
    [by simplify_map_eq|].
  rewrite bool_decide_false by (rewrite elem_of_mutated_keys; tauto).
  rewrite !decide_False by done. by simplify_map_eq.
Qed.

Lemma lookup_restore_scrub_principal env i :
  restore_principal env (scrub_principal env) !! i =
  if bool_decide (i ∈ ["DATABRICKS_CLIENT_ID"; "DATABRICKS_CLIENT_SECRET"])
  then (if truthy_str (env !! i) then env !! i else None)
  else env !! i.
Proof.
  unfold restore_principal, scrub_principal.
  rewrite !lookup_restore_key.
  destruct (decide (i = "DATABRICKS_CLIENT_SECRET")) as [->|H1];
    [by simplify_map_eq|].
  destruct (decide (i = "DATABRICKS_CLIENT_ID")) as [->|H2];
    [by simplify_map_eq|].
  rewrite bool_decide_false by (rewrite elem_of_principal_keys; tauto).
  rewrite !decide_False by done. by simplify_map_eq.
Qed.

Lemma restore_scrub_all_id env :
  Forall (fun k => env !! k ≠ Some "") mutated_keys →
  restore_all env (scrub_all env) = env.
Proof.
  intros Hne. apply map_eq. intros i. rewrite lookup_restore_scrub_all.
  case_bool_decide as Hi; [|done].
  rewrite Forall_forall in Hne. specialize (Hne i Hi).
  destruct (truthy_str_cases (env !! i)) as [[-> ->]|[[E ->]|(v & -> & _ & ->)]];
    done.
Qed.

Lemma restore_scrub_principal_id env :
  Forall (fun k => env !! k ≠ Some "") mutated_keys →
  restore_principal env (scrub_principal env) = env.
Proof.
  intros Hne. apply map_eq. intros i. rewrite lookup_restore_scrub_principal.
  case_bool_decide as Hi; [|done].
  rewrite Forall_forall in Hne.
  assert (Hi' : i ∈ mutated_keys)
    by (apply elem_of_mutated_keys; apply elem_of_principal_keys in Hi; tauto).
  specialize (Hne i Hi').
  destruct (truthy_str_cases (env !! i)) as [[-> ->]|[[E ->]|(v & -> & _ & ->)]];
    done.
Qed.

(** Where none of the three variables holds an empty string, the
    environment after a resolution is the environment before it. *)
Lemma environ_restored_unless_empty w :
  Forall (fun k => environ w !! k ≠ Some "") mutated_keys →
  environ (snd (get_user_authorized_client w)) = environ w.
Proof.
  intros Hne.
  destruct (environ w !! "DATABRICKS_APP_NAME") as [a|] eqn:Happ.
  - destruct (forwarded_token w) as [t|] eqn:Htok.
    + destruct (truthy_str_cases (environ w !! "DATABRICKS_HOST"))
        as [[Hh Ht]|[[Hh Ht]|(h & Hh & Hhne & _)]].
      * by destruct (resolver_hosted_no_host w t a Htok Happ Ht) as (w' & -> & Henv & _).
      * by destruct (resolver_hosted_no_host w t a Htok Happ Ht) as (w' & -> & Henv & _).
      * destruct (resolver_hosted_token w t a h Htok Happ Hh Hhne) as (w' & -> & Henv & _).
        simpl. rewrite Henv. by apply restore_scrub_principal_id.
    + by destruct (resolver_hosted_no_token w a Htok Happ) as (w' & -> & Henv & _).
  - destruct (resolver_local w Happ) as (w' & -> & Henv & _).
    simpl. rewrite Henv. by apply restore_scrub_all_id.
Qed.

(** C4 (what the code does instead).  A variable among the three that
    holds the empty string is deleted by the CLI branch and not put back:
    the [finally] block tests the saved value for truth, not for [None]. *)
Theorem C4_empty_value_not_restored w k :
  environ w !! "DATABRICKS_APP_NAME" = None →
  k ∈ mutated_keys →
  environ w !! k = Some "" →
  environ (snd (get_user_authorized_client w)) !! k = None.
Proof.
  intros Happ Hk Hempty.
  destruct (resolver_local w Happ) as (w' & -> & Henv & _). simpl. rewrite Henv.
  rewrite lookup_restore_scrub_all, bool_decide_true by done.
  by rewrite Hempty.
Qed.

(** The same slip in the hosted branch, for the two service-principal
    variables. *)
Lemma hosted_empty_value_not_restored w t a h k :
  forwarded_token w = Some t →
  environ w !! "DATABRICKS_APP_NAME" = Some a →
  environ w !! "DATABRICKS_HOST" = Some h → h ≠ "" →
  k ∈ ["DATABRICKS_CLIENT_ID"; "DATABRICKS_CLIENT_SECRET"] →
  environ w !! k = Some "" →
  environ (snd (get_user_authorized_client w)) !! k = None.
Proof.
  intros Htok Happ Hh Hhne Hk Hempty.
  destruct (resolver_hosted_token w t a h Htok Happ Hh Hhne) as (w' & -> & Henv & _).
  simpl. rewrite Henv, lookup_restore_scrub_principal, bool_decide_true by done.
  by rewrite Hempty.
Qed.

(** *** The privileged client of job submission *)

(** C5 (as amended).  The service-principal client of the module global
    is used whenever there is one, whatever the request carries.  Without
    it, a CLI client is constructed when [DATABRICKS_APP_NAME] is unset
    or empty, the resolution failing with the CLI login hint if the
    constructor raises; when [DATABRICKS_APP_NAME] is set to a non-empty
    value the resolution fails and the world is unchanged. *)
Theorem C5_privileged_client_resolution w :
  (∀ c r, databricks_client w = Bound (Some c) →
          resolve_job_client (with_request r w) = (inr c, with_request r w)) ∧
  (databricks_client w = Bound None →
   truthy_str (environ w !! "DATABRICKS_APP_NAME") = false →
   fst (resolve_job_client w) =
     match sdk_config_error None None (environ w) with
     | None => inr {| client_obj := next_obj w; cfg_host := None; cfg_token := None;
                      cfg_env := environ w |}
     | Some _ => inl (ValueError cli_login_message)
     end) ∧
  (databricks_client w = Bound None →
   truthy_str (environ w !! "DATABRICKS_APP_NAME") = true →
   resolve_job_client w =
     (inl (ValueError "App service principal not available for job submission. Check app configuration."), w)).
Proof.
  unfold resolve_job_client, get_databricks_client, bind. split; [|split].
  - intros c r Hc. simpl. by rewrite Hc.
  - intros -> Happ. simpl. rewrite Happ. simpl.
    unfold try_except, new_WorkspaceClient, raise. simpl.
    by destruct (sdk_config_error None None (environ w)).
  - intros -> Happ. simpl. by rewrite Happ.
Qed.

End Resolver.

(** *** The call boundary *)

Section Boundary.
Context `{Platform}.

Lemma returns_ret {A} (P : A → Prop) a : P a → returns P (ret a).
Proof. intros HP w a' w' [= <- _]. done. Qed.

Lemma returns_bind {A B} (P : B → Prop) (m : M A) (k : A → M B) :
  (∀ a, (∃ w w1, m w = (inr a, w1)) → returns P (k a)) → returns P (bind m k).
Proof.
  intros Hk w b w'. unfold bind.
  destruct (m w) as [[e|a] w1] eqn:Hm; [done|].
  apply Hk. eauto.
Qed.

Lemma send_to_azure_logs_total log_type data w :
  ∃ w', send_to_azure_logs log_type data w = (inr tt, w') ∧
        api_calls w' = api_calls w ∧ environ w' = environ w ∧
        databricks_client w' = databricks_client w.
Proof.
  unfold send_to_azure_logs.
  destruct (negb (truthy_str (azure_log_workspace_id w))
            || negb (truthy_str (azure_log_shared_key w))); [by eexists|].
  unfold try_except, bind, now_iso.
  destruct AZURE_LOGGING_AVAILABLE; [|by eexists].
  destruct (azure_post _ _ log_type data); by eexists.
Qed.

Lemma handle_error_total e context w :
  ∃ w', handle_error e context w =
          (inr ("Error (" +:+ utc_now (clock w) +:+ "): " +:+ exc_msg e), w') ∧
        api_calls w' = api_calls w ∧ environ w' = environ w ∧
        databricks_client w' = databricks_client w.
Proof.
  unfold handle_error.
  do 3 (erewrite bind_run by reflexivity).
  match goal with |- context [bind (send_to_azure_logs ?t ?d) _ ?w0] =>
    destruct (send_to_azure_logs_total t d w0) as (w' & Hs & Hc & He & Hg) end.
  erewrite bind_run by exact Hs.
  eexists. split; [reflexivity|]. by rewrite Hc, He, Hg.
Qed.

Lemma failure_result_total context e w :
  ∃ msg w', failure_result context e w =
              (inr (VDict [(VStr "success", VBool false); (VStr "error", VStr msg)]), w') ∧
            api_calls w' = api_calls w ∧ environ w' = environ w ∧
            databricks_client w' = databricks_client w.
Proof.
  unfold failure_result.
  destruct (handle_error_total e context w) as (w' & Hh & Hc).
  erewrite bind_run by exact Hh. by eexists _, _.
Qed.

Lemma structured_failure msg :
  structured_result (VDict [(VStr "success", VBool false); (VStr "error", VStr msg)]).
Proof. exists false. split; [done|]. by exists msg. Qed.

Lemma structured_success items :
  structured_result (VDict ((VStr "success", VBool true) :: items)).
Proof. exists true. split; [done|]. done. Qed.

(** A body under [try ... except Exception] whose handler builds the
    failure dictionary always yields a structured result. *)
Lemma boundary_structured (body : M PyVal) context w :
  returns structured_result body →
  ∃ d w', try_except body (failure_result context) w = (inr d, w') ∧ structured_result d.
Proof.
  intros Hbody. unfold try_except.
  destruct (body w) as [[e|d] w1] eqn:Hrun.
  - destruct (failure_result_total context e w1) as (msg & w' & -> & _).
    eexists _, _. split; [done|]. apply structured_failure.
  - eexists _, _. split; [done|]. by eapply Hbody.
Qed.

Ltac walk := repeat (apply returns_bind; intros ? _).

(** C6. Whatever their arguments and the world they run in, the three
    boundary operations return a dictionary with a boolean [success] and,
    when it is false, an [error] string; no exception leaves them. *)
Theorem C6_boundaries_return_structured_results :
  (∀ query_template parameters_json warehouse_id w,
     ∃ d w', execute_sql_query query_template parameters_json warehouse_id w = (inr d, w')
             ∧ structured_result d) ∧
  (∀ job_id parameters_json w,
     ∃ d w', submit_databricks_job job_id parameters_json w = (inr d, w')
             ∧ structured_result d) ∧
  (∀ endpoint_name inputs_json w,
     ∃ d w', call_model_serving_endpoint endpoint_name inputs_json w = (inr d, w')
             ∧ structured_result d).
Proof.
  split; [|split]; intros; apply boundary_structured.
  - walk. destruct (response_rows _); apply returns_ret, structured_success.
  - walk. apply returns_ret, structured_success.
  - walk. apply returns_ret, structured_success.
Qed.

Lemma loads_or_empty_frame s w r w' : loads_or_empty s w = (r, w') → w' = w.
Proof.
  unfold loads_or_empty, lift, ret. destruct (truthy (VStr s)); by intros [= _ <-].
Qed.

Lemma new_JobSubmissionRequest_nonpositive job_id parameters :
  job_id ≤ 0 → ∃ e, new_JobSubmissionRequest job_id parameters = inl e.
Proof.
  intros Hle. unfold new_JobSubmissionRequest, validate_job_id.
  rewrite (proj2 (Z.leb_le job_id 0) Hle). eauto.
Qed.

(** C9. A job id that is zero or negative never reaches the jobs API:
    whatever the parameters string, the result has [success] false and no
    outbound call has been made. *)
Theorem C9_nonpositive_job_id_rejected job_id parameters_json w :
  job_id ≤ 0 →
  ∃ msg w',
    submit_databricks_job job_id parameters_json w =
      (inr (VDict [(VStr "success", VBool false); (VStr "error", VStr msg)]), w') ∧
    api_calls w' = api_calls w.
Proof.
  intros Hle. unfold submit_databricks_job, try_except.
  unfold bind at 1.
  destruct (loads_or_empty parameters_json w) as [[e|ps] w1] eqn:Hl;
    apply loads_or_empty_frame in Hl as Hw; subst w1.
  - destruct (failure_result_total "submit_job" e w) as (msg & w' & -> & Hc & _).
    by exists msg, w'.
  - destruct (new_JobSubmissionRequest_nonpositive job_id ps Hle) as [e He].
    unfold bind at 1, lift. rewrite He.
    destruct (failure_result_total "submit_job" e w) as (msg & w' & -> & Hc & _).
    by exists msg, w'.
Qed.


Lemma response_rows_returned r :
  response_rows r = match returned_rows r with [] => None | rows => Some rows end.
Proof.
  unfold response_rows, returned_rows.
  destruct (result r) as [rd|]; [|done].
  by destruct (data_array rd) as [[|row rows]|].
Qed.



End Boundary.

(** *** Failure causes and client identity *)

Section Identity.
Context `{Platform}.

Lemma app_name_not_mutated : bool_decide ("DATABRICKS_APP_NAME" ∈ mutated_keys) = false.
Proof. apply bool_decide_eq_false. rewrite elem_of_mutated_keys. by intros [|[|]]. Qed.

Lemma app_name_not_principal :
  bool_decide ("DATABRICKS_APP_NAME" ∈ ["DATABRICKS_CLIENT_ID"; "DATABRICKS_CLIENT_SECRET"]) = false.
Proof. apply bool_decide_eq_false. rewrite elem_of_principal_keys. by intros [|]. Qed.

(** Every way a resolution can end. *)
Lemma resolver_outcome w :
  let r := get_user_authorized_client w in
  frame w (snd r) ∧
  environ (snd r) !! "DATABRICKS_APP_NAME" = environ w !! "DATABRICKS_APP_NAME" ∧
  ((fst r = inr None ∧ next_obj (snd r) = next_obj w ∧
    ∃ cause, last (log (snd r)) = Some (ERROR, cause_message cause)) ∨
   (∃ c, fst r = inr (Some c) ∧ client_obj c = next_obj w ∧
         next_obj (snd r) = S (next_obj w) ∧
         ((∃ h t, forwarded_token w = Some t ∧
                  environ w !! "DATABRICKS_HOST" = Some h ∧
                  is_Some (environ w !! "DATABRICKS_APP_NAME") ∧
                  cfg_host c = Some h ∧ cfg_token c = Some t ∧
                  cfg_env c = scrub_principal (environ w)) ∨
          (environ w !! "DATABRICKS_APP_NAME" = None ∧
           cfg_host c = None ∧ cfg_token c = None ∧
           cfg_env c = scrub_all (environ w))))).
Proof.
  cbv zeta.
  destruct (environ w !! "DATABRICKS_APP_NAME") as [a|] eqn:Happ.
  - destruct (forwarded_token w) as [t|] eqn:Htok.
    + destruct (truthy_str_cases (environ w !! "DATABRICKS_HOST"))
        as [[Hh Ht]|[[Hh Ht]|(h & Hh & Hhne & _)]].
      * destruct (resolver_hosted_no_host w t a Htok Happ Ht)
          as (w' & -> & Henv & Hobj & Hlog & Hfr).
        simpl. rewrite Henv. split; [exact Hfr|]. split; [done|]. left. eauto.
      * destruct (resolver_hosted_no_host w t a Htok Happ Ht)
          as (w' & -> & Henv & Hobj & Hlog & Hfr).
        simpl. rewrite Henv. split; [exact Hfr|]. split; [done|]. left. eauto.
      * destruct (resolver_hosted_token w t a h Htok Happ Hh Hhne)
          as (w' & -> & Henv & Hobj & Hlog & Hfr).
        simpl. rewrite Henv, lookup_restore_scrub_principal, app_name_not_principal.
        split; [exact Hfr|]. split; [done|].
        destruct (sdk_config_error (Some h) (Some t) (scrub_principal (environ w))) as [e|].
        -- left. eauto.
        -- right. eexists. split; [done|]. simpl. split; [done|]. split; [done|].
           left. exists h, t. eauto 10.
    + destruct (resolver_hosted_no_token w a Htok Happ)
        as (w' & -> & Henv & Hobj & Hlog & Hfr).
      simpl. rewrite Henv. split; [exact Hfr|]. split; [done|]. left. eauto.
  - destruct (resolver_local w Happ) as (w' & -> & Henv & Hobj & Hlog & Hfr).
    simpl. rewrite Henv, lookup_restore_scrub_all, app_name_not_mutated.
    split; [exact Hfr|]. split; [done|].
    destruct (sdk_config_error None None (scrub_all (environ w))) as [e|].
    + left. eauto.
    + right. eexists. split; [done|]. simpl. eauto 10.
Qed.

Lemma unable_to_authenticate_raises w :
  unable_to_authenticate w =
  (inl (ValueError (if truthy_str (environ w !! "DATABRICKS_APP_NAME")
                    then consent_message else cli_login_message)), w).
Proof.
  unfold unable_to_authenticate, bind, os_getenv, raise.
  by destruct (truthy_str (environ w !! "DATABRICKS_APP_NAME")).
Qed.

(** The resolver reads the environment, the request and the object
    counter, never the log. *)
Lemma resolver_ignores_log l w :
  fst (get_user_authorized_client (with_log l w)) = fst (get_user_authorized_client w).
Proof.
  destruct (environ w !! "DATABRICKS_APP_NAME") as [a|] eqn:Happ.
  - destruct (forwarded_token w) as [t|] eqn:Htok.
    + destruct (truthy_str_cases (environ w !! "DATABRICKS_HOST"))
        as [[Hh Ht]|[[Hh Ht]|(h & Hh & Hhne & _)]].
      * destruct (resolver_hosted_no_host w t a Htok Happ Ht) as (w1 & -> & _).
        by destruct (resolver_hosted_no_host (with_log l w) t a Htok Happ Ht) as (w2 & -> & _).
      * destruct (resolver_hosted_no_host w t a Htok Happ Ht) as (w1 & -> & _).
        by destruct (resolver_hosted_no_host (with_log l w) t a Htok Happ Ht) as (w2 & -> & _).
      * destruct (resolver_hosted_token w t a h Htok Happ Hh Hhne) as (w1 & -> & _).
        by destruct (resolver_hosted_token (with_log l w) t a h Htok Happ Hh Hhne)
          as (w2 & -> & _).
    + destruct (resolver_hosted_no_token w a Htok Happ) as (w1 & -> & _).
      by destruct (resolver_hosted_no_token (with_log l w) a Htok Happ) as (w2 & -> & _).
  - destruct (resolver_local w Happ) as (w1 & -> & _).
    by destruct (resolver_local (with_log l w) Happ) as (w2 & -> & _).
Qed.

(** Validation of a query request can only add a warning to the log. *)
Lemma new_SQLQueryRequest_world q params wid w :
  snd (new_SQLQueryRequest q params wid w) = w ∨
  ∃ l, snd (new_SQLQueryRequest q params wid w) = with_log l w.
Proof.
  unfold new_SQLQueryRequest, validate_query_template.
  destruct (negb (truthy (VStr q)) || negb (truthy (VStr (strip q)))).
  - left. unfold raise. simpl. by destruct (as_dict_any params).
  - unfold bind, when, logger, ret.
    destruct (negb (contains "${" q) && negb (contains "{{" q) && negb (contains ":" q));
      simpl; destruct (as_dict_any params); simpl; eauto.
Qed.

Lemma failed_resolution_world w :
  let w' := snd (get_user_authorized_client w) in
  clock w' = clock w ∧ marker_message w' = marker_message w.
Proof.
  cbv zeta. destruct (resolver_outcome w) as (Hfr & Happ & _).
  unfold marker_message. rewrite Happ. split; [apply Hfr|done].
Qed.

Lemma call_model_unauthenticated endpoint_name inputs_json w inputs :
  fst (loads_or_empty inputs_json w) = inr inputs →
  fst (get_user_authorized_client w) = inr None →
  fst (call_model_serving_endpoint endpoint_name inputs_json w) =
    inr (VDict [(VStr "success", VBool false);
                (VStr "error",
                 VStr ("Error (" +:+ utc_now (clock w) +:+ "): " +:+ marker_message w))]).
Proof.
  intros Hloads Hres. unfold call_model_serving_endpoint, try_except.
  unfold bind at 1.
  destruct (loads_or_empty inputs_json w) as [r w0] eqn:Hl.
  apply loads_or_empty_frame in Hl as ->. simpl in Hloads. subst r.
  unfold bind at 1.
  destruct (failed_resolution_world w) as (Hclock & Hmsg).
  destruct (get_user_authorized_client w) as [r w1]. simpl in *. subst r.
  unfold bind at 1. rewrite unable_to_authenticate_raises.
  destruct (handle_error_total (ValueError (marker_message w1)) "call_model_serving" w1)
    as (w2 & Hh & _).
  unfold failure_result. fold (marker_message w1).
  erewrite bind_run by exact Hh. simpl. by rewrite Hclock, Hmsg.
Qed.

Lemma execute_sql_unauthenticated query_template parameters_json warehouse_id w params request :
  fst (loads_or_empty parameters_json w) = inr params →
  fst (new_SQLQueryRequest query_template params
         (if truthy_str warehouse_id then warehouse_id else None) w) = inr request →
  truthy_str (if truthy_str (sql_warehouse_id request) then sql_warehouse_id request
              else environ w !! "SQL_WAREHOUSE_ID") = true →
  fst (get_user_authorized_client w) = inr None →
  fst (execute_sql_query query_template parameters_json warehouse_id w) =
    inr (VDict [(VStr "success", VBool false);
                (VStr "error",
                 VStr ("Error (" +:+ utc_now (clock w) +:+ "): " +:+ marker_message w))]).
Proof.
  intros Hloads Hreq Hwh Hres. unfold execute_sql_query, try_except.
  unfold bind at 1.
  destruct (loads_or_empty parameters_json w) as [r w0] eqn:Hl.
  apply loads_or_empty_frame in Hl as ->. simpl in Hloads. subst r.
  unfold bind at 1.
  pose proof (new_SQLQueryRequest_world query_template params
                (if truthy_str warehouse_id then warehouse_id else None) w) as Hw1.
  destruct (new_SQLQueryRequest _ _ _ w) as [r w1]. simpl in Hreq, Hw1. subst r.
  assert (Hsame : environ w1 = environ w ∧ clock w1 = clock w ∧
                  fst (get_user_authorized_client w1) = inr None).
  { destruct Hw1 as [->|[l ->]]; [done|]. by rewrite resolver_ignores_log. }
  destruct Hsame as (Henv & Hclk & Hres1). clear Hw1.
  erewrite bind_run by reflexivity. rewrite Henv, Hwh. cbn [negb].
  erewrite bind_run by reflexivity.
  unfold bind at 1.
  destruct (failed_resolution_world w1) as (Hclock & Hmsg).
  destruct (get_user_authorized_client w1) as [r w2]. simpl in *. subst r.
  unfold bind at 1. rewrite unable_to_authenticate_raises.
  destruct (handle_error_total (ValueError (marker_message w2)) "execute_sql_query" w2)
    as (w3 & Hh & _).
  unfold failure_result. fold (marker_message w2).
  erewrite bind_run by exact Hh. simpl. rewrite Hclock, Hclk, Hmsg.
  unfold marker_message. by rewrite Henv.
Qed.

(** C7 (as amended).  A failed resolution returns [None], whatever went
    wrong; what went wrong is the last line it wrote to the error log,
    one cause for each kind of failure: the missing host when a token is
    forwarded in the hosted context and [DATABRICKS_HOST] is unset or
    empty, the missing consent when the hosted context has no forwarded
    token, and the constructor's own error when [WorkspaceClient] raises,
    with the token in the hosted context or with the CLI configuration
    (no CLI session) in local development.  There is no other failure.
    A caller that reaches the resolver then reports the message chosen
    by the app-name marker alone, behind the [Error (<time>): ] prefix
    of [handle_error]. *)
Theorem C7_failure_returns_None_and_logs_cause w :
  let r := get_user_authorized_client w in
  let fails_with cause :=
    fst r = inr None ∧ last (log (snd r)) = Some (ERROR, cause_message cause) in
  let marker := environ w !! "DATABRICKS_APP_NAME" in
  let host := environ w !! "DATABRICKS_HOST" in
  let token := fst (get_user_access_token w) in
  ((∃ c, fst r = inr (Some c)) ∨
   (fst r = inr None ∧
    ∃ cause, last (log (snd r)) = Some (ERROR, cause_message cause))) ∧
  (∀ t, is_Some marker → token = inr (Some t) → truthy_str host = false →
        fails_with MissingHost) ∧
  (is_Some marker → token = inr None → fails_with MissingConsent) ∧
  (∀ t h e, is_Some marker → token = inr (Some t) → host = Some h → h ≠ "" →
        sdk_config_error (Some h) (Some t) (scrub_principal (environ w)) = Some e →
        fails_with (ConstructorRaised e)) ∧
  (∀ e, marker = None →
        sdk_config_error None None (scrub_all (environ w)) = Some e →
        fails_with (ConstructorRaised e)) ∧
  (fst r = inr None →
   (∃ t, is_Some marker ∧ token = inr (Some t) ∧ truthy_str host = false) ∨
   (is_Some marker ∧ token = inr None) ∨
   (∃ t h e, is_Some marker ∧ token = inr (Some t) ∧ host = Some h ∧ h ≠ "" ∧
             sdk_config_error (Some h) (Some t) (scrub_principal (environ w)) = Some e) ∨
   (∃ e, marker = None ∧
         sdk_config_error None None (scrub_all (environ w)) = Some e)) ∧
  (fst r = inr None →
   let failure :=
     VDict [(VStr "success", VBool false);
            (VStr "error",
             VStr ("Error (" +:+ utc_now (clock w) +:+ "): " +:+ marker_message w))] in
   (∀ endpoint_name inputs_json inputs,
      fst (loads_or_empty inputs_json w) = inr inputs →
      fst (call_model_serving_endpoint endpoint_name inputs_json w) = inr failure) ∧
   (∀ query_template parameters_json warehouse_id params request,
      fst (loads_or_empty parameters_json w) = inr params →
      fst (new_SQLQueryRequest query_template params
             (if truthy_str warehouse_id then warehouse_id else None) w) = inr request →
      truthy_str (if truthy_str (sql_warehouse_id request) then sql_warehouse_id request
                  else environ w !! "SQL_WAREHOUSE_ID") = true →
      fst (execute_sql_query query_template parameters_json warehouse_id w) = inr failure)).
Proof.
  cbv zeta. rewrite get_user_access_token_eq. cbn [fst].
  split; [|split; [|split; [|split; [|split; [|split]]]]].
  - destruct (resolver_outcome w) as (_ & _ & [(Hr & _ & Hlog)|(c & Hr & _)]);
      [right|left]; eauto.
  - intros t [a Happ] [= Htok] Hhost.
    by destruct (resolver_hosted_no_host w t a Htok Happ Hhost) as (w' & -> & _ & _ & Hlog & _).
  - intros [a Happ] [= Htok].
    by destruct (resolver_hosted_no_token w a Htok Happ) as (w' & -> & _ & _ & Hlog & _).
  - intros t h e [a Happ] [= Htok] Hh Hne Hsdk.
    destruct (resolver_hosted_token w t a h Htok Happ Hh Hne) as (w' & -> & _ & _ & Hlog & _).
    rewrite Hsdk. split; [done|]. by apply Hlog.
  - intros e Happ Hsdk.
    destruct (resolver_local w Happ) as (w' & -> & _ & _ & Hlog & _).
    rewrite Hsdk. split; [done|]. by apply Hlog.
  - intros Hnone.
    destruct (environ w !! "DATABRICKS_APP_NAME") as [a|] eqn:Happ.
    + destruct (forwarded_token w) as [t|] eqn:Htok.
      * destruct (truthy_str_cases (environ w !! "DATABRICKS_HOST"))
          as [[Hh Ht]|[[Hh Ht]|(h & Hh & Hhne & _)]].
        -- left. exists t. rewrite Hh. eauto.
        -- left. exists t. rewrite Hh. eauto.
        -- right. right. left.
           destruct (resolver_hosted_token w t a h Htok Happ Hh Hhne) as (w' & Hr & _).
           rewrite Hr in Hnone. simpl in Hnone.
           destruct (sdk_config_error (Some h) (Some t) (scrub_principal (environ w)))
             as [e|] eqn:Hsdk; [|done].
           exists t, h, e. eauto 10.
      * right. left. eauto.
    + right. right. right.
      destruct (resolver_local w Happ) as (w' & Hr & _).
      rewrite Hr in Hnone. simpl in Hnone.
      destruct (sdk_config_error None None (scrub_all (environ w))) as [e|] eqn:Hsdk; [|done].
      eauto.
  - intros Hnone. split.
    + intros. by eapply call_model_unauthenticated.
    + intros. by eapply execute_sql_unauthenticated.
Qed.

Lemma resolve_job_client_cached w c :
  databricks_client w = Bound (Some c) → resolve_job_client w = (inr c, w).
Proof.
  intros Hc. unfold resolve_job_client, get_databricks_client, bind. by rewrite Hc.
Qed.

Ltac finish_setup :=
  match goal with |- context [bind (send_to_azure_logs ?t ?d) _ ?w0] =>
    destruct (send_to_azure_logs_total t d w0) as (w' & Hs & _ & _ & Hg);
    unfold bind at 1; rewrite Hs
  | |- context [send_to_azure_logs ?t ?d ?w0] =>
    destruct (send_to_azure_logs_total t d w0) as (w' & Hs & _ & _ & Hg);
    rewrite Hs
  end.

(** [setup_databricks_client] always binds the module global: to the
    client it constructed, or to [None]. *)
Lemma setup_databricks_client_binds w :
  ∃ oc, databricks_client (snd (setup_databricks_client w)) = Bound oc ∧
        ∀ c, oc = Some c →
             client_obj c = next_obj w ∧ cfg_host c = None ∧ cfg_token c = None ∧
             cfg_env c = environ w.
Proof.
  unfold setup_databricks_client, try_except.
  unfold bind at 1, new_WorkspaceClient.
  destruct (sdk_config_error None None (environ w)) as [e|].
  - do 5 (erewrite bind_run by reflexivity). finish_setup.
    exists None. simpl. rewrite Hg. done.
  - erewrite bind_run by reflexivity. unfold bind at 1, lift.
    destruct (current_user_me _) as [e|user_name].
    + do 5 (erewrite bind_run by reflexivity). finish_setup.
      exists None. simpl. rewrite Hg. done.
    + do 5 (erewrite bind_run by reflexivity). finish_setup.
      eexists. simpl. rewrite Hg. simpl. split; [reflexivity|].
      by intros c [= <-].
Qed.

(** C8 (as amended).  A client returned by [get_user_authorized_client]
    is a new object built from one credential source, the forwarded token
    with the configured host or the CLI configuration, and the next
    resolution, in whatever request, returns a different object.  The
    privileged resolver does not construct: it returns the client kept in
    the module global, which [setup_databricks_client] binds at start-up,
    and leaves the world as it found it. *)
Theorem C8_user_clients_fresh_principal_client_kept w :
  (∀ c, fst (get_user_authorized_client w) = inr (Some c) →
     client_obj c = next_obj w ∧
     ((∃ h t, forwarded_token w = Some t ∧ environ w !! "DATABRICKS_HOST" = Some h ∧
              cfg_host c = Some h ∧ cfg_token c = Some t) ∨
      (environ w !! "DATABRICKS_APP_NAME" = None ∧ cfg_host c = None ∧ cfg_token c = None)) ∧
     ∀ r c', fst (get_user_authorized_client
                    (with_request r (snd (get_user_authorized_client w)))) = inr (Some c') →
             client_obj c' ≠ client_obj c) ∧
  (∀ sp r, databricks_client w = Bound (Some sp) →
     resolve_job_client (with_request r w) = (inr sp, with_request r w)) ∧
  (∃ kept, databricks_client (snd (setup_databricks_client w)) = Bound kept).
Proof.
  split; [|split].
  - intros c Hc.
    destruct (resolver_outcome w) as (_ & _ & [(Hr & _)|(c0 & Hr & Hid & Hobj & Hsrc)]);
      simpl in *; [congruence|].
    rewrite Hc in Hr. injection Hr as <-.
    split; [done|]. split.
    + destruct Hsrc as [(h & t & ? & ? & ? & ? & ? & ?)|(? & ? & ? & ?)]; [left|right]; eauto 10.
    + intros r c' Hc'.
      destruct (resolver_outcome
                  (with_request r (snd (get_user_authorized_client w))))
        as (_ & _ & [(Hr' & _)|(c1 & Hr' & Hid' & _)]); simpl in *; [congruence|].
      rewrite Hc' in Hr'. injection Hr' as <-.
      rewrite Hid', Hid, Hobj. lia.
  - intros sp r Hsp. by apply resolve_job_client_cached.
  - destruct (setup_databricks_client_binds w) as (kept & Hkept & _). eauto.
Qed.

End Identity.

(** * The code on concrete worlds *)

Lemma C1_witness :
  fst (get_user_access_token Demo.hosted_world) = inr (Some "user-token") ∧
  environ Demo.hosted_world !! "DATABRICKS_APP_NAME" = Some "example-app" ∧
  fst (@get_user_authorized_client Demo.platform Demo.hosted_world) =
    inr (Some {| client_obj := 1;
                 cfg_host := Some "https://adb-1.azuredatabricks.net";
                 cfg_token := Some "user-token";
                 cfg_env := scrub_principal Demo.hosted_env |}) ∧
  fst (@get_user_authorized_client Demo.platform Demo.no_host_world) = inr None.
Proof.
  split; [reflexivity|]. split; [reflexivity|]. split.
  - destruct (@C1_hosted_token_client Demo.platform Demo.hosted_world
                "user-token" "example-app") as [Hc _]; [reflexivity|reflexivity|].
    rewrite (Hc "https://adb-1.azuredatabricks.net"); [reflexivity|reflexivity|discriminate].
  - destruct (@C1_hosted_token_client Demo.platform Demo.no_host_world
                "user-token" "example-app") as [_ Hn]; [reflexivity|reflexivity|].
    apply Hn. reflexivity.
Defined.

Lemma C2_witness :
  is_Some (environ Demo.no_consent_world !! "DATABRICKS_APP_NAME") ∧
  fst (get_user_access_token Demo.no_consent_world) = inr None ∧
  fst (@get_user_authorized_client Demo.platform Demo.no_consent_world) = inr None ∧
  next_obj (snd (@get_user_authorized_client Demo.platform Demo.no_consent_world)) = 1%nat.
Proof.
  assert (Happ : is_Some (environ Demo.no_consent_world !! "DATABRICKS_APP_NAME"))
    by (eexists; reflexivity).
  split; [exact Happ|]. split; [reflexivity|].
  destruct (@C2_hosted_without_token_fails Demo.platform Demo.no_consent_world Happ eq_refl)
    as (Hr & Hobj & _).
  split; [exact Hr|exact Hobj].
Defined.

Lemma C3_witness :
  environ Demo.local_world !! "DATABRICKS_APP_NAME" = None ∧
  fst (@get_user_authorized_client Demo.platform Demo.local_world) =
    inr (Some {| client_obj := 1; cfg_host := None; cfg_token := None;
                 cfg_env := {[ "DATABRICKS_CONFIG_PROFILE" := "DEFAULT";
                               "SQL_WAREHOUSE_ID" := "wh-1" ]} |}) ∧
  fst (@get_user_authorized_client Demo.platform (with_request None Demo.local_world)) =
    fst (@get_user_authorized_client Demo.platform Demo.local_world).
Proof.
  split; [reflexivity|].
  destruct (@C3_local_uses_cli Demo.platform Demo.local_world eq_refl) as (Hr & Hw & _).
  split.
  - rewrite Hw. vm_compute. reflexivity.
  - rewrite (Hr None), Hw. reflexivity.
Defined.

Lemma C4_witness :
  environ Demo.empty_id_world !! "DATABRICKS_APP_NAME" = None ∧
  environ Demo.empty_id_world !! "DATABRICKS_CLIENT_ID" = Some "" ∧
  environ (snd (@get_user_authorized_client Demo.platform Demo.empty_id_world))
    !! "DATABRICKS_CLIENT_ID" = None.
Proof.
  split; [reflexivity|]. split; [reflexivity|].
  apply (@C4_empty_value_not_restored Demo.platform Demo.empty_id_world "DATABRICKS_CLIENT_ID");
    [reflexivity| |reflexivity].
  apply elem_of_mutated_keys. right. left. reflexivity.
Defined.

Lemma C5_witness :
  (databricks_client Demo.hosted_world = Bound (Some Demo.sp_client) ∧
   @resolve_job_client Demo.platform (with_request None Demo.hosted_world)
     = (inr Demo.sp_client, with_request None Demo.hosted_world)) ∧
  (databricks_client Demo.local_world = Bound None ∧
   truthy_str (environ Demo.local_world !! "DATABRICKS_APP_NAME") = false ∧
   fst (@resolve_job_client Demo.platform Demo.local_world) =
     inr {| client_obj := 1; cfg_host := None; cfg_token := None;
            cfg_env := Demo.local_env |}) ∧
  (databricks_client Demo.hosted_no_principal_world = Bound None ∧
   truthy_str (environ Demo.hosted_no_principal_world !! "DATABRICKS_APP_NAME") = true ∧
   fst (@resolve_job_client Demo.platform Demo.hosted_no_principal_world) =
     inl (ValueError "App service principal not available for job submission. Check app configuration.")).
Proof.
  split; [|split].
  - split; [reflexivity|].
    destruct (@C5_privileged_client_resolution Demo.platform Demo.hosted_world) as (Ha & _).
    apply Ha. reflexivity.
  - split; [reflexivity|]. split; [reflexivity|].
    destruct (@C5_privileged_client_resolution Demo.platform Demo.local_world) as (_ & Hb & _).
    rewrite Hb; reflexivity.
  - split; [reflexivity|]. split; [reflexivity|].
    destruct (@C5_privileged_client_resolution Demo.platform Demo.hosted_no_principal_world)
      as (_ & _ & Hc).
    rewrite Hc; reflexivity.
Defined.

Lemma C7_witness :
  (is_Some (environ Demo.no_host_world !! "DATABRICKS_APP_NAME") ∧
   fst (get_user_access_token Demo.no_host_world) = inr (Some "user-token") ∧
   truthy_str (environ Demo.no_host_world !! "DATABRICKS_HOST") = false ∧
   fst (@get_user_authorized_client Demo.platform Demo.no_host_world) = inr None ∧
   last (log (snd (@get_user_authorized_client Demo.platform Demo.no_host_world)))
     = Some (ERROR, "DATABRICKS_HOST environment variable not found")) ∧
  fst (loads_or_empty (H:=Demo.platform) "{}" Demo.no_host_world) = inr (VDict []) ∧
  fst (@call_model_serving_endpoint Demo.platform "chat" "{}" Demo.no_host_world) =
    inr (VDict [(VStr "success", VBool false);
                (VStr "error",
                 VStr ("Error (2025-01-01T00:00:00+00:00): " +:+ consent_message))]).
Proof.
  destruct (@C7_failure_returns_None_and_logs_cause Demo.platform Demo.no_host_world)
    as (_ & Hhost & _ & _ & _ & _ & Hsurface).
  split; [|split; [reflexivity|]].
  - split; [by eexists|]. split; [reflexivity|]. split; [reflexivity|].
    apply (Hhost "user-token"); [by eexists|reflexivity|reflexivity].
  - destruct (Hsurface eq_refl) as (Hcall & _).
    rewrite (Hcall "chat" "{}" (VDict []) eq_refl). reflexivity.
Defined.

Lemma C8_witness :
  fst (@get_user_authorized_client Demo.platform Demo.hosted_world) =
    inr (Some {| client_obj := 1;
                 cfg_host := Some "https://adb-1.azuredatabricks.net";
                 cfg_token := Some "user-token";
                 cfg_env := scrub_principal Demo.hosted_env |}) ∧
  (∀ r c', fst (@get_user_authorized_client Demo.platform
                  (with_request r
                     (snd (@get_user_authorized_client Demo.platform Demo.hosted_world))))
             = inr (Some c') →
           client_obj c' ≠ 1%nat).
Proof.
  assert (Hc : fst (@get_user_authorized_client Demo.platform Demo.hosted_world) =
    inr (Some {| client_obj := 1;
                 cfg_host := Some "https://adb-1.azuredatabricks.net";
                 cfg_token := Some "user-token";
                 cfg_env := scrub_principal Demo.hosted_env |})) by reflexivity.
  split; [exact Hc|].
  destruct (@C8_user_clients_fresh_principal_client_kept Demo.platform Demo.hosted_world)
    as (Hfresh & _ & _).
  destruct (Hfresh _ Hc) as (_ & _ & Hnext). exact Hnext.
Defined.

Lemma C9_witness :
  0 ≤ 0 ∧
  ∃ msg w',
    @submit_databricks_job Demo.platform 0 "{}" Demo.hosted_world =
      (inr (VDict [(VStr "success", VBool false); (VStr "error", VStr msg)]), w') ∧
    api_calls w' = api_calls Demo.hosted_world.
Proof.
  split; [lia|].
  apply (@C9_nonpositive_job_id_rejected Demo.platform 0 "{}" Demo.hosted_world). lia.
Defined.


(** With no rows, the second branch of the formatting. *)
Example execute_sql_query_no_rows :
  fst (@execute_sql_query Demo.platform "SELECT * FROM empty_table WHERE id = :n" "{}"
         None Demo.hosted_world) =
  inr (VDict [(VStr "success", VBool true);
              (VStr "statement_id", VStr "01f0-aa");
              (VStr "data", VList []);
              (VStr "columns", VList []);
              (VStr "row_count", VInt 0)]).
Proof. vm_compute. reflexivity. Qed.

(** C5 (as stated) fails.  With [DATABRICKS_APP_NAME] set to the empty
    string the process is hosted for [get_user_authorized_client], which
    tests the marker for presence and refuses to go on without a token;
    with no service-principal client, the job resolver, which tests it
    for truth, does not fail but constructs a CLI client, and the job is
    submitted with it. *)
Lemma C5_counterexample :
  environ Demo.empty_marker_world !! "DATABRICKS_APP_NAME" = Some "" ∧
  databricks_client Demo.empty_marker_world = Bound None ∧
  fst (@get_user_authorized_client Demo.platform Demo.empty_marker_world) = inr None ∧
  last (log (snd (@get_user_authorized_client Demo.platform Demo.empty_marker_world)))
    = Some (ERROR, cause_message MissingConsent) ∧
  fst (@resolve_job_client Demo.platform Demo.empty_marker_world) =
    inr {| client_obj := 1; cfg_host := None; cfg_token := None;
           cfg_env := environ Demo.empty_marker_world |} ∧
  fst (@submit_databricks_job Demo.platform 7 "{}" Demo.empty_marker_world) =
    inr (VDict [(VStr "success", VBool true);
                (VStr "job_id", VInt 7);
                (VStr "run_id", VInt 9001);
                (VStr "parameters", VDict []);
                (VStr "timestamp", VStr "2025-01-01T00:00:01+00:00");
                (VStr "auth_method", VStr "cli_authentication")]) ∧
  api_calls (snd (@submit_databricks_job Demo.platform 7 "{}" Demo.empty_marker_world)) =
    [{| call_client := 1; call_op := "jobs.run_now" |}].
Proof. vm_compute. repeat split. Qed.

(** C7 (as stated) fails.  A missing host and a missing token are two
    kinds of failure, as the log shows, yet the resolver hands its caller
    the same value for both, and the caller shows the user the same
    message. *)
Lemma C7_counterexample :
  last (log (snd (@get_user_authorized_client Demo.platform Demo.no_host_world)))
    = Some (ERROR, cause_message MissingHost) ∧
  last (log (snd (@get_user_authorized_client Demo.platform Demo.no_consent_world)))
    = Some (ERROR, cause_message MissingConsent) ∧
  fst (@get_user_authorized_client Demo.platform Demo.no_host_world) = inr None ∧
  fst (@get_user_authorized_client Demo.platform Demo.no_consent_world) = inr None ∧
  fst (@execute_sql_query Demo.platform "SELECT :n" "{}" None Demo.no_host_world) =
    inr (VDict [(VStr "success", VBool false);
                (VStr "error",
                 VStr ("Error (2025-01-01T00:00:00+00:00): " +:+ consent_message))]) ∧
  fst (@execute_sql_query Demo.platform "SELECT :n" "{}" None Demo.no_consent_world) =
    fst (@execute_sql_query Demo.platform "SELECT :n" "{}" None Demo.no_host_world).
Proof. vm_compute. repeat split. Qed.

(** C8 (as stated) fails.  The client that [setup_databricks_client]
    creates at start-up serves the job submissions of two requests that
    carry different users' tokens: both calls are made by object 0 and no
    client is constructed in between. *)
Lemma C8_counterexample :
  databricks_client (snd (@setup_databricks_client Demo.platform Demo.boot))
    = Bound (Some Demo.sp_client) ∧
  api_calls
    (snd (@submit_databricks_job Demo.platform 7 "{}"
            (with_request (Demo.request "bob-token")
               (snd (@submit_databricks_job Demo.platform 7 "{}"
                       (with_request (Demo.request "alice-token")
                          (snd (@setup_databricks_client Demo.platform Demo.boot))))))))
    = [{| call_client := 0; call_op := "jobs.run_now" |};
       {| call_client := 0; call_op := "jobs.run_now" |}] ∧
  next_obj
    (snd (@submit_databricks_job Demo.platform 7 "{}"
            (with_request (Demo.request "bob-token")
               (snd (@submit_databricks_job Demo.platform 7 "{}"
                       (with_request (Demo.request "alice-token")
                          (snd (@setup_databricks_client Demo.platform Demo.boot))))))))
    = next_obj (snd (@setup_databricks_client Demo.platform Demo.boot)).
Proof. vm_compute. repeat split. Qed.

(** * Further properties of the module *)

Section Startup.
Context `{Platform}.

(** X1. A resolution leaves every environment variable as it found it,
    except one of the three it scrubs that held the empty string. *)
Theorem X1_resolution_frames_environment w k :
  k ∉ mutated_keys ∨ environ w !! k ≠ Some "" →
  environ (snd (get_user_authorized_client w)) !! k = environ w !! k.
Proof.
  intros Hk.
  assert (Hkeep : (if truthy_str (environ w !! k) then environ w !! k else None)
                  = environ w !! k ∨ k ∉ mutated_keys).
  { destruct Hk as [Hk|Hk]; [by right|left].
    by destruct (truthy_str_cases (environ w !! k)) as [[-> ->]|[[E ->]|(v & -> & _ & ->)]]. }
  destruct (environ w !! "DATABRICKS_APP_NAME") as [a|] eqn:Happ.
  - destruct (forwarded_token w) as [t|] eqn:Htok.
    + destruct (truthy_str_cases (environ w !! "DATABRICKS_HOST"))
        as [[Hh Ht]|[[Hh Ht]|(h & Hh & Hhne & _)]].
      * destruct (resolver_hosted_no_host w t a Htok Happ Ht) as (w' & -> & Henv & _).
        simpl. by rewrite Henv.
      * destruct (resolver_hosted_no_host w t a Htok Happ Ht) as (w' & -> & Henv & _).
        simpl. by rewrite Henv.
      * destruct (resolver_hosted_token w t a h Htok Happ Hh Hhne) as (w' & -> & Henv & _).
        simpl. rewrite Henv, lookup_restore_scrub_principal.
        case_bool_decide as Hin; [|done].
        destruct Hkeep as [->|Hout]; [done|].
        exfalso. apply Hout, elem_of_mutated_keys.
        apply elem_of_principal_keys in Hin. tauto.
    + destruct (resolver_hosted_no_token w a Htok Happ) as (w' & -> & Henv & _).
      simpl. by rewrite Henv.
  - destruct (resolver_local w Happ) as (w' & -> & Henv & _).
    simpl. rewrite Henv, lookup_restore_scrub_all.
    case_bool_decide as Hin; [|done].
    by destruct Hkeep as [->|Hout].
Qed.

(** X2. The token read from the request is never raised as an error and
    never empty: it is the non-empty value of the forwarded header, or
    [None]; reading it touches nothing but the log. *)
Theorem X2_forwarded_token_is_nonempty w :
  ∃ token,
    fst (get_user_access_token w) = inr token ∧
    (∀ t, token = Some t →
          t ≠ "" ∧ ∃ headers, request_headers w = Some headers ∧
                              headers !! "x-forwarded-access-token" = Some t) ∧
    (token = None → snd (get_user_access_token w) = w) ∧
    environ (snd (get_user_access_token w)) = environ w ∧
    frame w (snd (get_user_access_token w)).
Proof.
  rewrite get_user_access_token_eq. exists (forwarded_token w). simpl.
  split; [done|]. split; [|split].
  - intros t Ht. unfold forwarded_token in Ht.
    destruct (request_headers w) as [headers|]; [|done].
    destruct (headers !! "x-forwarded-access-token") as [t'|] eqn:Hh; [|done].
    simpl in Ht. destruct (String.eqb_spec t' ""); simpl in Ht; [done|].
    injection Ht as <-. eauto.
  - by intros ->.
  - by destruct (forwarded_token w).
Qed.

Lemma send_to_azure_logs_effect log_type data w :
  ∃ w',
    send_to_azure_logs log_type data w = (inr tt, w') ∧
    environ w' = environ w ∧ next_obj w' = next_obj w ∧
    api_calls w' = api_calls w ∧ databricks_client w' = databricks_client w ∧
    request_headers w' = request_headers w ∧
    (if truthy_str (azure_log_workspace_id w) && truthy_str (azure_log_shared_key w)
     then log w' =
            (log w ++
             [if AZURE_LOGGING_AVAILABLE then
                match azure_post (default "" (azure_log_workspace_id w))
                        (default "" (azure_log_shared_key w)) log_type data with
                | None => (INFO, "Successfully sent logs to Azure Log Analytics: " +:+ log_type)
                | Some e => (ERROR, "Failed to send logs to Azure Log Analytics: " +:+ exc_msg e)
                end
              else (ERROR, "Failed to send logs to Azure Log Analytics: name 'base64' is not defined")])%list
     else w' = w).
Proof.
  unfold send_to_azure_logs.
  destruct (truthy_str (azure_log_workspace_id w)); simpl;
    [|by eexists].
  destruct (truthy_str (azure_log_shared_key w)); simpl; [|by eexists].
  unfold try_except, bind, now_iso.
  destruct AZURE_LOGGING_AVAILABLE; simpl.
  - destruct (azure_post _ _ log_type data); eexists; (split; [reflexivity|]); simpl;
      by repeat (split; [done|]).
  - eexists; (split; [reflexivity|]); simpl; by repeat (split; [done|]).
Qed.

(** X3. Sending a record to Azure never raises.  Unless both credentials
    are configured and non-empty it does nothing at all.  Otherwise it
    adds exactly one line to the log and leaves environment, clients and
    traced calls alone: when the import block went through, the line is
    the INFO line naming the log type if the signed post succeeded and
    the ERROR line carrying the exception's message if it failed; when
    the imports failed, nothing is posted and the line is the ERROR line
    of the [NameError] for [base64]. *)
Theorem X3_azure_logging_is_contained log_type data w :
  ∃ w',
    send_to_azure_logs log_type data w = (inr tt, w') ∧
    environ w' = environ w ∧ next_obj w' = next_obj w ∧
    api_calls w' = api_calls w ∧ databricks_client w' = databricks_client w ∧
    request_headers w' = request_headers w ∧
    (if truthy_str (azure_log_workspace_id w) && truthy_str (azure_log_shared_key w)
     then log w' =
            (log w ++
             [if AZURE_LOGGING_AVAILABLE then
                match azure_post (default "" (azure_log_workspace_id w))
                        (default "" (azure_log_shared_key w)) log_type data with
                | None => (INFO, "Successfully sent logs to Azure Log Analytics: " +:+ log_type)
                | Some e => (ERROR, "Failed to send logs to Azure Log Analytics: " +:+ exc_msg e)
                end
              else (ERROR, "Failed to send logs to Azure Log Analytics: name 'base64' is not defined")])%list
     else w' = w).
Proof. apply send_to_azure_logs_effect. Qed.

(** X4. [setup_azure_logging] never raises and stores the two
    credentials as the environment has them, whatever
    [AZURE_LOGGING_AVAILABLE] is; it logs "configured" exactly when both
    are non-empty and the imports went through.  A record sent afterwards
    is dropped silently if a variable is unset or empty; if both are set
    but the imports failed, nothing is posted and the [NameError] for
    [base64] is logged; only in the configured case is the record posted,
    with the outcome of the post logged. *)
Theorem X4_azure_setup_decides_posting log_type data w :
  let w1 := snd (setup_azure_logging w) in
  let ws := environ w !! "AZURE_LOG_ANALYTICS_WORKSPACE_ID" in
  let key := environ w !! "AZURE_LOG_ANALYTICS_SHARED_KEY" in
  let both := truthy_str ws && truthy_str key in
  let w2 := snd (send_to_azure_logs log_type data w1) in
  fst (setup_azure_logging w) = inr tt ∧
  azure_log_workspace_id w1 = ws ∧ azure_log_shared_key w1 = key ∧
  log w1 = (log w ++
    [if both && AZURE_LOGGING_AVAILABLE
     then (INFO, "Azure Log Analytics configured for REST API logging")
     else (WARNING, "Azure Log Analytics not configured - missing credentials")])%list ∧
  environ w1 = environ w ∧
  (if both then
     log w2 =
       (log w1 ++
        [if AZURE_LOGGING_AVAILABLE then
           match azure_post (default "" ws) (default "" key) log_type data with
           | None => (INFO, "Successfully sent logs to Azure Log Analytics: " +:+ log_type)
           | Some e => (ERROR, "Failed to send logs to Azure Log Analytics: " +:+ exc_msg e)
           end
         else (ERROR, "Failed to send logs to Azure Log Analytics: name 'base64' is not defined")])%list
   else w2 = w1).
Proof.
  cbv zeta.
  set (both := truthy_str (environ w !! "AZURE_LOG_ANALYTICS_WORKSPACE_ID")
               && truthy_str (environ w !! "AZURE_LOG_ANALYTICS_SHARED_KEY")).
  assert (Hcred : ∀ w1, w1 = snd (setup_azure_logging w) →
            azure_log_workspace_id w1 = environ w !! "AZURE_LOG_ANALYTICS_WORKSPACE_ID" ∧
            azure_log_shared_key w1 = environ w !! "AZURE_LOG_ANALYTICS_SHARED_KEY").
  { intros w1 ->. unfold setup_azure_logging. fold both.
    by destruct (both && AZURE_LOGGING_AVAILABLE). }
  destruct (Hcred _ eq_refl) as (Hws & Hkey).
  split; [|split; [exact Hws|split; [exact Hkey|split; [|split]]]].
  - unfold setup_azure_logging. fold both. by destruct (both && AZURE_LOGGING_AVAILABLE).
  - unfold setup_azure_logging. fold both. by destruct (both && AZURE_LOGGING_AVAILABLE).
  - unfold setup_azure_logging. fold both. by destruct (both && AZURE_LOGGING_AVAILABLE).
  - destruct (send_to_azure_logs_effect log_type data (snd (setup_azure_logging w)))
      as (w' & Hs & _ & _ & _ & _ & _ & Hpost).
    rewrite Hs. simpl. rewrite Hws, Hkey in Hpost. fold both in Hpost.
    exact Hpost.
Qed.

End Startup.

Section Jobs.
Context `{Platform}.

Ltac azure_step :=
  match goal with
  | |- context [bind (send_to_azure_logs ?t ?d) _ ?w0] =>
      let w' := fresh "w" in
      let Hs := fresh "Hs" in
      destruct (send_to_azure_logs_effect t d w0)
        as (w' & Hs & ?Henv & ?Hobj & ?Hcalls & ?Hglob & ?Hreq & _);
      erewrite (bind_run (send_to_azure_logs t d)) by exact Hs
  end.

Lemma loads_or_empty_run s w r :
  fst (loads_or_empty s w) = r → loads_or_empty s w = (r, w).
Proof.
  intros <-. destruct (loads_or_empty s w) as [r w'] eqn:Hl.
  by apply loads_or_empty_frame in Hl as ->.
Qed.

(** X5. [setup_databricks_client] never raises and always binds the
    module global: to the client it constructed when both the constructor
    and the [current_user.me()] probe succeed, to [None] when either
    fails.  It changes neither the environment nor the outbound calls. *)
Theorem X5_setup_binds_client_or_None w :
  ∃ w',
    setup_databricks_client w = (inr tt, w') ∧
    environ w' = environ w ∧ api_calls w' = api_calls w ∧
    databricks_client w' =
      match sdk_config_error None None (environ w) with
      | Some _ => Bound None
      | None =>
          let c := {| client_obj := next_obj w; cfg_host := None; cfg_token := None;
                      cfg_env := environ w |} in
          match current_user_me c with
          | inr _ => Bound (Some c)
          | inl _ => Bound None
          end
      end.
Proof.
  unfold setup_databricks_client, try_except.
  unfold bind at 1, new_WorkspaceClient.
  destruct (sdk_config_error None None (environ w)) as [e|].
  - do 5 (erewrite bind_run by reflexivity).
    match goal with |- context [send_to_azure_logs ?t ?d ?w0] =>
      destruct (send_to_azure_logs_effect t d w0)
        as (w' & Hs & Henv & _ & Hcalls & Hglob & _) end.
    exists w'. split; [exact Hs|]. by rewrite Henv, Hcalls, Hglob.
  - erewrite bind_run by reflexivity. unfold bind at 1, lift. cbv zeta.
    destruct (current_user_me _) as [e|user_name].
    + do 5 (erewrite bind_run by reflexivity).
      match goal with |- context [send_to_azure_logs ?t ?d ?w0] =>
        destruct (send_to_azure_logs_effect t d w0)
          as (w' & Hs & Henv & _ & Hcalls & Hglob & _) end.
      exists w'. split; [exact Hs|]. by rewrite Henv, Hcalls, Hglob.
    + do 5 (erewrite bind_run by reflexivity).
      match goal with |- context [send_to_azure_logs ?t ?d ?w0] =>
        destruct (send_to_azure_logs_effect t d w0)
          as (w' & Hs & Henv & _ & Hcalls & Hglob & _) end.
      exists w'. rewrite Hs. split; [reflexivity|]. by rewrite Henv, Hcalls, Hglob.
Qed.

(** What the privileged resolution leaves alone. *)
Lemma resolve_job_client_frame w :
  let w1 := snd (resolve_job_client w) in
  environ w1 = environ w ∧ api_calls w1 = api_calls w ∧ clock w1 = clock w ∧
  databricks_client w1 = databricks_client w ∧
  azure_log_workspace_id w1 = azure_log_workspace_id w ∧
  azure_log_shared_key w1 = azure_log_shared_key w.
Proof.
  cbv zeta. unfold resolve_job_client, get_databricks_client, bind.
  destruct (databricks_client w) as [|[c|]] eqn:Hg; simpl; [done|by rewrite Hg|].
  destruct (negb (truthy_str (environ w !! "DATABRICKS_APP_NAME"))); simpl;
    [|by rewrite Hg].
  unfold try_except, new_WorkspaceClient. simpl.
  by destruct (sdk_config_error None None (environ w)); simpl; rewrite Hg.
Qed.

Lemma new_JobSubmissionRequest_accepts job_id ps params :
  0 < job_id → as_dict_str ps = Some params →
  new_JobSubmissionRequest job_id ps = inr {| job_job_id := job_id; job_parameters := params |}.
Proof.
  intros Hpos Hps. unfold new_JobSubmissionRequest, validate_job_id.
  rewrite (proj2 (Z.leb_gt job_id 0) Hpos), Hps. done.
Qed.

Lemma handle_error_exact e context w :
  ∃ w',
    handle_error e context w =
      (inr ("Error (" +:+ utc_now (clock w) +:+ "): " +:+ exc_msg e), w') ∧
    environ w' = environ w ∧ next_obj w' = next_obj w ∧
    api_calls w' = api_calls w ∧ databricks_client w' = databricks_client w ∧
    request_headers w' = request_headers w ∧
    azure_log_workspace_id w' = azure_log_workspace_id w ∧
    azure_log_shared_key w' = azure_log_shared_key w.
Proof.
  unfold handle_error.
  do 3 (erewrite bind_run by reflexivity).
  match goal with |- context [bind (send_to_azure_logs ?t ?d) _ ?w0] =>
    destruct (send_to_azure_logs_total t d w0) as (w1 & Hs1 & _);
    destruct (send_to_azure_logs_effect t d w0)
      as (w' & Hs & Henv & Hobj & Hcalls & Hglob & Hreq & Hpost);
    erewrite (bind_run (send_to_azure_logs t d)) by exact Hs end.
  exists w'. split; [reflexivity|].
  rewrite Henv, Hobj, Hcalls, Hglob, Hreq. repeat (split; [done|]).
  revert Hpost. simpl.
  destruct (truthy_str (azure_log_workspace_id w) && truthy_str (azure_log_shared_key w)).
  - clear Hs1. unfold send_to_azure_logs in Hs.
    revert Hs. simpl.
    destruct (negb (truthy_str (azure_log_workspace_id w))
              || negb (truthy_str (azure_log_shared_key w))).
    + by intros [= <-].
    + unfold try_except, bind, now_iso. simpl.
      destruct AZURE_LOGGING_AVAILABLE; simpl; [|by intros [= <-]].
      destruct (azure_post _ _ _ _); by intros [= <-].
  - by intros ->.
Qed.

(** The failure dictionary, with its message and what building it
    leaves alone. *)
Lemma failure_result_exact context e w :
  ∃ w',
    failure_result context e w =
      (inr (VDict [(VStr "success", VBool false);
                   (VStr "error",
                    VStr ("Error (" +:+ utc_now (clock w) +:+ "): " +:+ exc_msg e))]), w') ∧
    environ w' = environ w ∧ next_obj w' = next_obj w ∧
    api_calls w' = api_calls w ∧ databricks_client w' = databricks_client w ∧
    request_headers w' = request_headers w.
Proof.
  unfold failure_result.
  destruct (handle_error_exact e context w) as (w' & Hh & Henv & Hobj & Hcalls & Hglob & Hreq & _).
  erewrite bind_run by exact Hh. by exists w'.
Qed.

(** What a job submission does once its input is valid and a client is
    resolved, as a function of what the jobs API answers. *)
Lemma submit_outcome job_id parameters_json w ps params c :
  0 < job_id →
  fst (loads_or_empty parameters_json w) = inr ps →
  as_dict_str ps = Some params →
  fst (resolve_job_client w) = inr c →
  ∃ d w',
    submit_databricks_job job_id parameters_json w = (inr d, w') ∧
    api_calls w' =
      (api_calls w ++ [{| call_client := client_obj c; call_op := "jobs.run_now" |}])%list ∧
    environ w' = environ w ∧
    next_obj w' = next_obj (snd (resolve_job_client w)) ∧
    match run_now c job_id params with
    | inr run_id =>
        dict_get "success" d = Some (VBool true) ∧
        dict_get "job_id" d = Some (VInt job_id) ∧
        dict_get "run_id" d = Some (VInt run_id) ∧
        dict_get "parameters" d = Some (str_dict params) ∧
        dict_get "auth_method" d =
          Some (VStr (if truthy_str (environ w !! "DATABRICKS_APP_NAME")
                      then "app_service_principal" else "cli_authentication"))
    | inl e =>
        d = VDict [(VStr "success", VBool false);
                   (VStr "error",
                    VStr ("Error (" +:+ utc_now (clock w) +:+ "): " +:+ exc_msg e))]
    end.
Proof.
  intros Hpos Hloads Hps Hres.
  unfold submit_databricks_job, try_except.
  erewrite bind_run by (apply loads_or_empty_run; exact Hloads).
  erewrite bind_run
    by (unfold lift; rewrite (new_JobSubmissionRequest_accepts _ _ _ Hpos Hps); reflexivity).
  destruct (resolve_job_client_frame w) as (Henv1 & Hcalls1 & Hclk1 & _).
  destruct (resolve_job_client w) as [r w1] eqn:Hrun. simpl in *. subst r.
  erewrite bind_run by exact Hrun.
  do 3 (erewrite bind_run by reflexivity).
  unfold bind at 1, lift. cbn [job_job_id job_parameters].
  destruct (run_now c job_id params) as [e|run_id].
  - match goal with |- context [failure_result ?ctx e ?w0] =>
      destruct (failure_result_exact ctx e w0) as (w' & -> & Henv & Hobj & Hcalls & _) end.
    eexists _, w'. split; [reflexivity|].
    rewrite Hcalls, Henv, Hobj. simpl. by rewrite Hcalls1, Henv1, Hclk1.
  - erewrite bind_run by reflexivity.
    match goal with |- context [bind (send_to_azure_logs ?t ?d) _ ?w0] =>
      destruct (send_to_azure_logs_effect t d w0)
        as (w' & Hs & Henv & Hobj & Hcalls & _);
      erewrite (bind_run (send_to_azure_logs t d)) by exact Hs end.
    erewrite bind_run by reflexivity. unfold ret.
    eexists _, _. split; [reflexivity|]. simpl.
    rewrite Hcalls, Henv, Hobj. simpl. rewrite Hcalls1, Henv1.
    repeat split; done.
Qed.

(** X6. A valid submission (positive job id, parameters that parse to an
    object of strings) whose client resolves and whose run starts returns
    the run id, makes exactly one outbound call, by the resolved client,
    and leaves the environment alone.  The [auth_method] it reports is
    read off the app-name marker, not off the client that made the call:
    a service-principal client used without the marker is reported as
    CLI authentication. *)
Theorem X6_job_submission_success job_id parameters_json w ps params c run_id :
  0 < job_id →
  fst (loads_or_empty parameters_json w) = inr ps →
  as_dict_str ps = Some params →
  fst (resolve_job_client w) = inr c →
  run_now c job_id params = inr run_id →
  ∃ d w',
    submit_databricks_job job_id parameters_json w = (inr d, w') ∧
    dict_get "success" d = Some (VBool true) ∧
    dict_get "job_id" d = Some (VInt job_id) ∧
    dict_get "run_id" d = Some (VInt run_id) ∧
    dict_get "parameters" d = Some (str_dict params) ∧
    dict_get "auth_method" d =
      Some (VStr (if truthy_str (environ w !! "DATABRICKS_APP_NAME")
                  then "app_service_principal" else "cli_authentication")) ∧
    api_calls w' =
      (api_calls w ++ [{| call_client := client_obj c; call_op := "jobs.run_now" |}])%list ∧
    environ w' = environ w.
Proof.
  intros Hpos Hloads Hps Hres Hrun.
  destruct (submit_outcome job_id parameters_json w ps params c Hpos Hloads Hps Hres)
    as (d & w' & Heq & Hcalls & Henv & _ & Hout).
  rewrite Hrun in Hout. destruct Hout as (? & ? & ? & ? & ?).
  exists d, w'. repeat split; done.
Qed.

(** X7. When the jobs API raises, the submission is not retried: one
    outbound call has been made, and the result is the failure
    dictionary whose message is the API's own, behind the time of the
    failure. *)
Theorem X7_job_submission_upstream_error job_id parameters_json w ps params c e :
  0 < job_id →
  fst (loads_or_empty parameters_json w) = inr ps →
  as_dict_str ps = Some params →
  fst (resolve_job_client w) = inr c →
  run_now c job_id params = inl e →
  ∃ w',
    submit_databricks_job job_id parameters_json w =
      (inr (VDict [(VStr "success", VBool false);
                   (VStr "error",
                    VStr ("Error (" +:+ utc_now (clock w) +:+ "): " +:+ exc_msg e))]), w') ∧
    api_calls w' =
      (api_calls w ++ [{| call_client := client_obj c; call_op := "jobs.run_now" |}])%list.
Proof.
  intros Hpos Hloads Hps Hres Hrun.
  destruct (submit_outcome job_id parameters_json w ps params c Hpos Hloads Hps Hres)
    as (d & w' & Heq & Hcalls & _ & _ & Hout).
  rewrite Hrun in Hout. subst d. by exists w'.
Qed.

(** X8. Parameters that do not parse, or parse to anything but an object
    whose values are all strings, are refused before a client is looked
    for: no client is constructed and no call is made. *)
Theorem X8_job_parameters_must_be_strings job_id parameters_json w :
  (∀ ps, fst (loads_or_empty parameters_json w) = inr ps → as_dict_str ps = None) →
  ∃ msg w',
    submit_databricks_job job_id parameters_json w =
      (inr (VDict [(VStr "success", VBool false); (VStr "error", VStr msg)]), w') ∧
    api_calls w' = api_calls w ∧ next_obj w' = next_obj w ∧ environ w' = environ w.
Proof.
  intros Hbad. unfold submit_databricks_job, try_except.
  unfold bind at 1.
  destruct (loads_or_empty parameters_json w) as [[e|ps] w1] eqn:Hl;
    apply loads_or_empty_frame in Hl as Hw; subst w1.
  - destruct (failure_result_exact "submit_job" e w) as (w' & -> & Henv & Hobj & Hcalls & _).
    by eexists _, w'.
  - specialize (Hbad ps eq_refl).
    unfold bind at 1, lift, new_JobSubmissionRequest. rewrite Hbad.
    destruct (validate_job_id job_id);
      match goal with |- context [failure_result ?ctx ?e ?w0] =>
        destruct (failure_result_exact ctx e w0) as (w' & -> & Henv & Hobj & Hcalls & _) end;
      by eexists _, w'.
Qed.

End Jobs.

Section Queries.
Context `{Platform}.

Lemma truthy_VStr s : truthy (VStr s) = negb (String.eqb s "").
Proof. reflexivity. Qed.

Lemma strip_nonempty q : strip q ≠ "" → q ≠ "".
Proof. intros Hs ->. by apply Hs. Qed.

(** [str.strip] removes the Unicode blanks with the ASCII ones, at both
    ends and only there; a letter of two bytes, the zero-width space
    U+200B (E2 80 8B) and the Mongolian vowel separator U+180E
    (E1 A0 8E), which are not white space, stay. *)
Example strip_unicode_blanks :
  strip (Lab.nbsp +:+ " SELECT 1" +:+ Lab.em_space +:+ "FROM t" +:+ Lab.nel +:+ " ")
    = "SELECT 1" +:+ Lab.em_space +:+ "FROM t" ∧
  strip (Lab.em_space +:+ Lab.nbsp +:+ Lab.nel) = "" ∧
  strip (" " +:+ Lab.e_acute +:+ " ") = Lab.e_acute ∧
  strip (String (ascii_of_nat 226) (String (ascii_of_nat 128)
           (String (ascii_of_nat 139) EmptyString)))
    = String (ascii_of_nat 226) (String (ascii_of_nat 128)
        (String (ascii_of_nat 139) EmptyString)) ∧
  strip (String (ascii_of_nat 225) (String (ascii_of_nat 160)
           (String (ascii_of_nat 142) EmptyString)))
    = String (ascii_of_nat 225) (String (ascii_of_nat 160)
        (String (ascii_of_nat 142) EmptyString)).
Proof. vm_compute. repeat split. Qed.

Lemma eqb_empty_false s : s ≠ "" → String.eqb s "" = false.
Proof. intros Hs. by destruct (String.eqb_spec s ""). Qed.

(** Validation of a query request that passes. *)
Lemma new_SQLQueryRequest_accepts q ps params wid w :
  strip q ≠ "" → as_dict_any ps = Some params →
  ∃ w1,
    new_SQLQueryRequest q ps wid w =
      (inr {| sql_query_template := strip q; sql_parameters := params;
              sql_warehouse_id := wid |}, w1) ∧
    (w1 = w ∨ ∃ l, w1 = with_log l w).
Proof.
  intros Hq Hps. unfold new_SQLQueryRequest, validate_query_template.
  rewrite !truthy_VStr, (eqb_empty_false _ Hq), (eqb_empty_false _ (strip_nonempty _ Hq)).
  simpl. unfold bind, when, logger, ret.
  destruct (negb (contains "${" q) && negb (contains "{{" q) && negb (contains ":" q));
    simpl; rewrite Hps; eauto.
Qed.

(** Validation of a query request that fails. *)
Lemma new_SQLQueryRequest_rejects q ps wid w :
  strip q = "" ∨ as_dict_any ps = None →
  ∃ e w1, new_SQLQueryRequest q ps wid w = (inl e, w1) ∧
          (w1 = w ∨ ∃ l, w1 = with_log l w).
Proof.
  intros Hbad.
  pose proof (new_SQLQueryRequest_world q ps wid w) as Hw.
  destruct (new_SQLQueryRequest q ps wid w) as [[e|r] w1] eqn:Hn; [by eauto|].
  exfalso. revert Hn. unfold new_SQLQueryRequest.
  destruct Hbad as [Hq|Hps].
  - unfold validate_query_template. rewrite !truthy_VStr, Hq. simpl.
    rewrite orb_true_r. unfold raise. by destruct (as_dict_any ps).
  - rewrite Hps. by destruct (validate_query_template q w) as [[?|?] ?].
Qed.

Lemma logged_world_facts w w1 c :
  w1 = w ∨ (∃ l, w1 = with_log l w) →
  fst (get_user_authorized_client w) = c →
  environ w1 = environ w ∧ clock w1 = clock w ∧ api_calls w1 = api_calls w ∧
  next_obj w1 = next_obj w ∧ fst (get_user_authorized_client w1) = c.
Proof.
  intros [->|[l ->]] Hc; [done|]. by rewrite resolver_ignores_log.
Qed.

(** What a query does once its input is valid, a warehouse is known and a
    client is resolved, as a function of what the warehouse answers. *)
Lemma execute_sql_outcome query_template parameters_json warehouse_id w ps params c :
  fst (loads_or_empty parameters_json w) = inr ps →
  as_dict_any ps = Some params →
  strip query_template ≠ "" →
  truthy_str (chosen_warehouse warehouse_id w) = true →
  fst (get_user_authorized_client w) = inr (Some c) →
  ∃ d w',
    execute_sql_query query_template parameters_json warehouse_id w = (inr d, w') ∧
    api_calls w' =
      (api_calls w ++ [{| call_client := client_obj c;
                          call_op := "statement_execution.execute_statement" |}])%list ∧
    match execute_statement c (default "" (chosen_warehouse warehouse_id w))
            (strip query_template)
            (map (fun kv => (fst kv, py_str (snd kv))) params) with
    | inr response =>
        dict_get "success" d = Some (VBool true) ∧
        dict_get "statement_id" d = Some (of_opt_str (statement_id response)) ∧
        dict_get "row_count" d = Some (VInt (Z.of_nat (length (returned_rows response))))
    | inl e =>
        d = VDict [(VStr "success", VBool false);
                   (VStr "error",
                    VStr ("Error (" +:+ utc_now (clock w) +:+ "): " +:+ exc_msg e))]
    end.
Proof.
  intros Hloads Hps Hq Hwh Hres. unfold chosen_warehouse in *.
  unfold execute_sql_query, try_except.
  erewrite bind_run by (apply loads_or_empty_run; exact Hloads).
  destruct (new_SQLQueryRequest_accepts query_template ps params
              (if truthy_str warehouse_id then warehouse_id else None) w Hq Hps)
    as (w1 & Hreq & Hw1).
  erewrite bind_run by exact Hreq.
  destruct (logged_world_facts w w1 _ Hw1 Hres) as (Henv1 & Hclk1 & Hcalls1 & _ & Hres1).
  erewrite bind_run by reflexivity. cbn [sql_warehouse_id sql_query_template sql_parameters].
  rewrite Henv1.
  assert (Hsame : (if truthy_str (if truthy_str warehouse_id then warehouse_id else None)
                   then (if truthy_str warehouse_id then warehouse_id else None)
                   else environ w !! "SQL_WAREHOUSE_ID")
                  = (if truthy_str warehouse_id then warehouse_id
                     else environ w !! "SQL_WAREHOUSE_ID")).
  { destruct (truthy_str warehouse_id) eqn:E; [by rewrite E|done]. }
  rewrite Hsame, Hwh. cbn [negb].
  erewrite bind_run by reflexivity.
  destruct (resolver_outcome w1) as (Hfr & _). cbv zeta in Hfr.
  destruct (get_user_authorized_client w1) as [r w2] eqn:Hg. simpl in Hres1, Hfr. subst r.
  destruct Hfr as (_ & _ & _ & _ & Hclk2 & Hcalls2).
  erewrite bind_run by exact Hg.
  do 3 (erewrite bind_run by reflexivity).
  unfold bind at 1, lift.
  destruct (execute_statement c _ (strip query_template) _) as [e|response].
  - match goal with |- context [failure_result ?ctx e ?w0] =>
      destruct (failure_result_exact ctx e w0) as (w' & -> & _ & _ & Hcalls & _) end.
    eexists _, w'. split; [reflexivity|].
    rewrite Hcalls. simpl. by rewrite Hcalls2, Hcalls1, Hclk2, Hclk1.
  - erewrite bind_run by reflexivity.
    match goal with |- context [bind (send_to_azure_logs ?t ?d) _ ?w0] =>
      destruct (send_to_azure_logs_effect t d w0) as (w' & Hs & _ & _ & Hcalls & _);
      erewrite (bind_run (send_to_azure_logs t d)) by exact Hs end.
    rewrite response_rows_returned.
    destruct (returned_rows response) as [|row rows] eqn:Hrows; unfold ret;
      eexists _, w'; (split; [reflexivity|]); rewrite Hcalls; simpl;
      rewrite Hcalls2, Hcalls1; repeat split; done.
Qed.

(** X9. A valid query that reaches the warehouse is sent stripped of
    the white space around it, as [str.strip] removes it (the ASCII
    blanks and the Unicode ones), to the warehouse of the request when
    one is given and to [SQL_WAREHOUSE_ID] otherwise, with every
    parameter value turned into a string, in one statement execution by
    the resolved client.  An answer gives a successful result carrying
    its statement id and the number of its rows; an error raised by the
    warehouse gives the failure dictionary with that error's message. *)
Theorem X9_query_reaches_warehouse query_template parameters_json warehouse_id w ps params c :
  fst (loads_or_empty parameters_json w) = inr ps →
  as_dict_any ps = Some params →
  strip query_template ≠ "" →
  truthy_str (chosen_warehouse warehouse_id w) = true →
  fst (get_user_authorized_client w) = inr (Some c) →
  ∃ d w',
    execute_sql_query query_template parameters_json warehouse_id w = (inr d, w') ∧
    api_calls w' =
      (api_calls w ++ [{| call_client := client_obj c;
                          call_op := "statement_execution.execute_statement" |}])%list ∧
    match execute_statement c (default "" (chosen_warehouse warehouse_id w))
            (strip query_template)
            (map (fun kv => (fst kv, py_str (snd kv))) params) with
    | inr response =>
        dict_get "success" d = Some (VBool true) ∧
        dict_get "statement_id" d = Some (of_opt_str (statement_id response)) ∧
        dict_get "row_count" d = Some (VInt (Z.of_nat (length (returned_rows response))))
    | inl e =>
        d = VDict [(VStr "success", VBool false);
                   (VStr "error",
                    VStr ("Error (" +:+ utc_now (clock w) +:+ "): " +:+ exc_msg e))]
    end.
Proof. apply execute_sql_outcome. Qed.

(** X10. A valid query for which no warehouse is known, none with the
    request and none in [SQL_WAREHOUSE_ID] (an empty string counts as
    none), fails with "SQL warehouse ID is required" before any client is
    resolved: nothing is constructed, nothing is called, the environment
    is untouched. *)
Theorem X10_warehouse_is_required query_template parameters_json warehouse_id w ps params :
  fst (loads_or_empty parameters_json w) = inr ps →
  as_dict_any ps = Some params →
  strip query_template ≠ "" →
  truthy_str (chosen_warehouse warehouse_id w) = false →
  ∃ w',
    execute_sql_query query_template parameters_json warehouse_id w =
      (inr (VDict [(VStr "success", VBool false);
                   (VStr "error",
                    VStr ("Error (" +:+ utc_now (clock w)
                          +:+ "): SQL warehouse ID is required"))]), w') ∧
    api_calls w' = api_calls w ∧ next_obj w' = next_obj w ∧ environ w' = environ w.
Proof.
  intros Hloads Hps Hq Hwh. unfold chosen_warehouse in *.
  unfold execute_sql_query, try_except.
  erewrite bind_run by (apply loads_or_empty_run; exact Hloads).
  destruct (new_SQLQueryRequest_accepts query_template ps params
              (if truthy_str warehouse_id then warehouse_id else None) w Hq Hps)
    as (w1 & Hreq & Hw1).
  erewrite bind_run by exact Hreq.
  destruct (logged_world_facts w w1 _ Hw1 eq_refl) as (Henv1 & Hclk1 & Hcalls1 & Hobj1 & _).
  erewrite bind_run by reflexivity. cbn [sql_warehouse_id].
  rewrite Henv1.
  assert (Hsame : (if truthy_str (if truthy_str warehouse_id then warehouse_id else None)
                   then (if truthy_str warehouse_id then warehouse_id else None)
                   else environ w !! "SQL_WAREHOUSE_ID")
                  = (if truthy_str warehouse_id then warehouse_id
                     else environ w !! "SQL_WAREHOUSE_ID")).
  { destruct (truthy_str warehouse_id) eqn:E; [by rewrite E|done]. }
  rewrite Hsame, Hwh. cbn [negb]. unfold bind at 1, raise.
  destruct (failure_result_exact "execute_sql_query"
              (ValueError "SQL warehouse ID is required") w1)
    as (w' & -> & Henv & Hobj & Hcalls & _).
  exists w'. rewrite Hclk1. split; [reflexivity|]. by rewrite Hcalls, Hobj, Henv.
Qed.

(** X11. A query template that is empty or all white space, ASCII or
    Unicode, and parameters that do not parse or do not parse to an
    object, are refused before any client is resolved: nothing is
    constructed, nothing is called, the environment is untouched. *)
Theorem X11_invalid_query_is_refused_early query_template parameters_json warehouse_id w :
  strip query_template = "" ∨
  (∀ ps, fst (loads_or_empty parameters_json w) = inr ps → as_dict_any ps = None) →
  ∃ msg w',
    execute_sql_query query_template parameters_json warehouse_id w =
      (inr (VDict [(VStr "success", VBool false); (VStr "error", VStr msg)]), w') ∧
    api_calls w' = api_calls w ∧ next_obj w' = next_obj w ∧ environ w' = environ w.
Proof.
  intros Hbad. unfold execute_sql_query, try_except.
  unfold bind at 1.
  destruct (loads_or_empty parameters_json w) as [[e|ps] w1] eqn:Hl;
    apply loads_or_empty_frame in Hl as Hw; subst w1.
  - destruct (failure_result_exact "execute_sql_query" e w)
      as (w' & -> & Henv & Hobj & Hcalls & _).
    by eexists _, w'.
  - assert (Hbad' : strip query_template = "" ∨ as_dict_any ps = None).
    { destruct Hbad as [?|Hps]; [by left|right]. by apply Hps. }
    destruct (new_SQLQueryRequest_rejects query_template ps
                (if truthy_str warehouse_id then warehouse_id else None) w Hbad')
      as (e & w1 & Hreq & Hw1).
    unfold bind at 1. rewrite Hreq.
    destruct (logged_world_facts w w1 _ Hw1 eq_refl) as (Henv1 & _ & Hcalls1 & Hobj1 & _).
    destruct (failure_result_exact "execute_sql_query" e w1)
      as (w' & -> & Henv & Hobj & Hcalls & _).
    eexists _, w'. split; [reflexivity|]. by rewrite Hcalls, Hobj, Henv.
Qed.

End Queries.

Section Serving.
Context `{Platform}.

(** X12. The loop over given messages keeps their number and order,
    fails exactly when one of them is not an object, and sends a message
    as [USER] when its role is missing or is the string "user" and as
    [SYSTEM] for any other role, "assistant" included. *)
Theorem X12_chat_messages_roles msgs :
  (forallb is_dict msgs = true ↔ ∃ ms, chat_messages msgs = inr ms) ∧
  ∀ ms, chat_messages msgs = inr ms →
    length ms = length msgs ∧
    ∀ i msg m, msgs !! i = Some msg → ms !! i = Some m →
      content m = default (VStr "") (dict_get "content" msg) ∧
      role m = match dict_get "role" msg with
               | None => USER
               | Some r => if key_is "user" r then USER else SYSTEM
               end.
Proof.
  induction msgs as [|msg msgs IH].
  - split; [split; eauto|]. intros ms [= <-]. split; [done|]. by intros [|].
  - destruct IH as (IHok & IHms). simpl.
    destruct msg as [| | | | | |items]; simpl;
      try (split; [split; [done|by intros [? [=]]]|by intros ? [=]]).
    destruct (chat_messages msgs) as [e|ms'] eqn:Hrest.
    + split; [|by intros ? [=]].
      rewrite IHok. split; [intros [? [=]]|intros [? [=]]].
    + split.
      * rewrite IHok. split; eauto.
      * intros ms [= <-]. destruct (IHms ms' eq_refl) as (Hlen & Hel).
        split; [simpl; by rewrite Hlen|].
        intros [|i] msg m; simpl.
        -- intros [= <-] [= <-]. simpl.
           by destruct (items_get "role" items), (items_get "content" items).
        -- apply Hel.
Qed.

(** The part of [call_model_serving_endpoint] from the query on. *)
Lemma serving_tail c endpoint_name (items : list (PyVal * PyVal)) messages w0 :
  ∃ r w',
    (record_call c "serving_endpoints.query";;
     response <- lift (serving_query c endpoint_name messages);;
     timestamp <- now_iso;;
     keys <- lift (inr (map fst items));;
     send_to_azure_logs "DatabricksApp_ModelServing"
       (VDict [(VStr "timestamp", VStr timestamp);
               (VStr "event", VStr "model_serving_called");
               (VStr "endpoint_name", VStr endpoint_name);
               (VStr "input_keys", VList keys);
               (VStr "response_received", VBool true)]);;
     timestamp <- now_iso;;
     ret (VDict [(VStr "success", VBool true);
                 (VStr "endpoint_name", VStr endpoint_name);
                 (VStr "timestamp", VStr timestamp);
                 (VStr "result", response)])) w0 = (r, w') ∧
    api_calls w' =
      (api_calls w0 ++ [{| call_client := client_obj c;
                           call_op := "serving_endpoints.query" |}])%list ∧
    match serving_query c endpoint_name messages with
    | inr response =>
        ∃ d, r = inr d ∧
             dict_get "success" d = Some (VBool true) ∧
             dict_get "endpoint_name" d = Some (VStr endpoint_name) ∧
             dict_get "result" d = Some response
    | inl e => r = inl e ∧ clock w' = clock w0
    end.
Proof.
  erewrite bind_run by reflexivity.
  unfold bind at 1, lift.
  destruct (serving_query c endpoint_name messages) as [e|response].
  - eexists _, _. split; [reflexivity|]. by simpl.
  - do 2 (erewrite bind_run by reflexivity).
    match goal with |- context [bind (send_to_azure_logs ?t ?d) _ ?w1] =>
      destruct (send_to_azure_logs_effect t d w1) as (w' & Hs & _ & _ & Hcalls & _);
      erewrite (bind_run (send_to_azure_logs t d)) by exact Hs end.
    erewrite bind_run by reflexivity. unfold ret.
    eexists _, _. split; [reflexivity|]. simpl. rewrite Hcalls. simpl.
    split; [done|]. eexists. by repeat split.
Qed.

(** What a serving call does once its inputs are an object and a client
    is resolved. *)
Lemma call_model_outcome endpoint_name inputs_json w items c :
  fst (loads_or_empty inputs_json w) = inr (VDict items) →
  fst (get_user_authorized_client w) = inr (Some c) →
  ∃ d w',
    call_model_serving_endpoint endpoint_name inputs_json w = (inr d, w') ∧
    match select_messages items with
    | inr messages =>
        api_calls w' =
          (api_calls w ++ [{| call_client := client_obj c;
                              call_op := "serving_endpoints.query" |}])%list ∧
        match serving_query c endpoint_name messages with
        | inr response =>
            dict_get "success" d = Some (VBool true) ∧
            dict_get "endpoint_name" d = Some (VStr endpoint_name) ∧
            dict_get "result" d = Some response
        | inl e =>
            d = VDict [(VStr "success", VBool false);
                       (VStr "error",
                        VStr ("Error (" +:+ utc_now (clock w) +:+ "): " +:+ exc_msg e))]
        end
    | inl e =>
        api_calls w' = api_calls w ∧
        d = VDict [(VStr "success", VBool false);
                   (VStr "error",
                    VStr ("Error (" +:+ utc_now (clock w) +:+ "): " +:+ exc_msg e))]
    end.
Proof.
  intros Hloads Hres. unfold call_model_serving_endpoint, try_except.
  erewrite bind_run by (apply loads_or_empty_run; exact Hloads).
  destruct (resolver_outcome w) as (Hfr & _). cbv zeta in Hfr.
  destruct (get_user_authorized_client w) as [r w1] eqn:Hg. simpl in Hres, Hfr. subst r.
  destruct Hfr as (_ & _ & _ & _ & Hclk1 & Hcalls1).
  erewrite bind_run by exact Hg.
  do 3 (erewrite bind_run by reflexivity).
  set (w0 := with_log _ w1).
  assert (Hw0 : api_calls w0 = api_calls w ∧ clock w0 = clock w) by (by subst w0; simpl).
  destruct Hw0 as (Hcalls0 & Hclk0). clearbody w0.
  unfold select_messages.
  assert (Hfail : ∀ e, ∃ d w',
            failure_result "call_model_serving" e w0 = (inr d, w') ∧
            api_calls w' = api_calls w ∧
            d = VDict [(VStr "success", VBool false);
                       (VStr "error",
                        VStr ("Error (" +:+ utc_now (clock w) +:+ "): " +:+ exc_msg e))]).
  { intros e. destruct (failure_result_exact "call_model_serving" e w0)
      as (w' & -> & _ & _ & Hcalls & _).
    eexists _, w'. split; [reflexivity|]. by rewrite Hcalls, Hcalls0, Hclk0. }
  assert (Htail : ∀ messages, ∃ d w',
            (let (s, w'0) :=
               (record_call c "serving_endpoints.query";;
                response <- lift (serving_query c endpoint_name messages);;
                timestamp <- now_iso;;
                keys <- lift (inr (map fst items));;
                send_to_azure_logs "DatabricksApp_ModelServing"
                  (VDict [(VStr "timestamp", VStr timestamp);
                          (VStr "event", VStr "model_serving_called");
                          (VStr "endpoint_name", VStr endpoint_name);
                          (VStr "input_keys", VList keys);
                          (VStr "response_received", VBool true)]);;
                timestamp <- now_iso;;
                ret (VDict [(VStr "success", VBool true);
                            (VStr "endpoint_name", VStr endpoint_name);
                            (VStr "timestamp", VStr timestamp);
                            (VStr "result", response)])) w0 in
             match s with
             | inl e => failure_result "call_model_serving" e w'0
             | inr a => (inr a, w'0)
             end) = (inr d, w') ∧
            api_calls w' =
              (api_calls w ++ [{| call_client := client_obj c;
                                  call_op := "serving_endpoints.query" |}])%list ∧
            match serving_query c endpoint_name messages with
            | inr response =>
                dict_get "success" d = Some (VBool true) ∧
                dict_get "endpoint_name" d = Some (VStr endpoint_name) ∧
                dict_get "result" d = Some response
            | inl e =>
                d = VDict [(VStr "success", VBool false);
                           (VStr "error",
                            VStr ("Error (" +:+ utc_now (clock w) +:+ "): " +:+ exc_msg e))]
            end).
  { intros messages.
    destruct (serving_tail c endpoint_name items messages w0) as (r & w2 & -> & Hcalls2 & Hout).
    destruct (serving_query c endpoint_name messages) as [e|response].
    - destruct Hout as (-> & Hclk2).
      destruct (failure_result_exact "call_model_serving" e w2)
        as (w' & -> & _ & _ & Hcalls & _).
      eexists _, w'. split; [reflexivity|].
      by rewrite Hcalls, Hcalls2, Hcalls0, Hclk2, Hclk0.
    - destruct Hout as (d & -> & Hd). exists d, w2. by rewrite Hcalls2, Hcalls0. }
  cbn [default].
  set (given := default VNone (items_get "messages" items)).
  unfold bind at 1.
  destruct (truthy given) eqn:Hgiven.
  - unfold bind at 1, lift.
    destruct (py_iter given) as [e|msgs]; [apply Hfail|].
    destruct (chat_messages msgs) as [e|messages]; [apply Hfail|apply Htail].
  - do 2 (erewrite bind_run by reflexivity).
    destruct (truthy (py_or _ _)); [erewrite bind_run by reflexivity|]; apply Htail.
Qed.

(** X13. Without given messages the endpoint is asked one [USER]
    message: the prompt when there is one, else the content, else the
    stock greeting.  The call is made by the resolved client, once; the
    endpoint's answer is returned under [result], its error as the
    failure message. *)
Theorem X13_prompt_then_content_then_greeting endpoint_name inputs_json w items c :
  fst (loads_or_empty inputs_json w) = inr (VDict items) →
  fst (get_user_authorized_client w) = inr (Some c) →
  truthy (default VNone (items_get "messages" items)) = false →
  let prompt := default VNone (items_get "prompt" items) in
  let content := default VNone (items_get "content" items) in
  let text := if truthy prompt then prompt
              else if truthy content then content
              else VStr "Hello, can you help me?" in
  ∃ d w',
    call_model_serving_endpoint endpoint_name inputs_json w = (inr d, w') ∧
    api_calls w' =
      (api_calls w ++ [{| call_client := client_obj c;
                          call_op := "serving_endpoints.query" |}])%list ∧
    match serving_query c endpoint_name [{| role := USER; content := text |}] with
    | inr response =>
        dict_get "success" d = Some (VBool true) ∧
        dict_get "endpoint_name" d = Some (VStr endpoint_name) ∧
        dict_get "result" d = Some response
    | inl e =>
        d = VDict [(VStr "success", VBool false);
                   (VStr "error",
                    VStr ("Error (" +:+ utc_now (clock w) +:+ "): " +:+ exc_msg e))]
    end.
Proof.
  intros Hloads Hres Hgiven. cbv zeta.
  destruct (call_model_outcome endpoint_name inputs_json w items c Hloads Hres)
    as (d & w' & Heq & Hout).
  exists d, w'. split; [exact Heq|].
  revert Hout. unfold select_messages. rewrite Hgiven. unfold py_or.
  destruct (truthy (default VNone (items_get "prompt" items))) eqn:Hp;
    [by rewrite Hp|].
  destruct (items_get "content" items) as [v|]; simpl; [|done].
  by destruct (truthy v).
Qed.

(** X14. Given messages win over prompt and content.  When every one of
    them is an object they are sent as built; when one is not, the call
    fails on it and nothing is sent. *)
Theorem X14_given_messages_are_sent endpoint_name inputs_json w items msgs c :
  fst (loads_or_empty inputs_json w) = inr (VDict items) →
  fst (get_user_authorized_client w) = inr (Some c) →
  items_get "messages" items = Some (VList msgs) →
  msgs ≠ [] →
  ∃ d w',
    call_model_serving_endpoint endpoint_name inputs_json w = (inr d, w') ∧
    match chat_messages msgs with
    | inr messages =>
        api_calls w' =
          (api_calls w ++ [{| call_client := client_obj c;
                              call_op := "serving_endpoints.query" |}])%list ∧
        match serving_query c endpoint_name messages with
        | inr response =>
            dict_get "success" d = Some (VBool true) ∧
            dict_get "result" d = Some response
        | inl e =>
            d = VDict [(VStr "success", VBool false);
                       (VStr "error",
                        VStr ("Error (" +:+ utc_now (clock w) +:+ "): " +:+ exc_msg e))]
        end
    | inl e =>
        api_calls w' = api_calls w ∧
        d = VDict [(VStr "success", VBool false);
                   (VStr "error",
                    VStr ("Error (" +:+ utc_now (clock w) +:+ "): " +:+ exc_msg e))]
    end.
Proof.
  intros Hloads Hres Hmsgs Hne.
  destruct (call_model_outcome endpoint_name inputs_json w items c Hloads Hres)
    as (d & w' & Heq & Hout).
  exists d, w'. split; [exact Heq|].
  revert Hout. unfold select_messages. rewrite Hmsgs.
  destruct msgs as [|m ms]; [done|]. cbn -[chat_messages].
  destruct (chat_messages (m :: ms)) as [e|messages]; [done|].
  intros (Hcalls & Hout). split; [done|].
  destruct (serving_query c endpoint_name messages); [done|]. tauto.
Qed.

(** X15. The endpoint name is not validated.  The request model of the
    module refuses a name that is empty or all white space and strips
    the others, but the call does not use it: whatever the inputs, once
    they are an object, a client is resolved and the messages are built,
    the name goes to the endpoint as it was given, blank or padded, and a
    successful result carries it as it was given. *)
Theorem X15_endpoint_name_is_not_validated endpoint_name inputs_json w items c messages :
  fst (loads_or_empty inputs_json w) = inr (VDict items) →
  fst (get_user_authorized_client w) = inr (Some c) →
  select_messages items = inr messages →
  validate_endpoint_name endpoint_name =
    (if String.eqb (strip endpoint_name) ""
     then inl (ValueError "Endpoint name cannot be empty")
     else inr (strip endpoint_name)) ∧
  ∃ d w',
    call_model_serving_endpoint endpoint_name inputs_json w = (inr d, w') ∧
    api_calls w' =
      (api_calls w ++ [{| call_client := client_obj c;
                          call_op := "serving_endpoints.query" |}])%list ∧
    match serving_query c endpoint_name messages with
    | inr response =>
        dict_get "success" d = Some (VBool true) ∧
        dict_get "endpoint_name" d = Some (VStr endpoint_name) ∧
        dict_get "result" d = Some response
    | inl e =>
        d = VDict [(VStr "success", VBool false);
                   (VStr "error",
                    VStr ("Error (" +:+ utc_now (clock w) +:+ "): " +:+ exc_msg e))]
    end.
Proof.
  intros Hloads Hres Hsel. split.
  - unfold validate_endpoint_name. rewrite !truthy_VStr.
    destruct (String.eqb_spec (strip endpoint_name) "") as [Hs|Hs]; simpl.
    + by rewrite orb_true_r.
    + by rewrite (eqb_empty_false _ (strip_nonempty _ Hs)).
  - destruct (call_model_outcome endpoint_name inputs_json w items c Hloads Hres)
      as (d & w' & Heq & Hout).
    exists d, w'. split; [exact Heq|].
    rewrite Hsel in Hout. exact Hout.
Qed.

(** X16. Inputs that parse to something other than an object are
    rejected only after the client has been resolved: the failure names
    the missing [get] of the value's type and no call is made, but a user
    client has been constructed for nothing. *)
Theorem X16_non_object_inputs_fail_after_resolution endpoint_name inputs_json w inputs c :
  fst (loads_or_empty inputs_json w) = inr inputs →
  is_dict inputs = false →
  fst (get_user_authorized_client w) = inr (Some c) →
  ∃ w',
    call_model_serving_endpoint endpoint_name inputs_json w =
      (inr (VDict [(VStr "success", VBool false);
                   (VStr "error",
                    VStr ("Error (" +:+ utc_now (clock w) +:+ "): '" +:+ type_name inputs
                          +:+ "' object has no attribute 'get'"))]), w') ∧
    api_calls w' = api_calls w ∧
    next_obj w' = S (next_obj w).
Proof.
  intros Hloads Hnd Hres. unfold call_model_serving_endpoint, try_except.
  erewrite bind_run by (apply loads_or_empty_run; exact Hloads).
  destruct (resolver_outcome w) as (Hfr & _ & Hcases). cbv zeta in Hfr, Hcases.
  destruct (get_user_authorized_client w) as [r w1] eqn:Hg. simpl in Hres, Hfr, Hcases.
  subst r.
  destruct Hcases as [(Hnone & _)|(c0 & _ & _ & Hobj1 & _)]; [done|].
  destruct Hfr as (_ & _ & _ & _ & Hclk1 & Hcalls1).
  erewrite bind_run by exact Hg.
  do 2 (erewrite bind_run by reflexivity).
  unfold bind at 1, lift.
  assert (Hget : py_get inputs "messages" VNone = inl (AttributeError inputs "get"))
    by (by destruct inputs).
  rewrite Hget.
  match goal with |- context [failure_result ?ctx ?e ?w0] =>
    destruct (failure_result_exact ctx e w0) as (w' & -> & _ & Hobj & Hcalls & _) end.
  exists w'. simpl. rewrite Hclk1. split; [reflexivity|].
  rewrite Hcalls, Hobj. simpl. by rewrite Hcalls1, Hobj1.
Qed.

End Serving.

Section Status.
Context `{Platform}.

(** The resolver does not read the clock. *)
Lemma resolver_ignores_clock n w :
  fst (get_user_authorized_client (with_clock n w)) = fst (get_user_authorized_client w).
Proof.
  destruct (environ w !! "DATABRICKS_APP_NAME") as [a|] eqn:Happ.
  - destruct (forwarded_token w) as [t|] eqn:Htok.
    + destruct (truthy_str_cases (environ w !! "DATABRICKS_HOST"))
        as [[Hh Ht]|[[Hh Ht]|(h & Hh & Hhne & _)]].
      * destruct (resolver_hosted_no_host w t a Htok Happ Ht) as (w1 & -> & _).
        by destruct (resolver_hosted_no_host (with_clock n w) t a Htok Happ Ht)
          as (w2 & -> & _).
      * destruct (resolver_hosted_no_host w t a Htok Happ Ht) as (w1 & -> & _).
        by destruct (resolver_hosted_no_host (with_clock n w) t a Htok Happ Ht)
          as (w2 & -> & _).
      * destruct (resolver_hosted_token w t a h Htok Happ Hh Hhne) as (w1 & -> & _).
        by destruct (resolver_hosted_token (with_clock n w) t a h Htok Happ Hh Hhne)
          as (w2 & -> & _).
    + destruct (resolver_hosted_no_token w a Htok Happ) as (w1 & -> & _).
      by destruct (resolver_hosted_no_token (with_clock n w) a Htok Happ) as (w2 & -> & _).
  - destruct (resolver_local w Happ) as (w1 & -> & _).
    by destruct (resolver_local (with_clock n w) Happ) as (w2 & -> & _).
Qed.

Lemma forwarded_token_frame w w' :
  request_headers w' = request_headers w → forwarded_token w' = forwarded_token w.
Proof. unfold forwarded_token. by intros ->. Qed.

(** What the status report says, by the state of the module global and
    the outcome of the resolution. *)
Lemma get_app_status_outcome w :
  ∃ d w',
    get_app_status w = (inr d, w') ∧
    api_calls w' = api_calls w ∧
    match databricks_client w with
    | Unbound =>
        dict_get "status" d = Some (VStr "unhealthy") ∧
        dict_get "error" d =
          Some (VStr ("Error (" +:+ utc_now (clock w)
                      +:+ "): name 'databricks_client' is not defined"))
    | Bound principal =>
        dict_get "status" d = Some (VStr "healthy") ∧
        dict_get "app_service_principal" d =
          Some (VStr (if bool_decide (is_Some principal) then "available"
                      else "not available")) ∧
        dict_get "app_name" d =
          Some (VStr (default "local-dev" (environ w !! "DATABRICKS_APP_NAME"))) ∧
        match fst (get_user_authorized_client w) with
        | inr (Some c) =>
            match current_user_me c with
            | inr user_name =>
                dict_get "auth_mode" d =
                  Some (VStr (match forwarded_token w with
                              | Some _ => "user_authorization"
                              | None => "cli_fallback"
                              end)) ∧
                dict_get "current_user" d = Some (VStr user_name) ∧
                dict_get "user_authorized" d = Some (VBool true)
            | inl e =>
                dict_get "auth_mode" d = Some (VStr "error") ∧
                dict_get "current_user" d = Some (VStr ("error: " +:+ exc_msg e)) ∧
                dict_get "user_authorized" d = Some (VBool false)
            end
        | _ =>
            dict_get "auth_mode" d = Some (VStr "none") ∧
            dict_get "current_user" d = Some (VStr "authentication failed") ∧
            dict_get "user_authorized" d = Some (VBool false)
        end
    end.
Proof.
  unfold get_app_status, try_except.
  unfold bind at 1, global_databricks_client.
  destruct (databricks_client w) as [|principal] eqn:Hg.
  - destruct (handle_error_exact (NameError "databricks_client") "status_check" w)
      as (w1 & Hh & _ & _ & Hcalls & _).
    erewrite bind_run by exact Hh. erewrite bind_run by reflexivity. unfold ret.
    eexists _, _. split; [reflexivity|]. simpl. by rewrite Hcalls.
  - do 4 (erewrite bind_run by reflexivity).
    set (w0 := with_clock (S (clock w)) w).
    pose proof (resolver_ignores_clock (S (clock w)) w) as Hsame. fold w0 in Hsame.
    destruct (resolver_outcome w0) as (Hfr & _ & Hcases). cbv zeta in Hfr, Hcases.
    rewrite <- Hsame.
    destruct (get_user_authorized_client w0) as [r w1] eqn:Hres. simpl in Hfr, Hcases |- *.
    destruct Hfr as (Hreq1 & _ & _ & _ & _ & Hcalls1).
    assert (Htok : forwarded_token w1 = forwarded_token w)
      by (by rewrite (forwarded_token_frame w0 w1 Hreq1)).
    unfold bind at 1. cbv beta. unfold bind at 1. rewrite Hres.
    assert (Hsend : ∀ hs w2, api_calls w2 = api_calls w →
              ∃ w', (send_to_azure_logs "DatabricksApp_Health" (VDict hs);;
                     ret (VDict hs)) w2 = (inr (VDict hs), w') ∧
                    api_calls w' = api_calls w).
    { intros hs w2 Hw2.
      destruct (send_to_azure_logs_effect "DatabricksApp_Health" (VDict hs) w2)
        as (w' & Hs & _ & _ & Hcalls & _).
      erewrite bind_run by exact Hs. exists w'. by rewrite Hcalls. }
    destruct Hcases as [(-> & _)|(c & -> & _)].
    + unfold ret at 1. cbv beta iota.
      match goal with |- context [bind _ _ ?w2] =>
        match goal with |- context [VDict ?hs] =>
          pose proof (Hsend hs w2 Hcalls1) as Hsent end end;
        destruct Hsent as (w' & Hrun & Hcalls); rewrite Hrun.
      eexists _, w'. split; [reflexivity|]. split; [exact Hcalls|].
      destruct principal; simpl; repeat split; done.
    + unfold bind at 1, lift.
      destruct (current_user_me c) as [e|user_name].
      * unfold ret at 1. cbv beta iota.
        match goal with |- context [bind _ _ ?w2] =>
          match goal with |- context [VDict ?hs] =>
            pose proof (Hsend hs w2 Hcalls1) as Hsent end end;
        destruct Hsent as (w' & Hrun & Hcalls); rewrite Hrun.
        eexists _, w'. split; [reflexivity|]. split; [exact Hcalls|].
        destruct principal; simpl; repeat split; done.
      * rewrite (bind_run _ _ _ _ _ (get_user_access_token_eq w1)).
        rewrite Htok.
        destruct (forwarded_token w) as [t|] eqn:Hfw.
        -- rewrite (forwarded_token_truthy w t Hfw). cbv beta iota. unfold ret at 1.
           cbv beta iota.
           match goal with |- context [bind _ _ ?w2] =>
             match goal with |- context [VDict ?hs] =>
               pose proof (Hsend hs w2 Hcalls1) as Hsent end end;
        destruct Hsent as (w' & Hrun & Hcalls); rewrite Hrun.
           eexists _, w'. split; [reflexivity|]. split; [exact Hcalls|].
           destruct principal; simpl; repeat split; done.
        -- change (truthy_str None) with false. cbv beta iota. unfold ret at 1.
           cbv beta iota.
           match goal with |- context [bind _ _ ?w2] =>
             match goal with |- context [VDict ?hs] =>
               pose proof (Hsend hs w2 Hcalls1) as Hsent end end;
        destruct Hsent as (w' & Hrun & Hcalls); rewrite Hrun.
           eexists _, w'. split; [reflexivity|]. split; [exact Hcalls|].
           destruct principal; simpl; repeat split; done.
Qed.

(** X17. The status report never raises and makes no outbound call of
    its own.  It says "unhealthy" exactly when the module global has not
    been bound yet, that is before [setup_databricks_client] has run, and
    then carries the [NameError]; a failed resolution or a failed user
    lookup still reports "healthy". *)
Theorem X17_status_unhealthy_only_before_setup w :
  ∃ d w',
    get_app_status w = (inr d, w') ∧
    api_calls w' = api_calls w ∧
    (dict_get "status" d = Some (VStr "healthy") ∨
     dict_get "status" d = Some (VStr "unhealthy")) ∧
    (dict_get "status" d = Some (VStr "unhealthy") ↔ databricks_client w = Unbound) ∧
    (databricks_client w = Unbound →
     dict_get "error" d =
       Some (VStr ("Error (" +:+ utc_now (clock w)
                   +:+ "): name 'databricks_client' is not defined"))).
Proof.
  destruct (get_app_status_outcome w) as (d & w' & Heq & Hcalls & Hout).
  exists d, w'. split; [exact Heq|]. split; [exact Hcalls|].
  destruct (databricks_client w) as [|principal].
  - destruct Hout as (Hs & He). rewrite Hs. split; [by right|]. split; [done|]. done.
  - destruct Hout as (Hs & _). rewrite Hs. split; [by left|]. split; [|done].
    split; intros [=].
Qed.

(** X18. Once the global is bound, the reported [auth_mode] is "none"
    when no client resolves, "error" with the message when the user
    lookup raises, and otherwise follows the forwarded token alone:
    "user_authorization" when the request carries one, also outside the
    hosted context where the client in use is the CLI one, and
    "cli_fallback" when it carries none. *)
Theorem X18_status_auth_mode w principal :
  databricks_client w = Bound principal →
  ∃ d w',
    get_app_status w = (inr d, w') ∧
    dict_get "app_service_principal" d =
      Some (VStr (if bool_decide (is_Some principal) then "available"
                  else "not available")) ∧
    match fst (get_user_authorized_client w) with
    | inr (Some c) =>
        match current_user_me c with
        | inr user_name =>
            dict_get "auth_mode" d =
              Some (VStr (match forwarded_token w with
                          | Some _ => "user_authorization"
                          | None => "cli_fallback"
                          end)) ∧
            dict_get "current_user" d = Some (VStr user_name) ∧
            dict_get "user_authorized" d = Some (VBool true)
        | inl e =>
            dict_get "auth_mode" d = Some (VStr "error") ∧
            dict_get "current_user" d = Some (VStr ("error: " +:+ exc_msg e)) ∧
            dict_get "user_authorized" d = Some (VBool false)
        end
    | _ =>
        dict_get "auth_mode" d = Some (VStr "none") ∧
        dict_get "current_user" d = Some (VStr "authentication failed") ∧
        dict_get "user_authorized" d = Some (VBool false)
    end.
Proof.
  intros Hg.
  destruct (get_app_status_outcome w) as (d & w' & Heq & _ & Hout).
  rewrite Hg in Hout. destruct Hout as (_ & Hsp & _ & Hauth).
  by exists d, w'.
Qed.

(** X19. A test log always succeeds.  An empty or missing message
    becomes "Test log message" and an empty or missing level "info";
    the line is logged at [ERROR] for the level "error", at [WARNING] for
    "warning" and at [INFO] for every other level, known or not; the
    result echoes message and level, and nothing else is touched. *)
Theorem X19_test_log_defaults_and_levels message level w :
  let message' := if truthy_str message then default "" message else "Test log message" in
  let level' := if truthy_str level then default "" level else "info" in
  let line :=
    if String.eqb level' "error" then (ERROR, "Test error log: " +:+ message')
    else if String.eqb level' "warning" then (WARNING, "Test warning log: " +:+ message')
    else (INFO, "Test info log: " +:+ message') in
  ∃ d w' rest,
    send_test_log message level w = (inr d, w') ∧
    dict_get "success" d = Some (VBool true) ∧
    dict_get "message" d = Some (VStr message') ∧
    dict_get "level" d = Some (VStr level') ∧
    log w' = (log w ++ line :: rest)%list ∧
    environ w' = environ w ∧ api_calls w' = api_calls w ∧ next_obj w' = next_obj w.
Proof.
  cbv zeta. unfold send_test_log, try_except.
  set (message' := if truthy_str message then default "" message else "Test log message").
  set (level' := if truthy_str level then default "" level else "info").
  assert (Hlog : ∃ w1,
    (if String.eqb level' "error" then logger ERROR ("Test error log: " +:+ message')
     else if String.eqb level' "warning"
          then logger WARNING ("Test warning log: " +:+ message')
          else logger INFO ("Test info log: " +:+ message')) w = (inr tt, w1) ∧
    log w1 = (log w ++
      [if String.eqb level' "error" then (ERROR, "Test error log: " +:+ message')
       else if String.eqb level' "warning"
            then (WARNING, "Test warning log: " +:+ message')
            else (INFO, "Test info log: " +:+ message')])%list ∧
    environ w1 = environ w ∧ api_calls w1 = api_calls w ∧ next_obj w1 = next_obj w ∧
    azure_log_workspace_id w1 = azure_log_workspace_id w ∧
    azure_log_shared_key w1 = azure_log_shared_key w).
  { destruct (String.eqb level' "error"); [by eexists|].
    destruct (String.eqb level' "warning"); by eexists. }
  destruct Hlog as (w1 & Hl & Hlog1 & Henv1 & Hcalls1 & Hobj1 & Hws1 & Hkey1).
  erewrite bind_run by exact Hl.
  erewrite bind_run by reflexivity.
  match goal with |- context [bind (send_to_azure_logs ?t ?d) _ ?w2] =>
    destruct (send_to_azure_logs_effect t d w2)
      as (w' & Hs & Henv & Hobj & Hcalls & _ & _ & Hpost);
    erewrite (bind_run (send_to_azure_logs t d)) by exact Hs end.
  erewrite bind_run by reflexivity. unfold ret.
  assert (Hrest : ∃ rest, log w' = (log w1 ++ rest)%list).
  { revert Hpost. simpl.
    destruct (truthy_str (azure_log_workspace_id w1) && truthy_str (azure_log_shared_key w1)).
    - intros ->. eauto.
    - intros ->. exists []. simpl. by rewrite app_nil_r. }
  destruct Hrest as (rest & Hrest).
  eexists _, _, rest. split; [reflexivity|]. simpl.
  rewrite Hrest, Hlog1, Henv, Hcalls, Hobj. simpl.
  rewrite <- app_assoc. simpl. by rewrite Henv1, Hcalls1, Hobj1.
Qed.

End Status.

Section Trace.
Context `{Platform}.

Lemma emits_quiet {A} (m : M A) :
  (∀ w, databricks_client (snd (m w)) = databricks_client w ∧
        api_calls (snd (m w)) = api_calls w) →
  emits [] m.
Proof.
  intros Hq w. destruct (Hq w) as (Hg & Hc). split; [done|].
  exists []. by rewrite app_nil_r.
Qed.

Lemma emits_bind {A B} ops1 ops2 (m : M A) (k : A → M B) :
  emits ops1 m → (∀ a, emits ops2 (k a)) → emits (ops1 ++ ops2) (bind m k).
Proof.
  intros Hm Hk w. unfold bind. specialize (Hm w).
  destruct (m w) as [[e|a] w1]; simpl in *; destruct Hm as (Hg & l & Hl & Hn & Hop).
  - split; [done|]. exists l. split; [done|]. rewrite length_app. split; [lia|].
    eapply Forall_impl; [exact Hop|]. intros c Hc. apply elem_of_app. by left.
  - destruct (Hk a w1) as (Hg' & l' & Hl' & Hp & Hop').
    split; [by rewrite Hg'|].
    exists (l ++ l')%list. rewrite Hl', Hl, !length_app, app_assoc.
    split; [done|]. split; [lia|].
    apply Forall_app. split.
    + eapply Forall_impl; [exact Hop|]. intros c Hc. apply elem_of_app. by left.
    + eapply Forall_impl; [exact Hop'|]. intros c Hc. apply elem_of_app. by right.
Qed.

Lemma emits_try_except {A} ops (body : M A) handler :
  emits ops body → (∀ e, emits [] (handler e)) → emits ops (try_except body handler).
Proof.
  intros Hb Hh w. unfold try_except. specialize (Hb w).
  destruct (body w) as [[e|a] w1]; simpl in *; destruct Hb as (Hg & l & Hl & Hn & Hop).
  - destruct (Hh e w1) as (Hg' & l' & Hl' & Hp & _).
    destruct l' as [|c l']; [|simpl in Hp; lia].
    split; [by rewrite Hg'|].
    exists l. by rewrite Hl', Hl, app_nil_r.
  - split; [done|]. by exists l.
Qed.

Lemma emits_ret {A} (a : A) : emits [] (ret a).
Proof. by apply emits_quiet. Qed.

Lemma emits_raise {A} e : emits [] (raise (A:=A) e).
Proof. by apply emits_quiet. Qed.

Lemma emits_lift {A} (r : Exception + A) : emits [] (lift r).
Proof. by apply emits_quiet. Qed.

Lemma emits_logger lvl msg : emits [] (logger lvl msg).
Proof. by apply emits_quiet. Qed.

Lemma emits_os_getenv k : emits [] (os_getenv k).
Proof. by apply emits_quiet. Qed.

Lemma emits_now_iso : emits [] now_iso.
Proof. by apply emits_quiet. Qed.

Lemma emits_record_call c op : emits [op] (record_call c op).
Proof.
  intros w. split; [done|]. eexists [_]. split; [done|]. split; [done|].
  apply Forall_singleton. simpl. apply elem_of_cons. by left.
Qed.

Lemma emits_send_to_azure_logs t d : emits [] (send_to_azure_logs t d).
Proof.
  apply emits_quiet. intros w.
  destruct (send_to_azure_logs_effect t d w) as (w' & -> & _ & _ & Hc & Hg & _). done.
Qed.

Lemma emits_failure_result ctx e : emits [] (failure_result ctx e).
Proof.
  apply emits_quiet. intros w.
  destruct (failure_result_exact ctx e w) as (w' & -> & _ & _ & Hc & Hg & _). done.
Qed.

Lemma emits_handle_error e ctx : emits [] (handle_error e ctx).
Proof.
  apply emits_quiet. intros w.
  destruct (handle_error_exact e ctx w) as (w' & -> & _ & _ & Hc & Hg & _). done.
Qed.

Lemma emits_loads_or_empty s : emits [] (loads_or_empty s).
Proof.
  apply emits_quiet. intros w.
  destruct (loads_or_empty s w) as [r w'] eqn:Hl.
  by apply loads_or_empty_frame in Hl as ->.
Qed.

Lemma emits_new_SQLQueryRequest q ps wid : emits [] (new_SQLQueryRequest q ps wid).
Proof.
  apply emits_quiet. intros w.
  by destruct (new_SQLQueryRequest_world q ps wid w) as [->|[l ->]].
Qed.

Lemma emits_resolver : emits [] get_user_authorized_client.
Proof.
  apply emits_quiet. intros w.
  destruct (resolver_outcome w) as (Hfr & _). cbv zeta in Hfr.
  by destruct Hfr as (_ & Hg & _ & _ & _ & Hc).
Qed.

Lemma emits_token : emits [] get_user_access_token.
Proof.
  apply emits_quiet. intros w. rewrite get_user_access_token_eq. simpl.
  by destruct (forwarded_token w).
Qed.

Lemma emits_unable : emits [] unable_to_authenticate.
Proof. apply emits_quiet. intros w. by rewrite unable_to_authenticate_raises. Qed.

Lemma emits_resolve_job_client : emits [] resolve_job_client.
Proof.
  apply emits_quiet. intros w.
  destruct (resolve_job_client_frame w) as (_ & Hc & _ & Hg & _). done.
Qed.

Lemma emits_global : emits [] global_databricks_client.
Proof.
  apply emits_quiet. intros w. unfold global_databricks_client.
  by destruct (databricks_client w) eqn:Hg; simpl; rewrite Hg.
Qed.

Ltac quiet_step :=
  first [ apply emits_ret | apply emits_raise | apply emits_lift | apply emits_logger
        | apply emits_os_getenv | apply emits_now_iso | apply emits_send_to_azure_logs
        | apply emits_failure_result | apply emits_handle_error
        | apply emits_loads_or_empty | apply emits_new_SQLQueryRequest
        | apply emits_resolver | apply emits_token | apply emits_unable
        | apply emits_resolve_job_client | apply emits_global ].

(** A run of steps none of which is a traced operation. *)
Ltac quiet :=
  repeat first
    [ quiet_step
    | apply (emits_bind [] []); [|intros ?]
    | apply emits_try_except; [|intros ?]
    | match goal with
      | |- emits _ (if ?b then _ else _) => destruct b
      | |- emits _ (match ?x with _ => _ end) => destruct x
      end
    | apply emits_quiet; intros ?; split; reflexivity ].

(** Steps that are not traced, up to the one that is. *)
Ltac upto_call :=
  repeat first
    [ apply (emits_bind [_] []); [apply emits_record_call|intros ?]
    | apply (emits_bind [] [_]); [solve [quiet]|intros ?] ].

(** X20. Of the three operations a request can ask of the workspace, a
    statement execution, a job run and a serving query, each boundary
    function performs at most one, of its own kind, whatever the input
    and however it ends: there is no retry and no second call.  The
    status report and the test log perform none of the three.  None of
    the five functions removes a traced call or rebinds the
    service-principal global, which only [setup_databricks_client]
    assigns.  The trace does not hold the identity lookups
    [current_user.me()] and the posts to Azure, so nothing is said of
    them here. *)
Theorem X20_at_most_one_workspace_operation :
  (∀ query_template parameters_json warehouse_id,
     emits ["statement_execution.execute_statement"]
       (execute_sql_query query_template parameters_json warehouse_id)) ∧
  (∀ job_id parameters_json,
     emits ["jobs.run_now"] (submit_databricks_job job_id parameters_json)) ∧
  (∀ endpoint_name inputs_json,
     emits ["serving_endpoints.query"]
       (call_model_serving_endpoint endpoint_name inputs_json)) ∧
  emits [] get_app_status ∧
  (∀ message level, emits [] (send_test_log message level)).
Proof.
  split; [|split; [|split; [|split]]]; intros.
  - unfold execute_sql_query. apply emits_try_except; [|intros; quiet].
    upto_call. quiet.
  - unfold submit_databricks_job. apply emits_try_except; [|intros; quiet].
    upto_call. quiet.
  - unfold call_model_serving_endpoint. apply emits_try_except; [|intros; quiet].
    upto_call. quiet.
  - unfold get_app_status. quiet.
  - unfold send_test_log. quiet.
Qed.

End Trace.

(** * The further properties on concrete worlds *)

Lemma X1_witness :
  ("DATABRICKS_CLIENT_SECRET" ∉ mutated_keys ∨
   environ Demo.hosted_world !! "DATABRICKS_CLIENT_SECRET" ≠ Some "") ∧
  environ (snd (@get_user_authorized_client Demo.platform Demo.hosted_world))
    !! "DATABRICKS_CLIENT_SECRET" = Some "sp-secret".
Proof.
  split; [right; vm_compute; discriminate|].
  rewrite (@X1_resolution_frames_environment Demo.platform Demo.hosted_world
             "DATABRICKS_CLIENT_SECRET"); [reflexivity|].
  right. vm_compute. discriminate.
Defined.

Lemma X6_witness :
  0 < 7 ∧
  fst (loads_or_empty (H:=Lab.platform) "{}" Demo.local_world) = inr (VDict []) ∧
  as_dict_str (VDict []) = Some [] ∧
  (∃ c, fst (@resolve_job_client Lab.platform
               (with_client (Bound (Some Demo.sp_client)) Demo.local_world)) = inr c) ∧
  ∃ d w',
    @submit_databricks_job Lab.platform 7 "{}"
      (with_client (Bound (Some Demo.sp_client)) Demo.local_world) = (inr d, w') ∧
    dict_get "run_id" d = Some (VInt 9001) ∧
    dict_get "auth_method" d = Some (VStr "cli_authentication") ∧
    api_calls w' = [{| call_client := 0; call_op := "jobs.run_now" |}].
Proof.
  split; [lia|]. split; [reflexivity|]. split; [reflexivity|].
  split; [exists Demo.sp_client; reflexivity|].
  destruct (@X6_job_submission_success Lab.platform 7 "{}"
              (with_client (Bound (Some Demo.sp_client)) Demo.local_world)
              (VDict []) [] Demo.sp_client 9001)
    as (d & w' & Heq & _ & _ & Hrun & _ & Hauth & Hcalls & _);
    [lia|reflexivity|reflexivity|reflexivity|reflexivity|].
  exists d, w'. split; [exact Heq|]. split; [exact Hrun|]. split; [exact Hauth|exact Hcalls].
Defined.

Lemma X7_witness :
  0 < 13 ∧
  @run_now Lab.platform Demo.sp_client 13 [] =
    inl {| exc_type := "ResourceDoesNotExist"; exc_msg := "Job 13 does not exist." |} ∧
  ∃ w',
    @submit_databricks_job Lab.platform 13 "{}" Demo.hosted_world =
      (inr (VDict [(VStr "success", VBool false);
                   (VStr "error",
                    VStr "Error (2025-01-01T00:00:00+00:00): Job 13 does not exist.")]), w') ∧
    api_calls w' = [{| call_client := 0; call_op := "jobs.run_now" |}].
Proof.
  split; [lia|]. split; [reflexivity|].
  apply (@X7_job_submission_upstream_error Lab.platform 13 "{}" Demo.hosted_world
           (VDict []) [] Demo.sp_client
           {| exc_type := "ResourceDoesNotExist"; exc_msg := "Job 13 does not exist." |});
    [lia|reflexivity|reflexivity|reflexivity|reflexivity].
Defined.

Lemma X8_witness :
  fst (loads_or_empty (H:=Lab.platform) Lab.retries_json Demo.hosted_world)
    = inr (VDict [(VStr "retries", VInt 3)]) ∧
  as_dict_str (VDict [(VStr "retries", VInt 3)]) = None ∧
  ∃ msg w',
    @submit_databricks_job Lab.platform 7 Lab.retries_json Demo.hosted_world =
      (inr (VDict [(VStr "success", VBool false); (VStr "error", VStr msg)]), w') ∧
    api_calls w' = api_calls Demo.hosted_world ∧
    next_obj w' = next_obj Demo.hosted_world ∧
    environ w' = environ Demo.hosted_world.
Proof.
  split; [reflexivity|]. split; [reflexivity|].
  apply (@X8_job_parameters_must_be_strings Lab.platform 7 Lab.retries_json Demo.hosted_world).
  intros ps Hps. vm_compute in Hps. injection Hps as <-. reflexivity.
Defined.

Lemma X9_witness :
  fst (loads_or_empty (H:=Lab.platform) "{}" Demo.hosted_world) = inr (VDict []) ∧
  strip (Lab.nbsp +:+ "  SELECT id FROM t WHERE id > :n " +:+ Lab.em_space)
    = "SELECT id FROM t WHERE id > :n" ∧
  chosen_warehouse (Some "wh-2") Demo.hosted_world = Some "wh-2" ∧
  chosen_warehouse (Some "") Demo.hosted_world = Some "wh-1" ∧
  ∃ d w',
    @execute_sql_query Lab.platform
      (Lab.nbsp +:+ "  SELECT id FROM t WHERE id > :n " +:+ Lab.em_space) "{}" (Some "wh-2")
      Demo.hosted_world = (inr d, w') ∧
    dict_get "row_count" d = Some (VInt 2) ∧
    api_calls w' =
      [{| call_client := 1; call_op := "statement_execution.execute_statement" |}].
Proof.
  split; [reflexivity|]. split; [reflexivity|]. split; [reflexivity|].
  split; [reflexivity|].
  destruct (@X9_query_reaches_warehouse Lab.platform
              (Lab.nbsp +:+ "  SELECT id FROM t WHERE id > :n " +:+ Lab.em_space)
              "{}" (Some "wh-2") Demo.hosted_world
              (VDict []) []
              {| client_obj := 1; cfg_host := Some "https://adb-1.azuredatabricks.net";
                 cfg_token := Some "user-token";
                 cfg_env := scrub_principal Demo.hosted_env |})
    as (d & w' & Heq & Hcalls & Hout);
    [reflexivity|reflexivity|vm_compute; discriminate|reflexivity|reflexivity|].
  exists d, w'. split; [exact Heq|].
  vm_compute in Hout. destruct Hout as (_ & _ & Hrows).
  split; [exact Hrows|exact Hcalls].
Defined.

Lemma X10_witness :
  truthy_str (chosen_warehouse (Some "") Lab.no_warehouse_world) = false ∧
  ∃ w',
    @execute_sql_query Lab.platform "SELECT :n" "{}" (Some "") Lab.no_warehouse_world =
      (inr (VDict [(VStr "success", VBool false);
                   (VStr "error",
                    VStr "Error (2025-01-01T00:00:00+00:00): SQL warehouse ID is required")]),
       w') ∧
    api_calls w' = api_calls Lab.no_warehouse_world ∧
    next_obj w' = next_obj Lab.no_warehouse_world ∧
    environ w' = environ Lab.no_warehouse_world.
Proof.
  split; [reflexivity|].
  apply (@X10_warehouse_is_required Lab.platform "SELECT :n" "{}" (Some "")
           Lab.no_warehouse_world (VDict []) []);
    [reflexivity|reflexivity|vm_compute; discriminate|reflexivity].
Defined.

Lemma X11_witness :
  strip (" " +:+ Lab.nbsp +:+ Lab.em_space +:+ Lab.nel) = "" ∧
  ∃ msg w',
    @execute_sql_query Lab.platform (" " +:+ Lab.nbsp +:+ Lab.em_space +:+ Lab.nel) "{}" None
      Demo.hosted_world =
      (inr (VDict [(VStr "success", VBool false); (VStr "error", VStr msg)]), w') ∧
    api_calls w' = api_calls Demo.hosted_world ∧
    next_obj w' = next_obj Demo.hosted_world ∧
    environ w' = environ Demo.hosted_world.
Proof.
  split; [reflexivity|].
  apply (@X11_invalid_query_is_refused_early Lab.platform
           (" " +:+ Lab.nbsp +:+ Lab.em_space +:+ Lab.nel) "{}" None Demo.hosted_world).
  left. reflexivity.
Defined.

Lemma X13_witness :
  fst (loads_or_empty (H:=Lab.platform) Lab.prompt_json Demo.hosted_world) =
    inr (VDict [(VStr "prompt", VStr "Summarise"); (VStr "content", VStr "ignored")]) ∧
  ∃ d w',
    @call_model_serving_endpoint Lab.platform "chat" Lab.prompt_json Demo.hosted_world
      = (inr d, w') ∧
    @serving_query Lab.platform
      {| client_obj := 1; cfg_host := Some "https://adb-1.azuredatabricks.net";
         cfg_token := Some "user-token"; cfg_env := scrub_principal Demo.hosted_env |}
      "chat" [{| role := USER; content := VStr "Summarise" |}]
      = inr (VDict [(VStr "received", VInt 1)]) ∧
    dict_get "result" d = Some (VDict [(VStr "received", VInt 1)]).
Proof.
  split; [reflexivity|].
  destruct (@X13_prompt_then_content_then_greeting Lab.platform "chat" Lab.prompt_json
              Demo.hosted_world
              [(VStr "prompt", VStr "Summarise"); (VStr "content", VStr "ignored")]
              {| client_obj := 1; cfg_host := Some "https://adb-1.azuredatabricks.net";
                 cfg_token := Some "user-token";
                 cfg_env := scrub_principal Demo.hosted_env |})
    as (d & w' & Heq & _ & Hout); [reflexivity|reflexivity|reflexivity|].
  exists d, w'. split; [exact Heq|]. split; [reflexivity|].
  vm_compute in Hout. tauto.
Defined.

Lemma X14_witness :
  chat_messages [VDict [(VStr "role", VStr "assistant"); (VStr "content", VStr "Hi")];
                 VDict [(VStr "content", VStr "Go on")]] =
    inr [{| role := SYSTEM; content := VStr "Hi" |};
         {| role := USER; content := VStr "Go on" |}] ∧
  ∃ d w',
    @call_model_serving_endpoint Lab.platform "chat" Lab.messages_json Demo.hosted_world
      = (inr d, w') ∧
    dict_get "result" d = Some (VDict [(VStr "received", VInt 2)]).
Proof.
  split; [reflexivity|].
  destruct (@X14_given_messages_are_sent Lab.platform "chat" Lab.messages_json
              Demo.hosted_world
              [(VStr "messages",
                VList [VDict [(VStr "role", VStr "assistant"); (VStr "content", VStr "Hi")];
                       VDict [(VStr "content", VStr "Go on")]]);
               (VStr "prompt", VStr "ignored")]
              [VDict [(VStr "role", VStr "assistant"); (VStr "content", VStr "Hi")];
               VDict [(VStr "content", VStr "Go on")]]
              {| client_obj := 1; cfg_host := Some "https://adb-1.azuredatabricks.net";
                 cfg_token := Some "user-token";
                 cfg_env := scrub_principal Demo.hosted_env |})
    as (d & w' & Heq & Hout); [reflexivity|reflexivity|reflexivity|discriminate|].
  exists d, w'. split; [exact Heq|]. vm_compute in Hout. tauto.
Defined.

Lemma X15_witness :
  validate_endpoint_name (Lab.em_space +:+ "chat" +:+ Lab.nel) = inr "chat" ∧
  fst (loads_or_empty (H:=Lab.platform) Lab.prompt_json Demo.hosted_world) =
    inr (VDict [(VStr "prompt", VStr "Summarise"); (VStr "content", VStr "ignored")]) ∧
  ∃ d w',
    @call_model_serving_endpoint Lab.platform (Lab.em_space +:+ "chat" +:+ Lab.nel)
      Lab.prompt_json Demo.hosted_world = (inr d, w') ∧
    dict_get "success" d = Some (VBool true) ∧
    dict_get "endpoint_name" d = Some (VStr (Lab.em_space +:+ "chat" +:+ Lab.nel)).
Proof.
  destruct (@X15_endpoint_name_is_not_validated Lab.platform
              (Lab.em_space +:+ "chat" +:+ Lab.nel) Lab.prompt_json Demo.hosted_world
              [(VStr "prompt", VStr "Summarise"); (VStr "content", VStr "ignored")]
              {| client_obj := 1; cfg_host := Some "https://adb-1.azuredatabricks.net";
                 cfg_token := Some "user-token";
                 cfg_env := scrub_principal Demo.hosted_env |}
              [{| role := USER; content := VStr "Summarise" |}]
              eq_refl eq_refl eq_refl)
    as (Hv & d & w' & Heq & _ & Hout).
  split; [exact Hv|]. split; [reflexivity|].
  exists d, w'. split; [exact Heq|]. vm_compute in Hout. tauto.
Defined.

Lemma X16_witness :
  fst (loads_or_empty (H:=Lab.platform) "[1]" Demo.hosted_world) = inr (VList [VInt 1]) ∧
  ∃ w',
    @call_model_serving_endpoint Lab.platform "chat" "[1]" Demo.hosted_world =
      (inr (VDict [(VStr "success", VBool false);
                   (VStr "error",
                    VStr "Error (2025-01-01T00:00:00+00:00): 'list' object has no attribute 'get'")]),
       w') ∧
    api_calls w' = [] ∧ next_obj w' = 2%nat.
Proof.
  split; [reflexivity|].
  apply (@X16_non_object_inputs_fail_after_resolution Lab.platform "chat" "[1]"
           Demo.hosted_world (VList [VInt 1])
           {| client_obj := 1; cfg_host := Some "https://adb-1.azuredatabricks.net";
              cfg_token := Some "user-token";
              cfg_env := scrub_principal Demo.hosted_env |});
    reflexivity.
Defined.

Lemma X18_witness :
  databricks_client Demo.local_world = Bound None ∧
  environ Demo.local_world !! "DATABRICKS_APP_NAME" = None ∧
  ∃ d w',
    @get_app_status Lab.platform Demo.local_world = (inr d, w') ∧
    dict_get "app_service_principal" d = Some (VStr "not available") ∧
    dict_get "auth_mode" d = Some (VStr "user_authorization").
Proof.
  split; [reflexivity|]. split; [reflexivity|].
  destruct (@X18_status_auth_mode Lab.platform Demo.local_world None eq_refl)
    as (d & w' & Heq & Hsp & Hauth).
  exists d, w'. split; [exact Heq|]. split; [exact Hsp|].
  vm_compute in Hauth. tauto.
Defined.
